(** * hw_module_detector: a shallow embedding of the hardware-module detector

    The driver in [hw_registers.c] reads one 32-bit identification register
    when the platform device is probed, keeps the value in a process-wide
    singleton, answers bit queries from it and publishes it through 33 sysfs
    attributes.  This development models the driver's globals together with
    the slice of the kernel it talks to (allocator, sysfs class/device
    objects and their attribute directories), and then states and proves the
    properties of the specification on that model.

    Conventions.
    - C integers are [Z]; a [u32] lives in [0, 2^32).
    - A pointer that may carry an [ERR_PTR] code is a [cptr]; a pointer that
      is only ever NULL or valid is an [option positive].
    - Kernel calls that may fail take their verdict from an environment
      record, so every failure path of the source can be driven.
    - A use of an object that is no longer live (freed attribute, destroyed
      device or class) is undefined behaviour in C; the model makes it the
      explicit outcome [Fault]. *)

From Stdlib Require Import ZArith Lia String Ascii List Bool.
From stdpp Require Import base option list gmap strings pretty numbers.

Local Open Scope Z_scope.

(** ** Error numbers and pointers *)

Inductive errno : Type :=
  | ENOENT | ENXIO | ENOMEM | EBUSY | EEXIST | ENODEV | EINVAL | ENOSPC | ERANGE.

Definition errno_code (e : errno) : Z :=
  match e with
  | ENOENT => 2 | ENXIO => 6 | ENOMEM => 12 | EBUSY => 16 | EEXIST => 17
  | ENODEV => 19 | EINVAL => 22 | ENOSPC => 28 | ERANGE => 34
  end.

(** The value a function returns for [-E]. *)
Definition neg (e : errno) : Z := - errno_code e.

Inductive cptr : Type :=
  | NULL
  | Ptr (p : positive)
  | ERR_PTR (e : errno).

Definition IS_ERR (p : cptr) : bool :=
  match p with ERR_PTR _ => true | _ => false end.

Definition PTR_ERR (p : cptr) : Z :=
  match p with
  | ERR_PTR e => neg e
  | NULL => 0
  | Ptr p => Z.pos p
  end.

(** ** Data model *)

(** The two [show] callbacks of the file, as function-pointer values. *)
Inductive show_fn : Type :=
  | module_bits_show_fn
  | module_present_show_fn.

(** [struct device_attribute]: [attr.name], [attr.mode] and [show].
    [kzalloc] hands the structure out zeroed, hence the optional fields. *)
Record device_attribute : Type := mk_attr {
  attr_name : option string;
  attr_mode : Z;
  attr_show : option show_fn
}.

(** What a sysfs file refers to: the static [dev_attr_module_bits] or an
    attribute allocated at run time. *)
Inductive attr_ref : Type :=
  | static_module_bits
  | heap_attr (p : positive).

(** [struct hw_module_detector] (the [dev] back pointer is only used for
    log messages and is left out). *)
Record hw_module_detector : Type := mk_detector {
  reg_base : cptr;
  module_bits : Z;
  hw_class : cptr;
  hw_device : cptr
}.

(** Observable input/output of the driver, in program order. *)
Inductive io_event : Type :=
  | IoReadl (v : Z)
  | IoCreateFile (name : string).

Record state : Type := mk_state {
  (* hardware *)
  hw_reg : Z;
  (* globals of hw_registers.c *)
  hw_detector : option hw_module_detector;
  module_present_attrs : list (option positive);
  (* kernel objects *)
  kheap : gmap positive device_attribute;
  classes : gmap positive (option positive);
  devices : gmap positive (gmap string attr_ref);
  next_ptr : positive;
  (* the platform device *)
  drvdata : option hw_module_detector;
  (* trace *)
  io_log : list io_event
}.

Definition set_hw_reg (v : Z) (st : state) : state :=
  mk_state v (hw_detector st) (module_present_attrs st) (kheap st)
    (classes st) (devices st) (next_ptr st) (drvdata st) (io_log st).

Definition set_hw_detector (d : option hw_module_detector) (st : state) : state :=
  mk_state (hw_reg st) d (module_present_attrs st) (kheap st)
    (classes st) (devices st) (next_ptr st) (drvdata st) (io_log st).

Definition set_attrs (l : list (option positive)) (st : state) : state :=
  mk_state (hw_reg st) (hw_detector st) l (kheap st)
    (classes st) (devices st) (next_ptr st) (drvdata st) (io_log st).

Definition set_kheap (h : gmap positive device_attribute) (st : state) : state :=
  mk_state (hw_reg st) (hw_detector st) (module_present_attrs st) h
    (classes st) (devices st) (next_ptr st) (drvdata st) (io_log st).

Definition set_classes (c : gmap positive (option positive)) (st : state) : state :=
  mk_state (hw_reg st) (hw_detector st) (module_present_attrs st) (kheap st)
    c (devices st) (next_ptr st) (drvdata st) (io_log st).

Definition set_devices (d : gmap positive (gmap string attr_ref)) (st : state) : state :=
  mk_state (hw_reg st) (hw_detector st) (module_present_attrs st) (kheap st)
    (classes st) d (next_ptr st) (drvdata st) (io_log st).

Definition set_next_ptr (p : positive) (st : state) : state :=
  mk_state (hw_reg st) (hw_detector st) (module_present_attrs st) (kheap st)
    (classes st) (devices st) p (drvdata st) (io_log st).

Definition set_drvdata (d : option hw_module_detector) (st : state) : state :=
  mk_state (hw_reg st) (hw_detector st) (module_present_attrs st) (kheap st)
    (classes st) (devices st) (next_ptr st) d (io_log st).

Definition set_io_log (l : list io_event) (st : state) : state :=
  mk_state (hw_reg st) (hw_detector st) (module_present_attrs st) (kheap st)
    (classes st) (devices st) (next_ptr st) (drvdata st) l.

(** The state the module starts in: zero-initialised statics, nothing
    allocated, nothing published. *)
Definition boot_state (reg : Z) : state :=
  mk_state reg None (replicate 32 None) ∅ ∅ ∅ 1%positive None [].

(** ** A state monad with undefined behaviour *)

Inductive fault : Type :=
  | BadAttribute    (* an attribute that is not (or no longer) allocated *)
  | BadDevice       (* a device that is not (or no longer) registered *)
  | BadClass        (* a class that is not (or no longer) registered *)
  | BadAddress.     (* an MMIO access through an unmapped address *)

Inductive outcome (A : Type) : Type :=
  | Done (a : A) (st : state)
  | Fault (why : fault).
Arguments Done {A} a st.
Arguments Fault {A} why.

Definition M (A : Type) : Type := state -> outcome A.

Definition ret {A} (a : A) : M A := fun st => Done a st.

Definition bind {A B} (m : M A) (k : A -> M B) : M B :=
  fun st => match m st with
            | Done a st' => k a st'
            | Fault w => Fault w
            end.

Definition ub {A} (w : fault) : M A := fun _ => Fault w.
Definition gets {A} (f : state -> A) : M A := fun st => Done (f st) st.
Definition modify (f : state -> state) : M unit := fun st => Done tt (f st).

Declare Scope drv_scope.
Delimit Scope drv_scope with drv.
Notation "x <- m ;; k" := (bind m (fun x => k))
  (at level 100, m at next level, k at level 200, right associativity) : drv_scope.
Notation "m ;; k" := (bind m (fun _ => k))
  (at level 100, k at level 200, right associativity) : drv_scope.
Local Open Scope drv_scope.

(** ** Text formatting and parsing used by the driver *)

(** The line feed that ends every attribute's text. *)
Definition nl : string := String "010"%char "".

(** [sprintf] returns the number of characters written together with the
    buffer contents. *)
Definition sprintf_result (s : string) : Z * string :=
  (Z.of_nat (String.length s), s).

Definition hex_digit (d : Z) : ascii :=
  match d with
  | 0 => "0" | 1 => "1" | 2 => "2" | 3 => "3" | 4 => "4" | 5 => "5"
  | 6 => "6" | 7 => "7" | 8 => "8" | 9 => "9" | 10 => "a" | 11 => "b"
  | 12 => "c" | 13 => "d" | 14 => "e" | _ => "f"
  end%char.

(** Digits of [v] in base 16, most significant first, none for zero. *)
Fixpoint hex_go (fuel : nat) (v : Z) (acc : string) : string :=
  match fuel with
  | O => acc
  | S f =>
      if v =? 0 then acc
      else hex_go f (v / 16) (String (hex_digit (v mod 16)) acc)
  end.

(** The [%x] conversion of an [unsigned int]. *)
Definition fmt_x (v : Z) : string :=
  let u := v mod 2 ^ 32 in
  if u =? 0 then "0" else hex_go 8 u "".

Fixpoint zeros (n : nat) : string :=
  match n with
  | O => ""
  | S n' => String "0" (zeros n')
  end.

(** Field width [w] with the [0] flag. *)
Definition zero_pad (w : nat) (s : string) : string :=
  zeros (w - String.length s) +:+ s.

(** The [%08x] conversion. *)
Definition fmt_08x (v : Z) : string := zero_pad 8 (fmt_x v).

(** [snprintf(name, size, "module_%d", i)]: at most [size - 1] characters
    are stored. *)
Definition snprintf_module (size : nat) (i : Z) : string :=
  String.substring 0 (size - 1) ("module_" +:+ pretty i).

(** [s + n] on a NUL-terminated string; [None] when the pointer would run
    past the terminator. *)
Fixpoint str_advance (n : nat) (s : string) : option string :=
  match n with
  | O => Some s
  | S n' =>
      match s with
      | String _ r => str_advance n' r
      | EmptyString => None
      end
  end.

Definition digit_value (c : ascii) : option Z :=
  let n := Z.of_N (N_of_ascii c) in
  if (48 <=? n) && (n <=? 57) then Some (n - 48) else None.

(** [_parse_integer] in base 10: value, number of characters consumed and
    the unread rest. *)
Fixpoint parse_integer (s : string) (acc : Z) (cnt : nat) : Z * nat * string :=
  match s with
  | String c r =>
      match digit_value c with
      | Some d => parse_integer r (acc * 10 + d) (S cnt)
      | None => (acc, cnt, s)
      end
  | EmptyString => (acc, cnt, s)
  end.

(** [kstrtouint(s, 10, &res)] of lib/kstrtox.c: an optional [+], at least
    one digit, an optional final newline and nothing else; the value has to
    fit an [unsigned int]. *)
Definition kstrtouint (s : string) : errno + Z :=
  let s := match s with
           | String "+"%char r => r
           | _ => s
           end in
  let '(v, cnt, rest) := parse_integer s 0 O in
  if 2 ^ 64 <=? v then inl ERANGE
  else if (cnt =? 0)%nat then inl EINVAL
  else
    let rest := match rest with
                | String "010"%char r => r
                | _ => rest
                end in
    match rest with
    | String _ _ => inl EINVAL
    | EmptyString => if 2 ^ 32 <=? v then inl ERANGE else inr v
    end.

(** ** The bitmask store: [hw_module_present] and [hw_get_module_mask] *)

(** [BIT(nr)] of linux/bits.h, [1UL << nr]; every caller passes [nr < 32],
    so the width of [unsigned long] does not matter. *)
Definition BIT (nr : Z) : Z := Z.shiftl 1 nr.

Definition hw_module_present (module_bit : Z) (st : state) : bool :=
  match hw_detector st with
  | None => false
  | Some d =>
      if 32 <=? module_bit then false
      else negb (Z.land (module_bits d) (BIT module_bit) =? 0)
  end.

Definition hw_get_module_mask (st : state) : Z :=
  match hw_detector st with
  | None => 0
  | Some d => module_bits d
  end.

(** ** The sysfs read handlers *)

(** A handler yields its return value and what it wrote to [buf]; [None]
    stands for a read through an invalid name pointer. *)
Definition module_bits_show (st : state) : option (Z * string) :=
  match hw_detector st with
  | None => Some (neg EINVAL, "")
  | Some d => Some (sprintf_result ("0x" +:+ fmt_08x (module_bits d) +:+ nl))
  end.

Definition module_present_show (attr : device_attribute) (st : state)
  : option (Z * string) :=
  match hw_detector st with
  | None => Some (neg EINVAL, "")
  | Some _ =>
      match attr_name attr with
      | None => None
      | Some name =>
          match str_advance 7 name with
          | None => None
          | Some tail =>
              match kstrtouint tail with
              | inl _ => Some (neg EINVAL, "")
              | inr bit =>
                  if 32 <=? bit then Some (neg EINVAL, "")
                  else Some (sprintf_result
                         (pretty (if hw_module_present bit st then 1 else 0) +:+ nl))
              end
          end
      end
  end.

(** [DEVICE_ATTR_RO(module_bits)]. *)
Definition dev_attr_module_bits : device_attribute :=
  mk_attr (Some "module_bits") 292 (Some module_bits_show_fn).

Definition call_show (f : show_fn) (attr : device_attribute) (st : state)
  : option (Z * string) :=
  match f with
  | module_bits_show_fn => module_bits_show st
  | module_present_show_fn => module_present_show attr st
  end.

(** ** The kernel services the driver calls *)

(** Verdicts the environment gives for the calls that may fail while the
    attribute of one bit is created. *)
Inductive bit_fault : Type :=
  | NoFault
  | KzallocFails
  | KstrdupFails
  | CreateFileFails (e : errno).

Record files_env : Type := mk_files_env {
  fe_aggregate : option errno;      (* device_create_file of module_bits *)
  fe_bit : nat -> bit_fault         (* the three calls made for bit i *)
}.

Inductive map_result : Type :=
  | Mapped (addr : positive)
  | MapError (e : errno).

Record probe_env : Type := mk_probe_env {
  env_devm_kzalloc : bool;          (* devm_kzalloc succeeds *)
  env_resource : bool;              (* platform_get_resource finds the region *)
  env_ioremap : map_result;         (* devm_ioremap_resource *)
  env_class_create : option errno;  (* class_create *)
  env_device_create : option errno; (* device_create *)
  env_files : files_env
}.

(** [kzalloc(sizeof(struct device_attribute), GFP_KERNEL)]: a fresh zeroed
    attribute, or NULL. *)
Definition kzalloc (ok : bool) : M (option positive) :=
  fun st =>
    if ok then
      let p := next_ptr st in
      Done (Some p)
        (set_next_ptr (Pos.succ p)
           (set_kheap (<[p := mk_attr None 0 None]> (kheap st)) st))
    else Done None st.

(** [kstrdup(name, GFP_KERNEL)]; the copy is stored with the attribute that
    owns it. *)
Definition kstrdup (ok : bool) (s : string) : M (option string) :=
  ret (if ok then Some s else None).

Definition attr_load (p : positive) : M device_attribute :=
  fun st =>
    match kheap st !! p with
    | Some a => Done a st
    | None => Fault BadAttribute
    end.

Definition attr_store (p : positive) (f : device_attribute -> device_attribute)
  : M unit :=
  fun st =>
    match kheap st !! p with
    | Some a => Done tt (set_kheap (<[p := f a]> (kheap st)) st)
    | None => Fault BadAttribute
    end.

Definition with_name (nm : option string) (a : device_attribute) :=
  mk_attr nm (attr_mode a) (attr_show a).
Definition with_mode (m : Z) (a : device_attribute) :=
  mk_attr (attr_name a) m (attr_show a).
Definition with_show (f : show_fn) (a : device_attribute) :=
  mk_attr (attr_name a) (attr_mode a) (Some f).

(** [kfree(p->attr.name)]: reads the attribute; the name's storage goes
    with the attribute record. *)
Definition kfree_name (p : positive) : M unit :=
  _ <- attr_load p ;; ret tt.

(** [kfree(p)]. *)
Definition kfree (p : positive) : M unit :=
  fun st =>
    match kheap st !! p with
    | Some _ => Done tt (set_kheap (delete p (kheap st)) st)
    | None => Fault BadAttribute
    end.

Definition deref_attr (r : attr_ref) : M device_attribute :=
  match r with
  | static_module_bits => ret dev_attr_module_bits
  | heap_attr p => attr_load p
  end.

(** The attribute directory of a device; NULL has none and the two file
    calls below do nothing for it. *)
Definition dev_dir (dev : cptr) : M (option (positive * gmap string attr_ref)) :=
  fun st =>
    match dev with
    | NULL => Done None st
    | Ptr d =>
        match devices st !! d with
        | Some dir => Done (Some (d, dir)) st
        | None => Fault BadDevice
        end
    | ERR_PTR _ => Fault BadDevice
    end.

(** [device_create_file(dev, attr)]: fails when the environment says so or
    when the directory already has a file of that name. *)
Definition device_create_file (verdict : option errno) (dev : cptr) (r : attr_ref)
  : M Z :=
  od <- dev_dir dev ;;
  match od with
  | None => ret 0
  | Some (d, dir) =>
      a <- deref_attr r ;;
      match attr_name a with
      | None => ub BadAttribute
      | Some nm =>
          match verdict with
          | Some e => ret (neg e)
          | None =>
              match dir !! nm with
              | Some _ => ret (neg EEXIST)
              | None =>
                  modify (fun st =>
                    set_io_log (io_log st ++ [IoCreateFile nm])
                      (set_devices (<[d := <[nm := r]> dir]> (devices st)) st)) ;;
                  ret 0
              end
          end
      end
  end.

(** [device_remove_file(dev, attr)]: removes the file named [attr->attr.name]
    if there is one. *)
Definition device_remove_file (dev : cptr) (r : attr_ref) : M unit :=
  od <- dev_dir dev ;;
  match od with
  | None => ret tt
  | Some (d, dir) =>
      a <- deref_attr r ;;
      match attr_name a with
      | None => ub BadAttribute
      | Some nm =>
          modify (fun st => set_devices (<[d := delete nm dir]> (devices st)) st)
      end
  end.

(** [class_create("hw_module")]. *)
Definition class_create (verdict : option errno) : M cptr :=
  fun st =>
    match verdict with
    | Some e => Done (ERR_PTR e) st
    | None =>
        let c := next_ptr st in
        Done (Ptr c)
          (set_next_ptr (Pos.succ c) (set_classes (<[c := None]> (classes st)) st))
    end.

(** [device_create(cls, NULL, MKDEV(0, 0), detector, "hw_module")]: a new
    device with an empty attribute directory. *)
Definition device_create (verdict : option errno) (cls : cptr) : M cptr :=
  fun st =>
    match cls with
    | Ptr c =>
        match classes st !! c with
        | Some _ =>
            match verdict with
            | Some e => Done (ERR_PTR e) st
            | None =>
                let d := next_ptr st in
                Done (Ptr d)
                  (set_next_ptr (Pos.succ d)
                     (set_devices (<[d := ∅]> (devices st))
                        (set_classes (<[c := Some d]> (classes st)) st)))
            end
        | None => Fault BadClass
        end
    | _ => Fault BadClass
    end.

(** [device_destroy(cls, MKDEV(0, 0))]: unregisters the class's device, if
    it has one, with everything in its directory. *)
Definition device_destroy (cls : cptr) : M unit :=
  fun st =>
    match cls with
    | Ptr c =>
        match classes st !! c with
        | Some (Some d) =>
            Done tt (set_devices (delete d (devices st))
                       (set_classes (<[c := None]> (classes st)) st))
        | Some None => Done tt st
        | None => Fault BadClass
        end
    | _ => Fault BadClass
    end.

(** [class_destroy(cls)]; NULL and error pointers are ignored. *)
Definition class_destroy (cls : cptr) : M unit :=
  fun st =>
    match cls with
    | Ptr c =>
        match classes st !! c with
        | Some _ => Done tt (set_classes (delete c (classes st)) st)
        | None => Fault BadClass
        end
    | _ => Done tt st
    end.

(** [readl(base)]: one 32-bit load from the mapped register. *)
Definition readl (base : cptr) : M Z :=
  fun st =>
    match base with
    | Ptr _ =>
        let v := hw_reg st mod 2 ^ 32 in
        Done v (set_io_log (io_log st ++ [IoReadl v]) st)
    | _ => Fault BadAddress
    end.

(** [platform_get_drvdata], [platform_set_drvdata]. *)
Definition platform_get_drvdata : M (option hw_module_detector) := gets drvdata.
Definition platform_set_drvdata (d : option hw_module_detector) : M unit :=
  modify (set_drvdata d).

(** What the driver core does to the device once [remove] has returned:
    [device_unbind_cleanup] resets the driver data. *)
Definition device_unbind_cleanup : M unit := platform_set_drvdata None.

(** What an observer gets from reading file [name] of device [d]: sysfs
    finds the attribute behind the file and calls its [show]. *)
Definition sysfs_read (d : positive) (name : string) (st : state)
  : option (Z * string) :=
  match devices st !! d with
  | None => None
  | Some dir =>
      match dir !! name with
      | None => None
      | Some r =>
          let oa := match r with
                    | static_module_bits => Some dev_attr_module_bits
                    | heap_attr p => kheap st !! p
                    end in
          match oa with
          | None => None
          | Some a =>
              match attr_show a with
              | None => None
              | Some f => call_show f a st
              end
          end
      end
  end.

(** ** The driver *)

Definition slot (i : nat) (st : state) : option positive :=
  default None (module_present_attrs st !! i).

Definition get_slot (i : nat) : M (option positive) := gets (slot i).

Definition set_slot (i : nat) (v : option positive) : M unit :=
  modify (fun st => set_attrs (<[i := v]> (module_present_attrs st)) st).

Definition with_reg_base (p : cptr) (d : hw_module_detector) :=
  mk_detector p (module_bits d) (hw_class d) (hw_device d).
Definition with_module_bits (v : Z) (d : hw_module_detector) :=
  mk_detector (reg_base d) v (hw_class d) (hw_device d).
Definition with_hw_class (p : cptr) (d : hw_module_detector) :=
  mk_detector (reg_base d) (module_bits d) p (hw_device d).
Definition with_hw_device (p : cptr) (d : hw_module_detector) :=
  mk_detector (reg_base d) (module_bits d) (hw_class d) p.

(** [read_hw_module_reg]: the structure is passed by value and handed back
    updated, so the source's NULL test on [detector] itself has no
    counterpart. *)
Definition read_hw_module_reg (detector : hw_module_detector)
  : M hw_module_detector :=
  match reg_base detector with
  | NULL => ret detector
  | base =>
      v <- readl base ;;
      ret (with_module_bits v detector)
  end.

(** The body of the [for] loop of [create_module_sysfs_files], from index
    [i] for [n] more rounds.  [Some ret] is the jump to [err_cleanup]. *)
Fixpoint create_loop (fe : files_env) (dev : cptr) (n i : nat) : M (option Z) :=
  match n with
  | O => ret None
  | S n' =>
      let name := snprintf_module 20 (Z.of_nat i) in
      p <- kzalloc (match fe_bit fe i with KzallocFails => false | _ => true end) ;;
      set_slot i p ;;
      match p with
      | None => ret (Some (neg ENOMEM))
      | Some a =>
          nm <- kstrdup (match fe_bit fe i with KstrdupFails => false | _ => true end)
                  name ;;
          attr_store a (with_name nm) ;;
          match nm with
          | None =>
              kfree a ;;
              set_slot i None ;;
              ret (Some (neg ENOMEM))
          | Some _ =>
              attr_store a (with_mode 292) ;;
              attr_store a (with_show module_present_show_fn) ;;
              r <- device_create_file
                     (match fe_bit fe i with CreateFileFails e => Some e | _ => None end)
                     dev (heap_attr a) ;;
              if r =? 0 then create_loop fe dev n' (S i)
              else
                kfree_name a ;;
                kfree a ;;
                set_slot i None ;;
                ret (Some r)
          end
      end
  end.

(** The loop under [err_cleanup]. *)
Fixpoint cleanup_loop (dev : cptr) (n i : nat) : M unit :=
  match n with
  | O => ret tt
  | S n' =>
      s <- get_slot i ;;
      match s with
      | Some a =>
          device_remove_file dev (heap_attr a) ;;
          kfree_name a ;;
          kfree a
      | None => ret tt
      end ;;
      cleanup_loop dev n' (S i)
  end.

Definition create_module_sysfs_files (fe : files_env) (dev : cptr) : M Z :=
  r <- device_create_file (fe_aggregate fe) dev static_module_bits ;;
  if r =? 0 then
    j <- create_loop fe dev 32 0 ;;
    match j with
    | None => ret 0
    | Some e =>
        cleanup_loop dev 32 0 ;;
        device_remove_file dev static_module_bits ;;
        ret e
    end
  else ret r.

(** The loop of [remove_module_sysfs_files]. *)
Fixpoint remove_loop (dev : cptr) (n i : nat) : M unit :=
  match n with
  | O => ret tt
  | S n' =>
      s <- get_slot i ;;
      match s with
      | Some a =>
          device_remove_file dev (heap_attr a) ;;
          kfree_name a ;;
          kfree a ;;
          set_slot i None
      | None => ret tt
      end ;;
      remove_loop dev n' (S i)
  end.

Definition remove_module_sysfs_files (dev : cptr) : M unit :=
  remove_loop dev 32 0 ;;
  device_remove_file dev static_module_bits.

Definition zero_detector : hw_module_detector := mk_detector NULL 0 NULL NULL.

Definition hw_module_detector_probe (env : probe_env) : M Z :=
  if negb (env_devm_kzalloc env) then ret (neg ENOMEM)
  else
    let detector := zero_detector in
    if negb (env_resource env) then ret (neg EINVAL)
    else
      let detector :=
        with_reg_base (match env_ioremap env with
                       | Mapped a => Ptr a
                       | MapError e => ERR_PTR e
                       end) detector in
      if IS_ERR (reg_base detector) then ret (PTR_ERR (reg_base detector))
      else
        detector <- read_hw_module_reg detector ;;
        cls <- class_create (env_class_create env) ;;
        let detector := with_hw_class cls detector in
        if IS_ERR (hw_class detector) then ret (PTR_ERR (hw_class detector))
        else
          dv <- device_create (env_device_create env) (hw_class detector) ;;
          let detector := with_hw_device dv detector in
          if IS_ERR (hw_device detector) then
            let r := PTR_ERR (hw_device detector) in
            class_destroy (hw_class detector) ;;
            ret r
          else
            r <- create_module_sysfs_files (env_files env) (hw_device detector) ;;
            if r =? 0 then
              modify (set_hw_detector (Some detector)) ;;
              platform_set_drvdata (Some detector) ;;
              ret 0
            else
              device_destroy (hw_class detector) ;;
              class_destroy (hw_class detector) ;;
              ret r.

Definition hw_module_detector_remove : M Z :=
  detector <- platform_get_drvdata ;;
  match detector with
  | Some d =>
      remove_module_sysfs_files (hw_device d) ;;
      device_destroy (hw_class d) ;;
      class_destroy (hw_class d)
  | None => ret tt
  end ;;
  modify (set_hw_detector None) ;;
  ret 0.

(** ** Lifecycle events *)

(** What can happen to the module from outside: the driver core binds or
    unbinds the platform device, or the hardware register changes. *)
Inductive event : Type :=
  | EvProbe (env : probe_env)
  | EvRemove
  | EvRegister (v : Z).

(** One event.  [attached] records whether an attach has completed
    successfully with no detach after it; the result is its new value.  The
    driver core resets the driver data once [remove] has returned. *)
Definition step (ev : event) (attached : bool) : M bool :=
  match ev with
  | EvProbe env =>
      r <- hw_module_detector_probe env ;;
      ret (if r =? 0 then true else attached)
  | EvRemove =>
      hw_module_detector_remove ;;
      device_unbind_cleanup ;;
      ret false
  | EvRegister v =>
      modify (set_hw_reg v) ;;
      ret attached
  end.

Fixpoint run (evs : list event) (attached : bool) : M bool :=
  match evs with
  | [] => ret attached
  | ev :: evs' =>
      b <- step ev attached ;;
      run evs' b
  end.

(** ** The character-device stub of my_device.c *)

Module MyDevice.

Inductive loglevel : Type := KERN_ALERT | KERN_INFO.

Record cstate : Type := mk_cstate {
  major_num : Z;                          (* static int major_num *)
  chrdevs : gmap Z string;                (* registered majors and their names *)
  dmesg : list (loglevel * string)        (* what printk has written *)
}.

Definition DEVICE_NAME : string := "my_device".

Definition printk (lvl : loglevel) (msg : string) (st : cstate) : cstate :=
  mk_cstate (major_num st) (chrdevs st) (dmesg st ++ [(lvl, msg)]).

(** What the kernel answers to a request for a dynamic major. *)
Inductive chrdev_verdict : Type :=
  | Assigned (major : positive)
  | Refused (e : errno).

(** [register_chrdev(0, name, &fops)]: the major the kernel assigns, or a
    negative error; a major that is already taken is not assigned. *)
Definition register_chrdev (v : chrdev_verdict) (name : string) (st : cstate)
  : Z * cstate :=
  match v with
  | Refused e => (neg e, st)
  | Assigned m =>
      match chrdevs st !! Z.pos m with
      | Some _ => (neg EBUSY, st)
      | None =>
          (Z.pos m,
           mk_cstate (major_num st) (<[Z.pos m := name]> (chrdevs st)) (dmesg st))
      end
  end.

(** [unregister_chrdev(major, name)]: drops the entry of [major], if any. *)
Definition unregister_chrdev (major : Z) (name : string) (st : cstate) : cstate :=
  mk_cstate (major_num st) (delete major (chrdevs st)) (dmesg st).

Definition my_open (st : cstate) : Z * cstate :=
  (0, printk KERN_INFO ("my_device: Device opened" +:+ nl) st).

Definition my_init (v : chrdev_verdict) (st : cstate) : Z * cstate :=
  let '(r, st1) := register_chrdev v DEVICE_NAME st in
  let st2 := mk_cstate r (chrdevs st1) (dmesg st1) in
  if r <? 0 then
    (r, printk KERN_ALERT ("my_device: Registration failed" +:+ nl) st2)
  else
    (0, printk KERN_INFO
          ("my_device: Registered with major " +:+ pretty r +:+ nl) st2).

Definition my_exit (st : cstate) : cstate :=
  printk KERN_INFO ("my_device: Unregistered" +:+ nl)
    (unregister_chrdev (major_num st) DEVICE_NAME st).

End MyDevice.

(** * Vocabulary of the statements

    Definitions used to state and prove the properties below; none of them
    is part of the driver. *)

(** The wording of the specification for the aggregate attribute: eight
    hexadecimal digits, one per nibble of the mask, most significant
    first. *)
Definition nibble (m k : Z) : ascii :=
  hex_digit (Z.land (Z.shiftr m (4 * k)) 15).

Definition hex8 (m : Z) : string :=
  String (nibble m 7) (String (nibble m 6) (String (nibble m 5)
  (String (nibble m 4) (String (nibble m 3) (String (nibble m 2)
  (String (nibble m 1) (String (nibble m 0) ""))))))).


Definition bit_name (i : nat) : string := snprintf_module 20 (Z.of_nat i).

Definition name_eqb (a b : string) : bool := bool_decide (a = b).

(** The loops of [err_cleanup] and of [remove_module_sysfs_files] have the
    same body but for the final [module_present_attrs[i] = NULL]; one
    statement covers both through a flag. *)
Fixpoint teardown_loop (clear : bool) (dev : cptr) (n i : nat) : M unit :=
  match n with
  | O => ret tt
  | S n' =>
      s <- get_slot i ;;
      match s with
      | Some a =>
          device_remove_file dev (heap_attr a) ;;
          kfree_name a ;;
          kfree a ;;
          if clear then set_slot i None else ret tt
      | None => ret tt
      end ;;
      teardown_loop clear dev n' (S i)
  end.

(** Slots [i .. i+n-1] are in order: each occupied one points to a live,
    named attribute, and no attribute sits in two of them. *)
Definition range_ok (n i : nat) (st : state) : Prop :=
  forall j p, (i <= j < i + n)%nat -> slot j st = Some p ->
    (exists a nm, kheap st !! p = Some a /\ attr_name a = Some nm) /\
    (forall j', (i <= j' < i + n)%nat -> slot j' st = Some p -> j' = j).

(** Attribute [p] is held by one of the slots [i .. i+n-1]. *)
Definition held (n i : nat) (st : state) (p : positive) : Prop :=
  exists j, (i <= j < i + n)%nat /\ slot j st = Some p.

(** [nm] is the name of an attribute held by one of those slots. *)
Definition held_name (n i : nat) (st : state) (nm : string) : Prop :=
  exists j p a, (i <= j < i + n)%nat /\ slot j st = Some p /\
                kheap st !! p = Some a /\ attr_name a = Some nm.

(** What a teardown leaves in the slot array. *)
Definition slots_after (clear : bool) (n i : nat)
    (l l' : list (option positive)) : Prop :=
  if clear then
    (forall j, (i <= j < i + n)%nat -> default None (l' !! j) = None) /\
    (forall j, ~ (i <= j < i + n)%nat -> l' !! j = l !! j) /\
    length l' = length l
  else l' = l.

(** The [j]-th pointer handed out after [np]. *)
Definition ptr_at (np : positive) (j : nat) : positive :=
  Pos.of_nat (Pos.to_nat np + j).

(** The attribute the loop builds for bit [i]. *)
Definition bit_attr (i : nat) : device_attribute :=
  mk_attr (Some (bit_name i)) 292 (Some module_present_show_fn).

(** The value [ret] takes when the round for a bit fails. *)
Definition fault_code (f : bit_fault) : Z :=
  match f with
  | NoFault => 0
  | KzallocFails | KstrdupFails => neg ENOMEM
  | CreateFileFails e => neg e
  end.

(** The state after the first [m] rounds have gone through, in terms of
    the state [st] the loop started from. *)
Record prefix_state (d : positive) (dir : gmap string attr_ref) (st : state)
    (m : nat) (l : list (option positive))
    (h : gmap positive device_attribute) (dir_m : gmap string attr_ref) : Prop :=
  mk_prefix_state {
  ps_length : length l = length (module_present_attrs st);
  ps_slots : forall j, (j < m)%nat -> l !! j = Some (Some (ptr_at (next_ptr st) j));
  ps_rest : forall j, (m <= j)%nat -> l !! j = module_present_attrs st !! j;
  ps_heap : forall j, (j < m)%nat -> h !! ptr_at (next_ptr st) j = Some (bit_attr j);
  ps_heap_rest : forall q, (forall j, (j < m)%nat -> q <> ptr_at (next_ptr st) j) ->
                           h !! q = kheap st !! q;
  ps_dir : forall j, (j < m)%nat ->
                     dir_m !! bit_name j = Some (heap_attr (ptr_at (next_ptr st) j));
  ps_dir_rest : forall nm, (forall j, (j < m)%nat -> nm <> bit_name j) ->
                           dir_m !! nm = dir !! nm
}.

Definition prefix_log (m : nat) : list io_event :=
  (fun j => IoCreateFile (bit_name j)) <$> seq 0 m.

Definition files_ok (fe : files_env) : Prop :=
  fe_aggregate fe = None /\ forall j, (j < 32)%nat -> fe_bit fe j = NoFault.

(** The register, the singleton and the driver data. *)
Definition globals (st : state)
  : Z * option hw_module_detector * option hw_module_detector :=
  (hw_reg st, hw_detector st, drvdata st).

(** [m] leaves the three of them alone whenever it returns. *)
Definition keeps {A} (m : M A) : Prop :=
  forall st a st', m st = Done a st' -> globals st' = globals st.

(** The detector a probe of [st] builds. *)
Definition probe_detector (env : probe_env) (st : state) : hw_module_detector :=
  mk_detector
    (match env_ioremap env with
     | Mapped a => Ptr a
     | MapError e => ERR_PTR e
     end)
    (hw_reg st mod 2 ^ 32)
    (Ptr (next_ptr st))
    (Ptr (Pos.succ (next_ptr st))).

Definition early_ok (env : probe_env) : Prop :=
  env_devm_kzalloc env = true /\
  env_resource env = true /\
  (exists a, env_ioremap env = Mapped a) /\
  env_class_create env = None /\
  env_device_create env = None.

(** No call made on behalf of the probe fails. *)
Definition env_ok (env : probe_env) : Prop :=
  early_ok env /\ files_ok (env_files env).

(** The state in which [probe] calls [create_module_sysfs_files]: the
    register has been read, the class and its device exist. *)
Definition probe_stage (st : state) : state :=
  mk_state (hw_reg st) (hw_detector st) (module_present_attrs st) (kheap st)
    (<[next_ptr st := Some (Pos.succ (next_ptr st))]> (classes st))
    (<[Pos.succ (next_ptr st) := ∅]> (devices st))
    (Pos.succ (Pos.succ (next_ptr st))) (drvdata st)
    (io_log st ++ [IoReadl (hw_reg st mod 2 ^ 32)]).

(** Nothing is allocated at or above the allocator's next pointer. *)
Definition fresh (st : state) : Prop :=
  forall q, (next_ptr st <= q)%positive ->
    kheap st !! q = None /\ classes st !! q = None /\ devices st !! q = None.

(** All 33 attributes are published: slot [j] holds the attribute of bit
    [j], which is live and carries the bit's name and the per-bit handler,
    and the directory holds exactly the aggregate file and the 32 bit
    files. *)
Record published (np : positive) (h0 : gmap positive device_attribute)
    (l : list (option positive)) (h : gmap positive device_attribute)
    (dir : gmap string attr_ref) : Prop := mk_published {
  pub_length : length l = 32%nat;
  pub_slots : forall j, (j < 32)%nat -> l !! j = Some (Some (ptr_at np j));
  pub_heap : forall j, (j < 32)%nat -> h !! ptr_at np j = Some (bit_attr j);
  pub_heap_rest : forall q, (forall j, (j < 32)%nat -> q <> ptr_at np j) ->
                            h !! q = h0 !! q;
  pub_aggregate : dir !! "module_bits" = Some static_module_bits;
  pub_bits : forall j, (j < 32)%nat -> dir !! bit_name j = Some (heap_attr (ptr_at np j));
  pub_only : forall nm, nm <> "module_bits" ->
                        (forall j, (j < 32)%nat -> nm <> bit_name j) ->
                        dir !! nm = None
}.

(** Concrete scenarios used to exercise the theorems. *)
Module Scenario.

Definition no_fault : files_env := mk_files_env None (fun _ => NoFault).

Definition fail_at (k : nat) (f : bit_fault) : files_env :=
  mk_files_env None (fun i => if (i =? k)%nat then f else NoFault).

Definition env_with (fe : files_env) : probe_env :=
  mk_probe_env true true (Mapped 1) None None fe.

(** Register value of the end-to-end example of the specification. *)
Definition boot : state := boot_state 42.

Definition state_of {A} (o : outcome A) : state :=
  match o with
  | Done _ st => st
  | Fault _ => boot
  end.

(** Attached with mask [0x2a]. *)
Definition attached : state :=
  Eval vm_compute in state_of (hw_module_detector_probe (env_with no_fault) boot).

(** The attached state with the handles of bits 0 and 7 taken out of their
    slots: a partially occupied slot array. *)
Definition partly : state :=
  set_attrs (<[7%nat := None]> (<[0%nat := None]>
               (module_present_attrs attached))) attached.

Definition detector : hw_module_detector :=
  mk_detector (Ptr 1) 42 (Ptr 1) (Ptr 2).

Definition directory : gmap string attr_ref :=
  Eval vm_compute in default ∅ (devices attached !! 2%positive).

End Scenario.

(** The tail of an attribute name does not give a bit index: it does not
    parse as an unsigned decimal, or the number is 32 or more. *)
Definition parse_rejected (tail : string) : Prop :=
  match kstrtouint tail with
  | inl _ => True
  | inr bit => 32 <= bit
  end.

(** A decision procedure for [range_ok 32 0]. *)
Definition slot_okb (st : state) (j : nat) : bool :=
  match slot j st with
  | None => true
  | Some p =>
      match kheap st !! p with
      | Some a =>
          match attr_name a with
          | Some _ =>
              forallb (fun j' => (j' =? j)%nat ||
                                 negb (bool_decide (slot j' st = Some p)))
                      (seq 0 32)
          | None => false
          end
      | None => false
      end
  end.

Definition range_okb (st : state) : bool := forallb (slot_okb st) (seq 0 32).

(** The fault of the first round among [i .. i+n-1] that meets one. *)
Fixpoint first_bit_fault (fe : files_env) (n i : nat) : bit_fault :=
  match n with
  | O => NoFault
  | S n' =>
      match fe_bit fe i with
      | NoFault => first_bit_fault fe n' (S i)
      | f => f
      end
  end.

(** The value [create_module_sysfs_files] returns under [fe]. *)
Definition files_code (fe : files_env) : Z :=
  match fe_aggregate fe with
  | Some e => neg e
  | None => fault_code (first_bit_fault fe 32 0)
  end.

(** The value [probe] returns under [env]: the code of the first call that
    fails, in program order, and 0 when none does. *)
Definition probe_code (env : probe_env) : Z :=
  if negb (env_devm_kzalloc env) then neg ENOMEM
  else if negb (env_resource env) then neg EINVAL
  else
    match env_ioremap env with
    | MapError e => neg e
    | Mapped _ =>
        match env_class_create env with
        | Some e => neg e
        | None =>
            match env_device_create env with
            | Some e => neg e
            | None => files_code (env_files env)
            end
        end
    end.

(** The number whose bit [i] is [f i] for [i < n] and 0 above. *)
Fixpoint bits_to_Z (n : nat) (f : Z -> bool) : Z :=
  match n with
  | O => 0
  | S n' =>
      bits_to_Z n' f + (if f (Z.of_nat n') then 2 ^ Z.of_nat n' else 0)
  end.

(** The names of the 33 attributes. *)
Definition published_names : list string :=
  "module_bits" :: ((fun i : nat => "module_" +:+ pretty (Z.of_nat i)) <$> seq 0 32).

(** [m] leaves the slot array with as many entries as it had. *)
Definition keeps_length {A} (m : M A) : Prop :=
  forall st a st',
    m st = Done a st' ->
    length (module_present_attrs st') = length (module_present_attrs st).

(** The attribute a sysfs file refers to. *)
Definition attr_behind (st : state) (r : attr_ref) : option device_attribute :=
  match r with
  | static_module_bits => Some dev_attr_module_bits
  | heap_attr p => kheap st !! p
  end.

(** * Properties *)

(** ** Bit arithmetic *)

Section Bits.

Lemma land_BIT_shiftr (m b : Z) :
  0 <= b -> Z.land m (BIT b) = Z.shiftl (Z.land (Z.shiftr m b) 1) b.
Proof.
  intros Hb. unfold BIT. apply Z.bits_inj'. intros i Hi.
  rewrite Z.land_spec.
  destruct (Z.lt_ge_cases i b) as [Hlt | Hge].
  - rewrite !Z.shiftl_spec_low by lia. apply andb_false_r.
  - rewrite !Z.shiftl_spec by lia.
    rewrite Z.land_spec, Z.shiftr_spec by lia.
    now replace (i - b + b) with i by lia.
Qed.

Lemma land_one_cases (x : Z) : Z.land x 1 = 0 \/ Z.land x 1 = 1.
Proof.
  pose proof (Z.land_ones x 1 ltac:(lia)) as E.
  change (Z.ones 1) with 1 in E. change (2 ^ 1) with 2 in E.
  rewrite E. pose proof (Z.mod_pos_bound x 2). lia.
Qed.

(** The test the driver makes, [!!(bits & BIT(b))], against the wording of
    the specification, [(bits >> b) & 1 == 1]. *)
Lemma bit_test_shiftr (m b : Z) :
  0 <= b ->
  negb (Z.land m (BIT b) =? 0) = (Z.land (Z.shiftr m b) 1 =? 1).
Proof.
  intros Hb. rewrite land_BIT_shiftr by assumption.
  destruct (land_one_cases (Z.shiftr m b)) as [E | E]; rewrite E.
  - now rewrite Z.shiftl_0_l.
  - rewrite Z.shiftl_1_l. simpl (1 =? 1).
    destruct (Z.eqb_spec (2 ^ b) 0) as [E0 | _]; [| reflexivity].
    pose proof (Z.pow_pos_nonneg 2 b). lia.
Qed.

End Bits.

(** ** Reasoning about the monad *)

Lemma bind_done {A B} (m : M A) (k : A -> M B) (st st' : state) (a : A) :
  m st = Done a st' -> bind m k st = k a st'.
Proof. unfold bind. now intros ->. Qed.

Lemma bind_inv {A B} (m : M A) (k : A -> M B) (st st2 : state) (b : B) :
  bind m k st = Done b st2 ->
  exists a st1, m st = Done a st1 /\ k a st1 = Done b st2.
Proof.
  unfold bind. destruct (m st) as [a st1 | w]; [| discriminate].
  intros H. now exists a, st1.
Qed.

(** ** Queries *)

Lemma present_no_detector (bit : Z) (st : state) :
  hw_detector st = None -> hw_module_present bit st = false.
Proof. unfold hw_module_present. now intros ->. Qed.

Lemma present_out_of_range (bit : Z) (st : state) :
  32 <= bit -> hw_module_present bit st = false.
Proof.
  intros Hb. unfold hw_module_present.
  destruct (hw_detector st); [| reflexivity].
  destruct (Z.leb_spec 32 bit); [reflexivity | lia].
Qed.

Lemma present_in_range (bit : Z) (st : state) (d : hw_module_detector) :
  hw_detector st = Some d -> 0 <= bit < 32 ->
  hw_module_present bit st = (Z.land (Z.shiftr (module_bits d) bit) 1 =? 1).
Proof.
  intros Hd Hb. unfold hw_module_present. rewrite Hd.
  destruct (Z.leb_spec 32 bit); [lia |].
  apply bit_test_shiftr. lia.
Qed.

(** ** Formatting *)

Section Hex.







End Hex.

(** ** Attribute names *)

Lemma forall_below_32 (P : nat -> Prop) :
  Forall P (seq 0 32) -> forall i : nat, (i < 32)%nat -> P i.
Proof.
  intros H i Hi. rewrite List.Forall_forall in H. apply H.
  apply in_seq. lia.
Qed.

(** The name of bit [i] is ["module_"] followed by [i] in decimal, and the
    handler's parse of its tail gives [i] back. *)
Lemma bit_name_parse (i : nat) :
  (i < 32)%nat ->
  bit_name i = "module_" +:+ pretty (Z.of_nat i) /\
  exists tail, str_advance 7 (bit_name i) = Some tail /\
               kstrtouint tail = inr (Z.of_nat i).
Proof.
  revert i. apply forall_below_32.
  repeat (constructor; [split; [vm_compute; reflexivity |
    eexists; split; vm_compute; reflexivity] |]).
  constructor.
Qed.

Lemma bit_name_inj (i j : nat) :
  (i < 32)%nat -> (j < 32)%nat -> bit_name i = bit_name j -> i = j.
Proof.
  intros Hi Hj.
  assert (H : forallb (fun a => forallb (fun b =>
            implb (name_eqb (bit_name a) (bit_name b)) (a =? b)%nat)
            (seq 0 32)) (seq 0 32) = true) by (vm_compute; reflexivity).
  rewrite forallb_forall in H.
  specialize (H i ltac:(apply in_seq; lia)).
  rewrite forallb_forall in H.
  specialize (H j ltac:(apply in_seq; lia)).
  intros E. unfold name_eqb in H. rewrite bool_decide_eq_true_2 in H by exact E.
  now apply Nat.eqb_eq in H.
Qed.

Lemma bit_name_not_aggregate (i : nat) :
  (i < 32)%nat -> bit_name i <> "module_bits".
Proof.
  revert i. apply forall_below_32.
  repeat (constructor; [vm_compute; discriminate |]). constructor.
Qed.

(** ** The two teardown loops *)

Lemma cleanup_loop_teardown (dev : cptr) (n : nat) :
  forall i st, cleanup_loop dev n i st = teardown_loop false dev n i st.
Proof.
  induction n as [| n IH]; intros i st; [reflexivity |].
  cbn [cleanup_loop teardown_loop]. unfold bind, get_slot, gets, ret.
  destruct (slot i st) as [a |]; [| apply IH].
  destruct (device_remove_file dev (heap_attr a) st) as [[] s1 | w]; [| reflexivity].
  destruct (kfree_name a s1) as [[] s2 | w]; [| reflexivity].
  destruct (kfree a s2) as [[] s3 | w]; [| reflexivity].
  apply IH.
Qed.

Lemma remove_loop_teardown (dev : cptr) (n : nat) :
  forall i st, remove_loop dev n i st = teardown_loop true dev n i st.
Proof.
  induction n as [| n IH]; intros i st; [reflexivity |].
  cbn [remove_loop teardown_loop]. unfold bind, get_slot, gets, ret.
  destruct (slot i st) as [a |]; [| apply IH].
  destruct (device_remove_file dev (heap_attr a) st) as [[] s1 | w]; [| reflexivity].
  destruct (kfree_name a s1) as [[] s2 | w]; [| reflexivity].
  destruct (kfree a s2) as [[] s3 | w]; [| reflexivity].
  destruct (set_slot i None s3) as [[] s4 | w]; [| reflexivity].
  apply IH.
Qed.

Lemma slot_insert_none (l : list (option positive)) (i : nat) :
  default None (<[i := None]> l !! i) = None.
Proof.
  destruct (decide (i < length l)%nat) as [H | H].
  - now rewrite list_lookup_insert_eq.
  - rewrite list_insert_ge by lia. rewrite lookup_ge_None_2 by lia. reflexivity.
Qed.

Lemma teardown_step (clear : bool) (d : positive) (i : nat) (p : positive)
    (a : device_attribute) (nm : string) (dir : gmap string attr_ref)
    (k : M unit) (st : state) :
  slot i st = Some p -> kheap st !! p = Some a -> attr_name a = Some nm ->
  devices st !! d = Some dir ->
  (s <- get_slot i ;;
   match s with
   | Some a =>
       device_remove_file (Ptr d) (heap_attr a) ;;
       kfree_name a ;;
       kfree a ;;
       if clear then set_slot i None else ret tt
   | None => ret tt
   end ;;
   k) st
  = k (mk_state (hw_reg st) (hw_detector st)
         (if clear then <[i := None]> (module_present_attrs st)
          else module_present_attrs st)
         (delete p (kheap st)) (classes st)
         (<[d := delete nm dir]> (devices st))
         (next_ptr st) (drvdata st) (io_log st)).
Proof.
  intros Hs Hp Hn Hd.
  unfold bind, get_slot, gets. rewrite Hs.
  unfold device_remove_file, bind, dev_dir. rewrite Hd.
  cbn [deref_attr]. unfold attr_load at 1. rewrite Hp, Hn.
  unfold modify, kfree_name, bind, attr_load, kfree. cbn.
  rewrite Hp. cbn. rewrite Hp.
  destruct clear; reflexivity.
Qed.

Lemma state_eta (st : state) :
  mk_state (hw_reg st) (hw_detector st) (module_present_attrs st) (kheap st)
    (classes st) (devices st) (next_ptr st) (drvdata st) (io_log st) = st.
Proof. now destruct st. Qed.

(** A teardown over well-ordered slots never faults.  It frees exactly the
    attributes the slots hold and removes exactly their files; every other
    attribute and file, and every other component of the state, is left as
    it was. *)
Lemma teardown_spec (clear : bool) (d : positive) (n : nat) :
  forall (i : nat) (st : state) (dir : gmap string attr_ref),
    devices st !! d = Some dir ->
    range_ok n i st ->
    exists l' h' dir',
      teardown_loop clear (Ptr d) n i st =
        Done tt (mk_state (hw_reg st) (hw_detector st) l' h' (classes st)
                   (<[d := dir']> (devices st))
                   (next_ptr st) (drvdata st) (io_log st)) /\
      slots_after clear n i (module_present_attrs st) l' /\
      (forall p, held n i st p -> h' !! p = None) /\
      (forall p, ~ held n i st p -> h' !! p = kheap st !! p) /\
      (forall nm, dir' !! nm = None \/ dir' !! nm = dir !! nm) /\
      (forall nm, held_name n i st nm -> dir' !! nm = None) /\
      (forall nm, ~ held_name n i st nm -> dir' !! nm = dir !! nm).
Proof.
  induction n as [| n IH]; intros i st dir Hd Hok.
  - exists (module_present_attrs st), (kheap st), dir.
    split; [| split; [| split; [| split; [| split; [| split]]]]].
    + cbn [teardown_loop ret]. rewrite insert_id by exact Hd.
      now rewrite state_eta.
    + destruct clear; cbn; [| reflexivity]. repeat split; intros; lia || reflexivity.
    + intros p (j & Hj & _). lia.
    + reflexivity.
    + intros nm. now right.
    + intros nm (j & p & a & Hj & _). lia.
    + reflexivity.
  - cbn [teardown_loop].
    destruct (slot i st) as [p |] eqn:Hs.
    + (* slot i is occupied *)
      destruct (Hok i p ltac:(lia) Hs) as ((a & nm & Hp & Hnm) & Hinj).
      rewrite (teardown_step clear d i p a nm dir _ st Hs Hp Hnm Hd).
      set (st1 := mk_state _ _ _ _ _ _ _ _ _).
      assert (Hslot1 : forall j, j <> i -> slot j st1 = slot j st).
      { intros j Hj. unfold slot, st1. cbn [module_present_attrs].
        destruct clear; [| reflexivity].
        now rewrite list_lookup_insert_ne by congruence. }
      assert (Hheap1 : forall q, q <> p -> kheap st1 !! q = kheap st !! q).
      { intros q Hq. unfold st1. cbn [kheap]. now rewrite lookup_delete_ne. }
      assert (Hnot : forall j, (S i <= j < S i + n)%nat -> slot j st <> Some p).
      { intros j Hj E. specialize (Hinj j ltac:(lia) E). lia. }
      assert (Hd1 : devices st1 !! d = Some (delete nm dir)).
      { unfold st1. cbn [devices]. apply lookup_insert_eq. }
      assert (Hok1 : range_ok n (S i) st1).
      { intros j q Hj Hq. rewrite Hslot1 in Hq by lia.
        destruct (Hok j q ltac:(lia) Hq) as ((a' & nm' & Hq' & Hnm') & Hinj').
        assert (q <> p) by (intros ->; exact (Hnot j Hj Hq)).
        split.
        - exists a', nm'. now rewrite Hheap1.
        - intros j' Hj' Hq2. rewrite Hslot1 in Hq2 by lia.
          apply Hinj'; [lia | exact Hq2]. }
      destruct (IH (S i) st1 (delete nm dir) Hd1 Hok1)
        as (l' & h' & dir' & Hrun & Hsl & Hh1 & Hh2 & Hsub & Hn1 & Hn2).
      exists l', h', dir'.
      split; [| split; [| split; [| split; [| split; [| split]]]]].
      * rewrite Hrun. unfold st1. cbn [hw_reg hw_detector classes devices
          next_ptr drvdata io_log]. now rewrite insert_insert_eq.
      * unfold st1 in Hsl. cbn [module_present_attrs] in Hsl.
        destruct clear; cbn [slots_after] in *; [| exact Hsl].
        destruct Hsl as (Hc & Hk & Hlen). split; [| split].
        -- intros j Hj. destruct (decide (j = i)) as [-> | Hne].
           ++ rewrite Hk by lia. apply slot_insert_none.
           ++ apply Hc. lia.
        -- intros j Hj. rewrite Hk by lia.
           apply list_lookup_insert_ne. lia.
        -- now rewrite Hlen, length_insert.
      * intros q (j & Hj & Hq).
        destruct (decide (j = i)) as [-> | Hne].
        -- assert (q = p) by congruence. subst q.
           rewrite Hh2.
           ++ unfold st1. cbn [kheap]. apply lookup_delete_eq.
           ++ intros (j' & Hj' & Hq'). rewrite Hslot1 in Hq' by lia.
              exact (Hnot j' Hj' Hq').
        -- apply Hh1. exists j. split; [lia |]. now rewrite Hslot1.
      * intros q Hq.
        assert (q <> p).
        { intros ->. apply Hq. exists i. split; [lia | exact Hs]. }
        rewrite Hh2.
        -- now apply Hheap1.
        -- intros (j & Hj & Hq'). rewrite Hslot1 in Hq' by lia.
           apply Hq. exists j. split; [lia | exact Hq'].
      * intros nm'. destruct (Hsub nm') as [E | E]; [now left |].
        destruct (decide (nm' = nm)) as [-> | Hne].
        -- left. now rewrite E, lookup_delete_eq.
        -- right. now rewrite E, lookup_delete_ne.
      * intros nm' (j & q & a' & Hj & Hq & Ha' & Hnm').
        destruct (decide (j = i)) as [-> | Hne].
        -- assert (q = p) by congruence. subst q.
           assert (a' = a) by congruence. subst a'.
           assert (nm' = nm) by congruence. subst nm'.
           destruct (Hsub nm) as [E | E]; [exact E |].
           now rewrite E, lookup_delete_eq.
        -- apply Hn1. exists j, q, a'.
           assert (q <> p) by (intros ->; exact (Hnot j ltac:(lia) Hq)).
           rewrite Hslot1, Hheap1 by (lia || assumption).
           repeat split; (lia || assumption).
      * intros nm' Hnm'.
        assert (nm' <> nm).
        { intros ->. apply Hnm'. exists i, p, a. repeat split; (lia || assumption). }
        rewrite Hn2.
        -- now apply lookup_delete_ne.
        -- intros (j & q & a' & Hj & Hq & Ha' & Hn').
           rewrite Hslot1 in Hq by lia.
           assert (q <> p) by (intros ->; exact (Hnot j Hj Hq)).
           rewrite Hheap1 in Ha' by assumption.
           apply Hnm'. exists j, q, a'. repeat split; (lia || assumption).
    + (* slot i is empty *)
      unfold bind at 1. unfold bind at 1. cbn [get_slot gets]. rewrite Hs.
      cbn [ret].
      assert (Hok1 : range_ok n (S i) st).
      { intros j q Hj Hq.
        destruct (Hok j q ltac:(lia) Hq) as (Hlive & Hinj). split; [exact Hlive |].
        intros j' Hj' Hq2. apply Hinj; [lia | exact Hq2]. }
      destruct (IH (S i) st dir Hd Hok1)
        as (l' & h' & dir' & Hrun & Hsl & Hh1 & Hh2 & Hsub & Hn1 & Hn2).
      exists l', h', dir'.
      split; [exact Hrun |].
      split; [| split; [| split; [| split; [exact Hsub | split]]]].
      * destruct clear; cbn [slots_after] in *; [| exact Hsl].
        destruct Hsl as (Hc & Hk & Hlen). split; [| split]; [| | exact Hlen].
        -- intros j Hj. destruct (decide (j = i)) as [-> | Hne].
           ++ rewrite Hk by lia. exact (f_equal (fun x => x) Hs).
           ++ apply Hc. lia.
        -- intros j Hj. apply Hk. lia.
      * intros q (j & Hj & Hq). apply Hh1.
        exists j. split; [| exact Hq].
        destruct (decide (j = i)) as [-> | Hne]; [congruence | lia].
      * intros q Hq. apply Hh2.
        intros (j & Hj & Hq'). apply Hq. exists j. split; [lia | exact Hq'].
      * intros nm (j & q & a & Hj & Hq & Ha & Hnm). apply Hn1.
        exists j, q, a. repeat split; try assumption.
        -- destruct (decide (j = i)) as [-> | Hne]; [congruence | lia].
        -- lia.
      * intros nm Hnm. apply Hn2.
        intros (j & q & a & Hj & Hq & Ha & Hn'). apply Hnm.
        exists j, q, a. repeat split; (lia || assumption).
Qed.

Lemma teardown_empty (clear : bool) (dev : cptr) (n : nat) :
  forall i st,
    (forall j, (i <= j < i + n)%nat -> slot j st = None) ->
    teardown_loop clear dev n i st = Done tt st.
Proof.
  induction n as [| n IH]; intros i st Hnone; [reflexivity |].
  cbn [teardown_loop]. unfold bind at 1. cbn [get_slot gets].
  rewrite (Hnone i) by lia. unfold bind at 1. cbn [ret].
  apply IH. intros j Hj. apply Hnone. lia.
Qed.

(** ** The creation loop *)

Lemma ptr_at_0 (np : positive) : ptr_at np 0 = np.
Proof. unfold ptr_at. lia. Qed.

Lemma ptr_at_S (np : positive) (j : nat) :
  Pos.succ (ptr_at np j) = ptr_at np (S j).
Proof. unfold ptr_at. lia. Qed.

Lemma ptr_at_inj (np : positive) (i j : nat) : ptr_at np i = ptr_at np j -> i = j.
Proof. unfold ptr_at. lia. Qed.

Lemma ptr_at_ge (np : positive) (j : nat) : (np <= ptr_at np j)%positive.
Proof. unfold ptr_at. lia. Qed.

Lemma neg_negative (e : errno) : neg e < 0.
Proof. destruct e; reflexivity. Qed.

Lemma fault_code_negative (f : bit_fault) : f <> NoFault -> fault_code f < 0.
Proof.
  destruct f; cbn; try congruence; intros _; try reflexivity.
  apply neg_negative.
Qed.

(** A round that meets no fault and no name clash. *)
Lemma create_step_ok (fe : files_env) (d : positive) (n m : nat) (st : state)
    (dir : gmap string attr_ref) :
  fe_bit fe m = NoFault ->
  devices st !! d = Some dir ->
  dir !! bit_name m = None ->
  create_loop fe (Ptr d) (S n) m st =
  create_loop fe (Ptr d) n (S m)
    (mk_state (hw_reg st) (hw_detector st)
       (<[m := Some (next_ptr st)]> (module_present_attrs st))
       (<[next_ptr st := bit_attr m]> (kheap st))
       (classes st)
       (<[d := <[bit_name m := heap_attr (next_ptr st)]> dir]> (devices st))
       (Pos.succ (next_ptr st)) (drvdata st)
       (io_log st ++ [IoCreateFile (bit_name m)])).
Proof.
  intros Hf Hd Hfree. unfold bit_attr, bit_name in *.
  cbn [create_loop]. rewrite Hf.
  unfold bind, kzalloc, set_slot, modify, kstrdup, ret, attr_store,
    device_create_file, bind, dev_dir, deref_attr, attr_load, modify, ret.
  repeat (progress (cbn; rewrite ?lookup_insert_eq, ?Hd, ?Hfree)).
  rewrite !insert_insert_eq. reflexivity.
Qed.

(** A round that meets a fault: the slot of the bit ends up empty, the
    attribute that may have been allocated for it is freed again, and the
    loop is left for [err_cleanup]. *)
Lemma create_step_fail (fe : files_env) (d : positive) (n k : nat) (st : state)
    (dir : gmap string attr_ref) :
  fe_bit fe k <> NoFault ->
  devices st !! d = Some dir ->
  exists h' np,
    create_loop fe (Ptr d) (S n) k st =
      Done (Some (fault_code (fe_bit fe k)))
        (mk_state (hw_reg st) (hw_detector st)
           (<[k := None]> (module_present_attrs st)) h'
           (classes st) (devices st) np (drvdata st) (io_log st)) /\
    (h' = kheap st \/ h' = delete (next_ptr st) (kheap st)) /\
    (next_ptr st <= np)%positive.
Proof.
  intros Hf Hd. cbn [create_loop].
  destruct (fe_bit fe k) as [| | | e] eqn:E; [congruence | | |].
  - exists (kheap st), (next_ptr st).
    split; [reflexivity |]. split; [now left | lia].
  - exists (delete (next_ptr st) (kheap st)), (Pos.succ (next_ptr st)).
    split; [| split; [now right | lia]].
    unfold bind, kzalloc, set_slot, modify, kstrdup, ret, attr_store, kfree.
    repeat (progress (cbn; rewrite ?lookup_insert_eq)).
    rewrite !delete_insert_eq, list_insert_insert_eq. reflexivity.
  - exists (delete (next_ptr st) (kheap st)), (Pos.succ (next_ptr st)).
    split; [| split; [now right | lia]].
    pose proof (neg_negative e) as Hneg.
    assert (E0 : (neg e =? 0) = false) by (apply Z.eqb_neq; lia).
    unfold bind, kzalloc, set_slot, modify, kstrdup, ret, attr_store,
      device_create_file, bind, dev_dir, deref_attr, attr_load, ret,
      kfree_name, kfree, bind, attr_load, ret.
    repeat (progress (cbn; rewrite ?lookup_insert_eq, ?Hd, ?E0)).
    rewrite !delete_insert_eq, list_insert_insert_eq.
    reflexivity.
Qed.

Lemma prefix_log_S (m : nat) :
  prefix_log (S m) = prefix_log m ++ [IoCreateFile (bit_name m)].
Proof. unfold prefix_log. now rewrite seq_S, fmap_app. Qed.

Lemma create_prefix (fe : files_env) (d : positive) (st : state)
    (dir : gmap string attr_ref) :
  devices st !! d = Some dir ->
  (forall j, (j < 32)%nat -> dir !! bit_name j = None) ->
  forall m,
    (m <= 32)%nat ->
    (m <= length (module_present_attrs st))%nat ->
    (forall j, (j < m)%nat -> fe_bit fe j = NoFault) ->
    exists l h dir_m,
      prefix_state d dir st m l h dir_m /\
      forall n,
        create_loop fe (Ptr d) (m + n) 0 st =
        create_loop fe (Ptr d) n m
          (mk_state (hw_reg st) (hw_detector st) l h (classes st)
             (<[d := dir_m]> (devices st))
             (ptr_at (next_ptr st) m) (drvdata st)
             (io_log st ++ prefix_log m)).
Proof.
  intros Hd Hfree. induction m as [| m IH]; intros Hm Hlen Hok.
  - exists (module_present_attrs st), (kheap st), dir. split.
    + constructor; intros; try lia; reflexivity.
    + intros n. cbn [Nat.add prefix_log seq fmap list_fmap].
      rewrite app_nil_r, ptr_at_0, insert_id by exact Hd.
      now rewrite state_eta.
  - destruct IH as (l & h & dir_m & Hps & Hrun); [lia | lia | |].
    { intros j Hj. apply Hok. lia. }
    destruct Hps as [Hl Hs Hr Hh Hhr Hdm Hdr].
    set (p := ptr_at (next_ptr st) m).
    exists (<[m := Some p]> l), (<[p := bit_attr m]> h),
           (<[bit_name m := heap_attr p]> dir_m).
    split.
    + constructor.
      * now rewrite length_insert.
      * intros j Hj. destruct (decide (j = m)) as [-> | Hne].
        -- apply list_lookup_insert_eq. lia.
        -- rewrite list_lookup_insert_ne by congruence. apply Hs. lia.
      * intros j Hj. rewrite list_lookup_insert_ne by lia. apply Hr. lia.
      * intros j Hj. destruct (decide (j = m)) as [-> | Hne].
        -- apply lookup_insert_eq.
        -- rewrite lookup_insert_ne.
           ++ apply Hh. lia.
           ++ unfold p. intros E. apply ptr_at_inj in E. lia.
      * intros q Hq. rewrite lookup_insert_ne.
        -- apply Hhr. intros j Hj. apply Hq. lia.
        -- intros E. apply (Hq m); [lia | now symmetry].
      * intros j Hj. destruct (decide (j = m)) as [-> | Hne].
        -- apply lookup_insert_eq.
        -- rewrite lookup_insert_ne.
           ++ apply Hdm. lia.
           ++ intros E. apply bit_name_inj in E; lia.
      * intros nm Hnm. rewrite lookup_insert_ne.
        -- apply Hdr. intros j Hj. apply Hnm. lia.
        -- intros E. apply (Hnm m); [lia | now symmetry].
    + intros n. replace (S m + n)%nat with (m + S n)%nat by lia.
      rewrite Hrun.
      erewrite create_step_ok.
      * cbn [hw_reg hw_detector module_present_attrs kheap classes devices
             next_ptr drvdata io_log].
        rewrite insert_insert_eq, ptr_at_S, prefix_log_S, app_assoc.
        reflexivity.
      * apply Hok. lia.
      * cbn [devices]. apply lookup_insert_eq.
      * rewrite Hdr.
        -- apply Hfree. lia.
        -- intros j Hj E. apply bit_name_inj in E; lia.
Qed.

Lemma below_dec (P : nat -> Prop) (k : nat) :
  (forall j, P j \/ ~ P j) ->
  (exists j, (j < k)%nat /\ P j) \/ (forall j, (j < k)%nat -> ~ P j).
Proof.
  intros Hdec. induction k as [| k IH].
  - right. intros j Hj. lia.
  - destruct IH as [(j & Hj & HP) | Hnone].
    + left. exists j. split; [lia | exact HP].
    + destruct (Hdec k) as [HP | HnP].
      * left. exists k. split; [lia | exact HP].
      * right. intros j Hj. destruct (decide (j = k)) as [-> | Hne];
          [exact HnP | apply Hnone; lia].
Qed.

(** Publishing the aggregate attribute into a directory that has no file of
    that name. *)
Lemma create_aggregate_ok (d : positive) (st : state) (dir : gmap string attr_ref) :
  devices st !! d = Some dir ->
  dir !! "module_bits" = None ->
  device_create_file None (Ptr d) static_module_bits st =
    Done 0 (mk_state (hw_reg st) (hw_detector st) (module_present_attrs st)
              (kheap st) (classes st)
              (<[d := <["module_bits" := static_module_bits]> dir]> (devices st))
              (next_ptr st) (drvdata st)
              (io_log st ++ [IoCreateFile "module_bits"])).
Proof.
  intros Hd Hfree.
  unfold device_create_file, bind, dev_dir, deref_attr, ret, modify.
  rewrite Hd. cbn [dev_attr_module_bits attr_name]. rewrite Hfree. reflexivity.
Qed.

Lemma remove_aggregate (d : positive) (st : state) (dir : gmap string attr_ref) :
  devices st !! d = Some dir ->
  device_remove_file (Ptr d) static_module_bits st =
    Done tt (set_devices (<[d := delete "module_bits" dir]> (devices st)) st).
Proof.
  intros Hd. unfold device_remove_file, bind, dev_dir, deref_attr, ret, modify.
  rewrite Hd. reflexivity.
Qed.

(** *** Rollback

    The attribute creation fails in round [k] after [k] rounds went through.
    Provided no slot above [k] still holds a handle, the call returns the
    error with the device's directory, the other devices, the classes and the
    allocator's live set exactly as it found them.  The slots below [k],
    however, keep the handles of the attributes that were just freed. *)
Lemma create_files_rollback (fe : files_env) (d : positive) (st : state)
    (dir : gmap string attr_ref) (k : nat) :
  devices st !! d = Some dir ->
  dir !! "module_bits" = None ->
  (forall j, (j < 32)%nat -> dir !! bit_name j = None) ->
  length (module_present_attrs st) = 32%nat ->
  (forall j, (k < j < 32)%nat -> slot j st = None) ->
  fe_aggregate fe = None ->
  (k < 32)%nat ->
  (forall j, (j < k)%nat -> fe_bit fe j = NoFault) ->
  fe_bit fe k <> NoFault ->
  exists l' h' np',
    create_module_sysfs_files fe (Ptr d) st =
      Done (fault_code (fe_bit fe k))
        (mk_state (hw_reg st) (hw_detector st) l' h' (classes st) (devices st)
           np' (drvdata st)
           (io_log st ++ IoCreateFile "module_bits" :: prefix_log k)) /\
    h' ⊆ kheap st /\
    (forall j, (j < k)%nat -> h' !! ptr_at (next_ptr st) j = None) /\
    (forall j, (j < k)%nat -> l' !! j = Some (Some (ptr_at (next_ptr st) j))) /\
    l' !! k = Some None /\
    (forall j, (k < j)%nat -> l' !! j = module_present_attrs st !! j) /\
    length l' = 32%nat /\
    (next_ptr st <= np')%positive /\
    (forall q, (q < next_ptr st)%positive -> h' !! q = kheap st !! q).
Proof.
  intros Hd Hagg Hfree Hlen Hstale Hfa Hk Hok Hbad.
  unfold create_module_sysfs_files. rewrite Hfa.
  rewrite (bind_done _ _ _ _ _ (create_aggregate_ok d st dir Hd Hagg)).
  cbn [Z.eqb].
  set (st_a := mk_state _ _ _ _ _ _ _ _ _).
  (* the rounds that go through *)
  destruct (create_prefix fe d st_a (<["module_bits" := static_module_bits]> dir))
    with (m := k) as (l & h & dir_k & Hps & Hrun).
  { unfold st_a. cbn [devices]. apply lookup_insert_eq. }
  { intros j Hj. rewrite lookup_insert_ne; [now apply Hfree |].
    intros E. symmetry in E. revert E. now apply bit_name_not_aggregate. }
  { lia. }
  { unfold st_a. cbn [module_present_attrs]. lia. }
  { exact Hok. }
  destruct Hps as [Hl Hs Hr Hh Hhr Hdk Hdr].
  unfold st_a in Hl, Hs, Hr, Hh, Hhr, Hdk, Hdr.
  cbn [module_present_attrs next_ptr kheap] in Hl, Hs, Hr, Hh, Hhr, Hdk, Hdr.
  specialize (Hrun (32 - k)%nat).
  replace (k + (32 - k))%nat with 32%nat in Hrun by lia.
  (* the round that fails *)
  destruct (32 - k)%nat as [| n'] eqn:En; [lia |].
  set (st_k := mk_state _ _ _ _ _ _ _ _ _) in Hrun.
  destruct (create_step_fail fe d n' k st_k dir_k Hbad)
    as (h1 & np1 & Hfail & Hh1 & Hnp1).
  { unfold st_k. cbn [devices]. apply lookup_insert_eq. }
  rewrite <- Hrun in Hfail. clear Hrun.
  rewrite (bind_done _ _ _ _ _ Hfail).
  unfold st_k in Hfail, Hh1, Hnp1 |- *.
  cbn [hw_reg hw_detector module_present_attrs kheap classes devices next_ptr
       drvdata io_log] in Hh1, Hnp1 |- *.
  clear Hfail. set (st_f := mk_state _ _ _ _ _ _ _ _ _).
  (* what the failed state holds *)
  assert (Hslot_lt : forall j, (j < k)%nat ->
            slot j st_f = Some (ptr_at (next_ptr st) j)).
  { intros j Hj. unfold slot, st_f. cbn [module_present_attrs].
    rewrite list_lookup_insert_ne by lia. now rewrite Hs. }
  assert (Hslot_ge : forall j, (k <= j)%nat -> slot j st_f = None).
  { intros j Hj. unfold slot, st_f. cbn [module_present_attrs].
    destruct (decide (j = k)) as [-> | Hne]; [apply slot_insert_none |].
    rewrite list_lookup_insert_ne by lia. rewrite Hr by lia.
    destruct (decide (j < 32)%nat) as [Hj32 | Hj32].
    - apply Hstale. lia.
    - now rewrite lookup_ge_None_2 by lia. }
  assert (Hlive : forall j, (j < k)%nat ->
            kheap st_f !! ptr_at (next_ptr st) j = Some (bit_attr j)).
  { intros j Hj. unfold st_f. cbn [kheap].
    destruct Hh1 as [-> | ->]; [now apply Hh |].
    rewrite lookup_delete_ne; [now apply Hh |].
    intros E. apply ptr_at_inj in E. lia. }
  assert (Hheld : forall j p, slot j st_f = Some p ->
            (j < k)%nat /\ p = ptr_at (next_ptr st) j).
  { intros j p Hp. destruct (decide (j < k)%nat) as [Hj | Hj].
    - split; [exact Hj |]. rewrite Hslot_lt in Hp by exact Hj. congruence.
    - rewrite Hslot_ge in Hp by lia. discriminate. }
  assert (Hrange : range_ok 32 0 st_f).
  { intros j p _ Hp. destruct (Hheld j p Hp) as (Hj & ->). split.
    - exists (bit_attr j), (bit_name j). split; [now apply Hlive | reflexivity].
    - intros j' _ Hp'. destruct (Hheld j' _ Hp') as (Hj' & E).
      apply ptr_at_inj in E. congruence. }
  (* err_cleanup *)
  destruct (teardown_spec false d 32 0 st_f dir_k)
    as (l2 & h2 & dir2 & Htear & Hsl & Hf1 & Hf2 & Hsub & Hn1 & Hn2).
  { unfold st_f. cbn [devices]. apply lookup_insert_eq. }
  { exact Hrange. }
  cbn [slots_after] in Hsl. subst l2.
  rewrite <- cleanup_loop_teardown in Htear.
  rewrite (bind_done _ _ _ _ _ Htear). clear Htear.
  erewrite bind_done; [| apply remove_aggregate; cbn [devices]; apply lookup_insert_eq].
  unfold st_f, set_devices, ret.
  cbn [hw_reg hw_detector module_present_attrs kheap classes devices next_ptr
       drvdata io_log].
  unfold st_a in Hnp1 |- *.
  cbn [hw_reg hw_detector module_present_attrs kheap classes devices next_ptr
       drvdata io_log] in Hnp1 |- *.
  rewrite !insert_insert_eq.
  exists (<[k := None]> l), h2, np1.
  assert (Hdir : delete "module_bits" dir2 = dir).
  { apply map_eq. intros nm.
    destruct (decide (nm = "module_bits")) as [-> | Hne].
    { now rewrite lookup_delete_eq, Hagg. }
    rewrite lookup_delete_ne by congruence.
    destruct (below_dec (fun j => nm = bit_name j) k) as [(j & Hj & ->) | Hnone].
    { intros j. destruct (decide (nm = bit_name j)); [now left | now right]. }
    - rewrite Hn1.
      + symmetry. apply Hfree. lia.
      + exists j, (ptr_at (next_ptr st) j), (bit_attr j).
        repeat split; try lia; [now apply Hslot_lt | now apply Hlive].
    - rewrite Hn2.
      + rewrite Hdr by exact Hnone. now apply lookup_insert_ne.
      + intros (j & p & a & _ & Hp & Ha & Hnm).
        destruct (Hheld j p Hp) as (Hj & ->).
        rewrite Hlive in Ha by exact Hj.
        assert (a = bit_attr j) by congruence. subst a.
        cbn in Hnm. apply (Hnone j Hj). congruence. }
  assert (Hfreed : forall j, (j < k)%nat -> h2 !! ptr_at (next_ptr st) j = None).
  { intros j Hj. apply Hf1. exists j. split; [lia | now apply Hslot_lt]. }
  split; [| split; [| split; [exact Hfreed | split; [| split; [| split; [| split;
    [| split]]]]]]].
  - rewrite Hdir, insert_id by exact Hd.
    rewrite <- app_assoc. reflexivity.
  - apply map_subseteq_spec. intros q a Hq.
    destruct (below_dec (fun j => q = ptr_at (next_ptr st) j) k)
      as [(j & Hj & ->) | Hnone].
    { intros j. destruct (decide (q = ptr_at (next_ptr st) j)); [now left | now right]. }
    + rewrite Hfreed in Hq by exact Hj. discriminate.
    + rewrite Hf2 in Hq.
      * unfold st_f in Hq. cbn [kheap] in Hq.
        assert (Hq' : h !! q = Some a).
        { destruct Hh1 as [-> | ->]; [exact Hq |].
          apply lookup_delete_Some in Hq. tauto. }
        now rewrite Hhr in Hq' by exact Hnone.
      * intros (j & _ & Hp). destruct (Hheld j q Hp) as (Hj & ->).
        now apply (Hnone j Hj).
  - intros j Hj. rewrite list_lookup_insert_ne by lia. now apply Hs.
  - apply list_lookup_insert_eq. lia.
  - intros j Hj. rewrite list_lookup_insert_ne by lia. apply Hr. lia.
  - now rewrite length_insert, Hl.
  - pose proof (ptr_at_ge (next_ptr st) k). lia.
  - intros q Hq.
    assert (Hne : forall j, q <> ptr_at (next_ptr st) j).
    { intros j ->. pose proof (ptr_at_ge (next_ptr st) j). lia. }
    rewrite Hf2.
    + unfold st_f. cbn [kheap].
      rewrite <- Hhr by (intros j _; apply Hne).
      destruct Hh1 as [-> | ->]; [reflexivity |].
      apply lookup_delete_ne. intros E. now apply (Hne k).
    + intros (j & _ & Hp). destruct (Hheld j q Hp) as (_ & E). now apply (Hne j).
Qed.

(** *** Success *)

Lemma create_files_ok (fe : files_env) (d : positive) (st : state)
    (dir : gmap string attr_ref) :
  devices st !! d = Some dir ->
  dir !! "module_bits" = None ->
  (forall j, (j < 32)%nat -> dir !! bit_name j = None) ->
  length (module_present_attrs st) = 32%nat ->
  files_ok fe ->
  exists l h dir',
    create_module_sysfs_files fe (Ptr d) st =
      Done 0
        (mk_state (hw_reg st) (hw_detector st) l h (classes st)
           (<[d := dir']> (devices st))
           (ptr_at (next_ptr st) 32) (drvdata st)
           (io_log st ++ IoCreateFile "module_bits" :: prefix_log 32)) /\
    prefix_state d (<["module_bits" := static_module_bits]> dir) st 32 l h dir'.
Proof.
  intros Hd Hagg Hfree Hlen (Hfa & Hok).
  unfold create_module_sysfs_files. rewrite Hfa.
  rewrite (bind_done _ _ _ _ _ (create_aggregate_ok d st dir Hd Hagg)).
  cbn [Z.eqb].
  set (st_a := mk_state _ _ _ _ _ _ _ _ _).
  destruct (create_prefix fe d st_a (<["module_bits" := static_module_bits]> dir))
    with (m := 32%nat) as (l & h & dir' & Hps & Hrun).
  { unfold st_a. cbn [devices]. apply lookup_insert_eq. }
  { intros j Hj. rewrite lookup_insert_ne; [now apply Hfree |].
    intros E. symmetry in E. revert E. now apply bit_name_not_aggregate. }
  { lia. }
  { unfold st_a. cbn [module_present_attrs]. lia. }
  { exact Hok. }
  exists l, h, dir'. split.
  - specialize (Hrun O). cbn [Nat.add] in Hrun.
    rewrite (bind_done _ _ _ _ _ Hrun). cbn [create_loop ret].
    unfold st_a.
    cbn [hw_reg hw_detector module_present_attrs kheap classes devices next_ptr
         drvdata io_log].
    now rewrite insert_insert_eq, <- app_assoc.
  - destruct Hps as [Hl Hs Hr Hh Hhr Hdk Hdr]. now constructor.
Qed.

(** When the aggregate attribute cannot be created nothing else is done. *)
Lemma create_files_aggregate_fails (fe : files_env) (d : positive) (st : state)
    (dir : gmap string attr_ref) (e : errno) :
  devices st !! d = Some dir ->
  fe_aggregate fe = Some e ->
  create_module_sysfs_files fe (Ptr d) st = Done (neg e) st.
Proof.
  intros Hd Hfa. unfold create_module_sysfs_files. rewrite Hfa.
  unfold device_create_file, bind, dev_dir, deref_attr, ret. rewrite Hd.
  cbn [dev_attr_module_bits attr_name].
  pose proof (neg_negative e).
  destruct (Z.eqb_spec (neg e) 0); [lia | reflexivity].
Qed.

Lemma first_fault (fe : files_env) (n : nat) :
  (forall j, (j < n)%nat -> fe_bit fe j = NoFault) \/
  (exists k, (k < n)%nat /\ fe_bit fe k <> NoFault /\
             forall j, (j < k)%nat -> fe_bit fe j = NoFault).
Proof.
  induction n as [| n [Hall | (k & Hk & Hbad & Hpre)]].
  - left. intros j Hj. lia.
  - destruct (fe_bit fe n) eqn:E.
    + left. intros j Hj. destruct (decide (j = n)) as [-> | Hne];
        [exact E | apply Hall; lia].
    + right. exists n. split; [lia |]. split; [congruence | exact Hall].
    + right. exists n. split; [lia |]. split; [congruence | exact Hall].
    + right. exists n. split; [lia |]. split; [congruence | exact Hall].
  - right. exists k. split; [lia |]. split; assumption.
Qed.

(** Whatever the slots hold, a call in which some round fails does not
    return 0. *)
Lemma create_files_fault_nonzero (fe : files_env) (d : positive) (st : state)
    (dir : gmap string attr_ref) (r : Z) (st' : state) :
  devices st !! d = Some dir ->
  dir !! "module_bits" = None ->
  (forall j, (j < 32)%nat -> dir !! bit_name j = None) ->
  length (module_present_attrs st) = 32%nat ->
  ~ files_ok fe ->
  create_module_sysfs_files fe (Ptr d) st = Done r st' ->
  r < 0.
Proof.
  intros Hd Hagg Hfree Hlen Hnok Hrun.
  destruct (fe_aggregate fe) as [e |] eqn:Hfa.
  { rewrite (create_files_aggregate_fails fe d st dir e Hd Hfa) in Hrun.
    injection Hrun as <- _. apply neg_negative. }
  destruct (first_fault fe 32) as [Hall | (k & Hk & Hbad & Hpre)].
  { exfalso. apply Hnok. now split. }
  unfold create_module_sysfs_files in Hrun. rewrite Hfa in Hrun.
  rewrite (bind_done _ _ _ _ _ (create_aggregate_ok d st dir Hd Hagg)) in Hrun.
  cbn [Z.eqb] in Hrun.
  set (st_a := mk_state _ _ _ _ _ _ _ _ _) in Hrun.
  destruct (create_prefix fe d st_a (<["module_bits" := static_module_bits]> dir))
    with (m := k) as (l & h & dir_k & Hps & Hpref).
  { unfold st_a. cbn [devices]. apply lookup_insert_eq. }
  { intros j Hj. rewrite lookup_insert_ne; [now apply Hfree |].
    intros E. symmetry in E. revert E. now apply bit_name_not_aggregate. }
  { lia. }
  { unfold st_a. cbn [module_present_attrs]. lia. }
  { exact Hpre. }
  specialize (Hpref (32 - k)%nat).
  replace (k + (32 - k))%nat with 32%nat in Hpref by lia.
  destruct (32 - k)%nat as [| n'] eqn:En; [lia |].
  set (st_k := mk_state _ _ _ _ _ _ _ _ _) in Hpref.
  destruct (create_step_fail fe d n' k st_k dir_k Hbad)
    as (h1 & np1 & Hfail & _ & _).
  { unfold st_k. cbn [devices]. apply lookup_insert_eq. }
  rewrite <- Hpref in Hfail.
  rewrite (bind_done _ _ _ _ _ Hfail) in Hrun.
  apply bind_inv in Hrun as (? & s1 & _ & Hrun).
  apply bind_inv in Hrun as (? & s2 & _ & Hrun).
  injection Hrun as <- _. now apply fault_code_negative.
Qed.

(** ** What the driver never touches *)

Lemma keeps_ret {A} (a : A) : keeps (ret a).
Proof. intros st b st' H. now injection H as _ <-. Qed.

Lemma keeps_bind {A B} (m : M A) (k : A -> M B) :
  keeps m -> (forall a, keeps (k a)) -> keeps (bind m k).
Proof.
  intros Hm Hk st b st' H. apply bind_inv in H as (a & st1 & H1 & H2).
  rewrite (Hk a _ _ _ H2). exact (Hm _ _ _ H1).
Qed.

Ltac keeps_prim :=
  let H := fresh in
  intros ? ? ? H;
  unfold kzalloc, kstrdup, attr_load, attr_store, kfree, dev_dir, class_create,
    device_create, device_destroy, class_destroy, readl, get_slot, set_slot,
    gets, modify, ub, ret in H;
  repeat case_match; simplify_eq; reflexivity.

Lemma keeps_kzalloc ok : keeps (kzalloc ok).
Proof. keeps_prim. Qed.
Lemma keeps_kstrdup ok s : keeps (kstrdup ok s).
Proof. keeps_prim. Qed.
Lemma keeps_attr_load p : keeps (attr_load p).
Proof. keeps_prim. Qed.
Lemma keeps_attr_store p f : keeps (attr_store p f).
Proof. keeps_prim. Qed.
Lemma keeps_kfree p : keeps (kfree p).
Proof. keeps_prim. Qed.
Lemma keeps_dev_dir dev : keeps (dev_dir dev).
Proof. keeps_prim. Qed.
Lemma keeps_class_create v : keeps (class_create v).
Proof. keeps_prim. Qed.
Lemma keeps_device_create v c : keeps (device_create v c).
Proof. keeps_prim. Qed.
Lemma keeps_device_destroy c : keeps (device_destroy c).
Proof. keeps_prim. Qed.
Lemma keeps_class_destroy c : keeps (class_destroy c).
Proof. keeps_prim. Qed.
Lemma keeps_readl b : keeps (readl b).
Proof. keeps_prim. Qed.
Lemma keeps_get_slot i : keeps (get_slot i).
Proof. keeps_prim. Qed.
Lemma keeps_set_slot i v : keeps (set_slot i v).
Proof. keeps_prim. Qed.
Lemma keeps_ub {A} w : keeps (@ub A w).
Proof. keeps_prim. Qed.

Lemma keeps_kfree_name p : keeps (kfree_name p).
Proof.
  apply keeps_bind; [apply keeps_attr_load | intros; apply keeps_ret].
Qed.

Lemma keeps_deref_attr r : keeps (deref_attr r).
Proof. destruct r; [apply keeps_ret | apply keeps_attr_load]. Qed.

Lemma keeps_device_create_file v dev r : keeps (device_create_file v dev r).
Proof.
  apply keeps_bind; [apply keeps_dev_dir |].
  intros [[d dir] |]; [| apply keeps_ret].
  apply keeps_bind; [apply keeps_deref_attr |]. intros a.
  destruct (attr_name a) as [nm |]; [| apply keeps_ub].
  destruct v; [apply keeps_ret |].
  destruct (dir !! nm); [apply keeps_ret |].
  apply keeps_bind; [| intros; apply keeps_ret].
  intros st x st' H. unfold modify in H. now simplify_eq.
Qed.

Lemma keeps_device_remove_file dev r : keeps (device_remove_file dev r).
Proof.
  apply keeps_bind; [apply keeps_dev_dir |].
  intros [[d dir] |]; [| apply keeps_ret].
  apply keeps_bind; [apply keeps_deref_attr |]. intros a.
  destruct (attr_name a) as [nm |]; [| apply keeps_ub].
  intros st x st' H. unfold modify in H. now simplify_eq.
Qed.

Lemma keeps_create_loop fe dev n : forall i, keeps (create_loop fe dev n i).
Proof.
  induction n as [| n IH]; intros i; [apply keeps_ret |].
  cbn [create_loop].
  apply keeps_bind; [apply keeps_kzalloc |]. intros p.
  apply keeps_bind; [apply keeps_set_slot |]. intros _.
  destruct p as [a |]; [| apply keeps_ret].
  apply keeps_bind; [apply keeps_kstrdup |]. intros nm.
  apply keeps_bind; [apply keeps_attr_store |]. intros _.
  destruct nm as [nm |].
  - apply keeps_bind; [apply keeps_attr_store |]. intros _.
    apply keeps_bind; [apply keeps_attr_store |]. intros _.
    apply keeps_bind; [apply keeps_device_create_file |]. intros r.
    destruct (r =? 0); [apply IH |].
    apply keeps_bind; [apply keeps_kfree_name |]. intros _.
    apply keeps_bind; [apply keeps_kfree |]. intros _.
    apply keeps_bind; [apply keeps_set_slot |]. intros _. apply keeps_ret.
  - apply keeps_bind; [apply keeps_kfree |]. intros _.
    apply keeps_bind; [apply keeps_set_slot |]. intros _. apply keeps_ret.
Qed.

Lemma keeps_teardown_loop clear dev n : forall i, keeps (teardown_loop clear dev n i).
Proof.
  induction n as [| n IH]; intros i; [apply keeps_ret |].
  cbn [teardown_loop].
  apply keeps_bind; [apply keeps_get_slot |]. intros s.
  apply keeps_bind; [| intros; apply IH].
  destruct s as [a |]; [| apply keeps_ret].
  apply keeps_bind; [apply keeps_device_remove_file |]. intros _.
  apply keeps_bind; [apply keeps_kfree_name |]. intros _.
  apply keeps_bind; [apply keeps_kfree |]. intros _.
  destruct clear; [apply keeps_set_slot | apply keeps_ret].
Qed.

Lemma keeps_cleanup_loop dev n i : keeps (cleanup_loop dev n i).
Proof.
  intros st a st' H. rewrite cleanup_loop_teardown in H.
  exact (keeps_teardown_loop false dev n i _ _ _ H).
Qed.

Lemma keeps_create_module_sysfs_files fe dev :
  keeps (create_module_sysfs_files fe dev).
Proof.
  apply keeps_bind; [apply keeps_device_create_file |]. intros r.
  destruct (r =? 0); [| apply keeps_ret].
  apply keeps_bind; [apply keeps_create_loop |]. intros [e |]; [| apply keeps_ret].
  apply keeps_bind; [apply keeps_cleanup_loop |]. intros _.
  apply keeps_bind; [apply keeps_device_remove_file |]. intros _.
  apply keeps_ret.
Qed.

Lemma keeps_read_hw_module_reg det : keeps (read_hw_module_reg det).
Proof.
  unfold read_hw_module_reg.
  destruct (reg_base det); [apply keeps_ret | |];
    (apply keeps_bind; [apply keeps_readl | intros; apply keeps_ret]).
Qed.

(** ** Attach *)

Lemma read_reg_mapped (a : positive) (det : hw_module_detector) (st : state) :
  reg_base det = Ptr a ->
  read_hw_module_reg det st =
    Done (with_module_bits (hw_reg st mod 2 ^ 32) det)
         (set_io_log (io_log st ++ [IoReadl (hw_reg st mod 2 ^ 32)]) st).
Proof. intros E. unfold read_hw_module_reg. now rewrite E. Qed.

Lemma class_create_new (st : state) :
  class_create None st =
    Done (Ptr (next_ptr st))
      (set_next_ptr (Pos.succ (next_ptr st))
         (set_classes (<[next_ptr st := None]> (classes st)) st)).
Proof. reflexivity. Qed.

Lemma device_create_new (c : positive) (st : state) (x : option positive) :
  classes st !! c = Some x ->
  device_create None (Ptr c) st =
    Done (Ptr (next_ptr st))
      (set_next_ptr (Pos.succ (next_ptr st))
         (set_devices (<[next_ptr st := ∅]> (devices st))
            (set_classes (<[c := Some (next_ptr st)]> (classes st)) st))).
Proof. intros E. unfold device_create. now rewrite E. Qed.

Lemma device_create_err (c : positive) (st : state) (x : option positive) (e : errno) :
  classes st !! c = Some x ->
  device_create (Some e) (Ptr c) st = Done (ERR_PTR e) st.
Proof. intros E. unfold device_create. now rewrite E. Qed.

Lemma device_destroy_bound (c d : positive) (st : state) :
  classes st !! c = Some (Some d) ->
  device_destroy (Ptr c) st =
    Done tt (set_devices (delete d (devices st))
               (set_classes (<[c := None]> (classes st)) st)).
Proof. intros E. unfold device_destroy. now rewrite E. Qed.

Lemma class_destroy_live (c : positive) (st : state) (x : option positive) :
  classes st !! c = Some x ->
  class_destroy (Ptr c) st = Done tt (set_classes (delete c (classes st)) st).
Proof. intros E. unfold class_destroy. now rewrite E. Qed.

(** Every way [probe] can return: with 0, the singleton and the driver data
    set to the detector that carries the register value read from [st]; or
    with an error, the singleton and the driver data as they were. *)
Lemma probe_result (env : probe_env) (st : state) (r : Z) (st' : state) :
  hw_module_detector_probe env st = Done r st' ->
  (r = 0 /\ hw_detector st' = Some (probe_detector env st) /\
   drvdata st' = Some (probe_detector env st) /\ hw_reg st' = hw_reg st) \/
  (r <> 0 /\ globals st' = globals st).
Proof.
  unfold hw_module_detector_probe, probe_detector. intros H.
  destruct (env_devm_kzalloc env); cbn [negb] in H;
    [| right; injection H as <- <-; split; [discriminate | reflexivity]].
  destruct (env_resource env); cbn [negb] in H;
    [| right; injection H as <- <-; split; [discriminate | reflexivity]].
  destruct (env_ioremap env) as [a | e];
    cbn [IS_ERR PTR_ERR reg_base with_reg_base zero_detector] in H.
  2:{ right. injection H as <- <-. split; [| reflexivity].
      pose proof (neg_negative e). lia. }
  rewrite (bind_done _ _ _ _ _
             (read_reg_mapped a (mk_detector (Ptr a) 0 NULL NULL) st eq_refl)) in H.
  destruct (env_class_create env) as [e |].
  { unfold bind at 1 in H. cbn [class_create] in H.
    cbn [IS_ERR PTR_ERR hw_class with_hw_class] in H.
    right. injection H as <- <-. split; [| reflexivity].
    pose proof (neg_negative e). lia. }
  rewrite (bind_done _ _ _ _ _ (class_create_new _)) in H.
  cbn [IS_ERR PTR_ERR hw_class with_hw_class with_module_bits reg_base
       module_bits hw_device] in H.
  set (st2 := set_next_ptr _ _) in H.
  assert (Hc : classes st2 !! next_ptr st = Some None).
  { unfold st2. cbn. apply lookup_insert_eq. }
  destruct (env_device_create env) as [e |].
  { rewrite (bind_done _ _ _ _ _ (device_create_err _ _ _ e Hc)) in H.
    cbn [IS_ERR PTR_ERR hw_device with_hw_device] in H.
    rewrite (bind_done _ _ _ _ _ (class_destroy_live _ _ _ Hc)) in H.
    right. injection H as <- <-. split; [| reflexivity].
    pose proof (neg_negative e). lia. }
  rewrite (bind_done _ _ _ _ _ (device_create_new _ _ _ Hc)) in H.
  cbn [IS_ERR PTR_ERR hw_class hw_device with_hw_device] in H.
  set (st3 := set_next_ptr _ _) in H.
  apply bind_inv in H as (r0 & st4 & Hcreate & H).
  pose proof (keeps_create_module_sysfs_files _ _ _ _ _ Hcreate) as Hk.
  destruct (Z.eqb_spec r0 0) as [-> | Hr0].
  - left. unfold bind, modify, platform_set_drvdata, modify, ret in H.
    injection H as <- <-. cbn.
    injection Hk as Hk1 _ _. rewrite Hk1.
    repeat split; reflexivity.
  - right.
    apply bind_inv in H as (? & st5 & Hdd & H).
    apply bind_inv in H as (? & st6 & Hcd & H).
    injection H as <- <-. split; [exact Hr0 |].
    rewrite (keeps_class_destroy _ _ _ _ Hcd), (keeps_device_destroy _ _ _ _ Hdd).
    rewrite Hk. reflexivity.
Qed.

Lemma probe_unfold (env : probe_env) (st : state) :
  early_ok env ->
  hw_module_detector_probe env st =
    (r <- create_module_sysfs_files (env_files env) (Ptr (Pos.succ (next_ptr st))) ;;
     if r =? 0 then
       modify (set_hw_detector (Some (probe_detector env st))) ;;
       platform_set_drvdata (Some (probe_detector env st)) ;;
       ret 0
     else
       device_destroy (Ptr (next_ptr st)) ;;
       class_destroy (Ptr (next_ptr st)) ;;
       ret r) (probe_stage st).
Proof.
  intros (Hk & Hr & (a & Hm) & Hc & Hdv).
  unfold hw_module_detector_probe, probe_detector.
  rewrite Hk, Hr, Hm, Hc, Hdv.
  cbn [negb IS_ERR PTR_ERR reg_base with_reg_base zero_detector].
  rewrite (bind_done _ _ _ _ _
             (read_reg_mapped a (mk_detector (Ptr a) 0 NULL NULL) st eq_refl)).
  rewrite (bind_done _ _ _ _ _ (class_create_new _)).
  cbn [IS_ERR PTR_ERR hw_class with_hw_class with_module_bits reg_base
       module_bits hw_device].
  erewrite bind_done; [| apply device_create_new with (x := None); cbn;
                         apply lookup_insert_eq].
  cbn [IS_ERR PTR_ERR hw_class hw_device with_hw_device reg_base module_bits].
  unfold probe_stage. cbn. rewrite insert_insert_eq. reflexivity.
Qed.

Lemma early_ok_dec (env : probe_env) : early_ok env \/ ~ early_ok env.
Proof.
  unfold early_ok.
  destruct (env_devm_kzalloc env); [| right; intros (? & _); discriminate].
  destruct (env_resource env); [| right; intros (_ & ? & _); discriminate].
  destruct (env_ioremap env) as [a | e];
    [| right; intros (_ & _ & (? & ?) & _); discriminate].
  destruct (env_class_create env);
    [right; intros (_ & _ & _ & ? & _); discriminate |].
  destruct (env_device_create env);
    [right; intros (_ & _ & _ & _ & ?); discriminate |].
  left. repeat split. now exists a.
Qed.

Lemma files_ok_dec (fe : files_env) : files_ok fe \/ ~ files_ok fe.
Proof.
  unfold files_ok. destruct (fe_aggregate fe) as [e |].
  { right. intros (? & _). discriminate. }
  destruct (first_fault fe 32) as [Hall | (k & Hk & Hbad & _)].
  - now left.
  - right. intros (_ & Hall). apply Hbad, Hall, Hk.
Qed.

(** A failure before the class and device exist, or while they are being
    created, leaves no object behind. *)
Lemma probe_early_failure (env : probe_env) (st : state) :
  ~ early_ok env ->
  fresh st ->
  exists r np' log',
    hw_module_detector_probe env st =
      Done r (mk_state (hw_reg st) (hw_detector st) (module_present_attrs st)
                (kheap st) (classes st) (devices st) np' (drvdata st) log') /\
    r < 0.
Proof.
  intros Hbad Hfresh. unfold hw_module_detector_probe.
  destruct (env_devm_kzalloc env) eqn:Hk; cbn [negb].
  2:{ exists (neg ENOMEM), (next_ptr st), (io_log st).
      rewrite state_eta. split; reflexivity. }
  destruct (env_resource env) eqn:Hr; cbn [negb].
  2:{ exists (neg EINVAL), (next_ptr st), (io_log st).
      rewrite state_eta. split; reflexivity. }
  destruct (env_ioremap env) as [a | e] eqn:Hm;
    cbn [IS_ERR PTR_ERR reg_base with_reg_base zero_detector].
  2:{ exists (neg e), (next_ptr st), (io_log st).
      rewrite state_eta. split; [reflexivity | apply neg_negative]. }
  rewrite (bind_done _ _ _ _ _
             (read_reg_mapped a (mk_detector (Ptr a) 0 NULL NULL) st eq_refl)).
  destruct (env_class_create env) as [e |] eqn:Hc.
  { exists (neg e), (next_ptr st), (io_log st ++ [IoReadl (hw_reg st mod 2 ^ 32)]).
    split; [reflexivity | apply neg_negative]. }
  rewrite (bind_done _ _ _ _ _ (class_create_new _)).
  cbn [IS_ERR PTR_ERR hw_class with_hw_class with_module_bits reg_base
       module_bits hw_device].
  destruct (env_device_create env) as [e |] eqn:Hdv.
  2:{ exfalso. apply Hbad. repeat split; try assumption. now exists a. }
  erewrite bind_done; [| apply device_create_err with (x := None); cbn;
                         apply lookup_insert_eq].
  cbn [IS_ERR PTR_ERR hw_class hw_device with_hw_device reg_base module_bits].
  erewrite bind_done; [| apply class_destroy_live with (x := None); cbn;
                         apply lookup_insert_eq].
  exists (neg e), (Pos.succ (next_ptr st)),
         (io_log st ++ [IoReadl (hw_reg st mod 2 ^ 32)]).
  split; [| apply neg_negative].
  unfold ret. cbn. rewrite delete_insert_id; [reflexivity |].
  apply (Hfresh (next_ptr st)). lia.
Qed.

Lemma probe_stage_device (st : state) :
  devices (probe_stage st) !! Pos.succ (next_ptr st) = Some ∅.
Proof. unfold probe_stage. cbn [devices]. apply lookup_insert_eq. Qed.

Lemma fresh_heap_eq (st : state) (h' : gmap positive device_attribute) :
  fresh st ->
  h' ⊆ kheap st ->
  (forall q, (q < next_ptr st)%positive -> h' !! q = kheap st !! q) ->
  h' = kheap st.
Proof.
  intros Hfresh Hsub Hlow. apply map_eq. intros q.
  destruct (decide (q < next_ptr st)%positive) as [Hq | Hq]; [now apply Hlow |].
  destruct (Hfresh q ltac:(lia)) as (Hnone & _). rewrite Hnone.
  destruct (h' !! q) as [a |] eqn:E; [| reflexivity].
  rewrite map_subseteq_spec in Hsub. apply Hsub in E. congruence.
Qed.

(** The class and the device of a failed probe are destroyed again. *)
Lemma probe_unwind (st : state) (l : list (option positive)) (np : positive)
    (log : list io_event) (r : Z) :
  fresh st ->
  (device_destroy (Ptr (next_ptr st)) ;;
   class_destroy (Ptr (next_ptr st)) ;;
   ret r)
    (mk_state (hw_reg st) (hw_detector st) l (kheap st)
       (classes (probe_stage st)) (devices (probe_stage st)) np (drvdata st) log)
  = Done r (mk_state (hw_reg st) (hw_detector st) l (kheap st) (classes st)
              (devices st) np (drvdata st) log).
Proof.
  intros Hfresh.
  destruct (Hfresh (next_ptr st) ltac:(lia)) as (_ & Hc & _).
  destruct (Hfresh (Pos.succ (next_ptr st)) ltac:(lia)) as (_ & _ & Hd).
  erewrite bind_done;
    [| apply device_destroy_bound with (d := Pos.succ (next_ptr st));
       unfold probe_stage; cbn; apply lookup_insert_eq].
  erewrite bind_done;
    [| apply class_destroy_live with (x := None);
       unfold probe_stage; cbn; apply lookup_insert_eq].
  unfold ret, probe_stage. cbn.
  rewrite insert_insert_eq, !delete_insert_id by assumption. reflexivity.
Qed.

(** A failure while the attributes are created: the attributes, the device
    and the class of this attempt are all gone when the error is returned. *)
Lemma probe_late_failure (env : probe_env) (st : state) :
  early_ok env ->
  ~ files_ok (env_files env) ->
  length (module_present_attrs st) = 32%nat ->
  (forall j, (j < 32)%nat -> slot j st = None) ->
  fresh st ->
  exists r l' np' log',
    hw_module_detector_probe env st =
      Done r (mk_state (hw_reg st) (hw_detector st) l' (kheap st) (classes st)
                (devices st) np' (drvdata st) log') /\
    r < 0.
Proof.
  intros Hearly Hfiles Hlen Hclear Hfresh.
  rewrite (probe_unfold env st Hearly).
  destruct (fe_aggregate (env_files env)) as [e |] eqn:Hfa.
  - (* the aggregate attribute *)
    rewrite (bind_done _ _ _ _ _
               (create_files_aggregate_fails _ _ _ ∅ e (probe_stage_device st) Hfa)).
    pose proof (neg_negative e) as Hneg.
    destruct (Z.eqb_spec (neg e) 0) as [E | _]; [lia |].
    exists (neg e), (module_present_attrs st), (Pos.succ (Pos.succ (next_ptr st))),
           (io_log st ++ [IoReadl (hw_reg st mod 2 ^ 32)]).
    split; [| exact Hneg].
    now rewrite <- (probe_unwind st _ _ _ (neg e) Hfresh).
  - (* bit k *)
    destruct (first_fault (env_files env) 32) as [Hall | (k & Hk & Hbad & Hpre)].
    { exfalso. apply Hfiles. now split. }
    destruct (create_files_rollback (env_files env) (Pos.succ (next_ptr st))
                (probe_stage st) ∅ k)
      as (l' & h' & np' & Hrun & Hsub & _ & _ & _ & _ & _ & _ & Hlow);
      try assumption.
    { apply probe_stage_device. }
    { apply lookup_empty. }
    { intros j _. apply lookup_empty. }
    { intros j Hj. apply Hclear. lia. }
    rewrite (bind_done _ _ _ _ _ Hrun).
    pose proof (fault_code_negative _ Hbad) as Hneg.
    destruct (Z.eqb_spec (fault_code (fe_bit (env_files env) k)) 0) as [E | _];
      [lia |].
    assert (Hh : h' = kheap st).
    { apply fresh_heap_eq; [exact Hfresh | exact Hsub |].
      intros q Hq. apply Hlow. unfold probe_stage. cbn [next_ptr]. lia. }
    subst h'.
    eexists _, l', np', _. split; [| exact Hneg].
    now rewrite <- (probe_unwind st _ _ _ _ Hfresh).
Qed.

(** *** A successful attach *)

Lemma probe_ok (env : probe_env) (st : state) :
  env_ok env ->
  length (module_present_attrs st) = 32%nat ->
  exists l h dir,
    hw_module_detector_probe env st =
      Done 0
        (mk_state (hw_reg st) (Some (probe_detector env st)) l h
           (<[next_ptr st := Some (Pos.succ (next_ptr st))]> (classes st))
           (<[Pos.succ (next_ptr st) := dir]> (devices st))
           (ptr_at (Pos.succ (Pos.succ (next_ptr st))) 32)
           (Some (probe_detector env st))
           (io_log st ++ IoReadl (hw_reg st mod 2 ^ 32)
                      :: IoCreateFile "module_bits" :: prefix_log 32)) /\
    published (Pos.succ (Pos.succ (next_ptr st))) (kheap st) l h dir.
Proof.
  intros (Hearly & Hfiles) Hlen.
  rewrite (probe_unfold env st Hearly).
  destruct (create_files_ok (env_files env) (Pos.succ (next_ptr st))
              (probe_stage st) ∅)
    as (l & h & dir & Hrun & Hps); try assumption.
  { apply probe_stage_device. }
  { apply lookup_empty. }
  { intros j _. apply lookup_empty. }
  exists l, h, dir. split.
  - rewrite (bind_done _ _ _ _ _ Hrun). cbn [Z.eqb].
    unfold bind, modify, platform_set_drvdata, modify, ret, probe_stage. cbn.
    now rewrite insert_insert_eq, <- app_assoc.
  - destruct Hps as [Hl Hs Hr Hh Hhr Hdk Hdr].
    unfold probe_stage in *. cbn [module_present_attrs next_ptr kheap] in *.
    constructor; try assumption.
    + lia.
    + rewrite Hdr; [apply lookup_insert_eq |].
      intros j Hj E. symmetry in E. revert E. now apply bit_name_not_aggregate.
    + intros nm Hne Hnm. rewrite Hdr by exact Hnm.
      rewrite lookup_insert_ne by congruence. apply lookup_empty.
Qed.

(** A probe that returned 0 met no failure. *)
Lemma probe_success_inv (env : probe_env) (st st' : state) :
  length (module_present_attrs st) = 32%nat ->
  hw_module_detector_probe env st = Done 0 st' ->
  env_ok env.
Proof.
  intros Hlen Hrun.
  destruct (early_ok_dec env) as [Hearly | Hearly].
  - split; [exact Hearly |].
    destruct (files_ok_dec (env_files env)) as [Hf | Hf]; [exact Hf | exfalso].
    rewrite (probe_unfold env st Hearly) in Hrun.
    apply bind_inv in Hrun as (r & st1 & Hcreate & Hrun).
    assert (Hr : r < 0).
    { apply (create_files_fault_nonzero (env_files env) (Pos.succ (next_ptr st))
               (probe_stage st) ∅ r st1);
        [apply probe_stage_device | apply lookup_empty
        | intros j _; apply lookup_empty | exact Hlen | exact Hf | exact Hcreate]. }
    destruct (Z.eqb_spec r 0) as [E | _]; [lia |].
    apply bind_inv in Hrun as (? & s2 & _ & Hrun).
    apply bind_inv in Hrun as (? & s3 & _ & Hrun).
    injection Hrun as E _. lia.
  - exfalso. destruct (probe_result env st 0 st' Hrun) as [_ | (Hne & _)];
      [| congruence].
    revert Hrun. unfold hw_module_detector_probe.
    destruct (env_devm_kzalloc env) eqn:Hk; cbn [negb]; [| discriminate].
    destruct (env_resource env) eqn:Hr; cbn [negb]; [| discriminate].
    destruct (env_ioremap env) as [a | e] eqn:Hm;
      cbn [IS_ERR PTR_ERR reg_base with_reg_base zero_detector].
    2:{ intros H. injection H as E _. pose proof (neg_negative e). lia. }
    rewrite (bind_done _ _ _ _ _
               (read_reg_mapped a (mk_detector (Ptr a) 0 NULL NULL) st eq_refl)).
    destruct (env_class_create env) as [e |] eqn:Hc.
    { intros H. injection H as E _. pose proof (neg_negative e). lia. }
    rewrite (bind_done _ _ _ _ _ (class_create_new _)).
    cbn [IS_ERR PTR_ERR hw_class with_hw_class with_module_bits reg_base
         module_bits hw_device].
    destruct (env_device_create env) as [e |] eqn:Hdv.
    2:{ intros _. apply Hearly. repeat split; try assumption. now exists a. }
    erewrite bind_done; [| apply device_create_err with (x := None); cbn;
                           apply lookup_insert_eq].
    cbn [IS_ERR PTR_ERR hw_class hw_device with_hw_device reg_base module_bits].
    erewrite bind_done; [| apply class_destroy_live with (x := None); cbn;
                           apply lookup_insert_eq].
    intros H. injection H as E _. pose proof (neg_negative e). lia.
Qed.

(** ** Detach *)

Lemma remove_result (st : state) (r : Z) (st' : state) :
  hw_module_detector_remove st = Done r st' ->
  r = 0 /\ hw_detector st' = None /\ hw_reg st' = hw_reg st /\
  drvdata st' = drvdata st.
Proof.
  unfold hw_module_detector_remove. intros H.
  apply bind_inv in H as (det & s1 & H1 & H).
  unfold platform_get_drvdata, gets in H1. injection H1 as <- <-.
  apply bind_inv in H as (? & s2 & H2 & H).
  unfold bind, modify, ret in H. injection H as <- <-.
  assert (Hk : globals s2 = globals st).
  { destruct (drvdata st) as [d |]; [| now injection H2 as _ <-].
    apply bind_inv in H2 as (? & s3 & H3 & H2).
    apply bind_inv in H2 as (? & s4 & H4 & H2).
    rewrite (keeps_class_destroy _ _ _ _ H2), (keeps_device_destroy _ _ _ _ H4).
    unfold remove_module_sysfs_files in H3.
    apply bind_inv in H3 as (? & s5 & H5 & H3).
    rewrite (keeps_device_remove_file _ _ _ _ _ H3).
    rewrite remove_loop_teardown in H5.
    exact (keeps_teardown_loop _ _ _ _ _ _ _ H5). }
  injection Hk as E1 _ E3. cbn. now rewrite E1, E3.
Qed.

(** With no driver data the teardown branch is skipped: [remove] only
    clears the singleton. *)
Lemma remove_unbound (st : state) :
  drvdata st = None ->
  hw_module_detector_remove st = Done 0 (set_hw_detector None st).
Proof.
  intros E. unfold hw_module_detector_remove, platform_get_drvdata, bind, gets.
  rewrite E. reflexivity.
Qed.

(** Unpublishing when nothing is published changes nothing. *)
Lemma unpublish_noop (d : positive) (st : state) (dir : gmap string attr_ref) :
  devices st !! d = Some dir ->
  dir !! "module_bits" = None ->
  (forall j, (j < 32)%nat -> slot j st = None) ->
  remove_module_sysfs_files (Ptr d) st = Done tt st.
Proof.
  intros Hd Hagg Hnone. unfold remove_module_sysfs_files.
  erewrite bind_done.
  2:{ rewrite remove_loop_teardown. apply teardown_empty.
      intros j Hj. apply Hnone. lia. }
  rewrite (remove_aggregate d st dir Hd).
  rewrite delete_id by exact Hagg. rewrite insert_id by exact Hd.
  unfold set_devices. now rewrite state_eta.
Qed.

(** Unpublishing from slots in any well-ordered state of occupation. *)
Lemma unpublish_spec (d : positive) (st : state) (dir : gmap string attr_ref) :
  devices st !! d = Some dir ->
  range_ok 32 0 st ->
  exists l' h' dir',
    remove_module_sysfs_files (Ptr d) st =
      Done tt (mk_state (hw_reg st) (hw_detector st) l' h' (classes st)
                 (<[d := dir']> (devices st))
                 (next_ptr st) (drvdata st) (io_log st)) /\
    (forall j, (j < 32)%nat -> default None (l' !! j) = None) /\
    length l' = length (module_present_attrs st) /\
    (forall p, held 32 0 st p -> h' !! p = None) /\
    (forall p, ~ held 32 0 st p -> h' !! p = kheap st !! p) /\
    dir' !! "module_bits" = None /\
    (forall nm, held_name 32 0 st nm -> dir' !! nm = None) /\
    (forall nm, nm <> "module_bits" -> ~ held_name 32 0 st nm ->
                dir' !! nm = dir !! nm).
Proof.
  intros Hd Hok.
  destruct (teardown_spec true d 32 0 st dir Hd Hok)
    as (l' & h' & dir1 & Hrun & (Hc & _ & Hlen) & Hf1 & Hf2 & Hsub & Hn1 & Hn2).
  exists l', h', (delete "module_bits" dir1).
  split; [| split; [| split; [| split; [| split; [| split; [| split]]]]]].
  - unfold remove_module_sysfs_files.
    erewrite bind_done; [| rewrite remove_loop_teardown; exact Hrun].
    erewrite remove_aggregate by (cbn [devices]; apply lookup_insert_eq).
    unfold set_devices. cbn. now rewrite insert_insert_eq.
  - intros j Hj. apply Hc. lia.
  - exact Hlen.
  - exact Hf1.
  - exact Hf2.
  - apply lookup_delete_eq.
  - intros nm Hnm. destruct (decide (nm = "module_bits")) as [-> | Hne].
    + apply lookup_delete_eq.
    + rewrite lookup_delete_ne by congruence. now apply Hn1.
  - intros nm Hne Hnm. rewrite lookup_delete_ne by congruence. now apply Hn2.
Qed.

(** Detaching from a state in which the driver data names a live class
    with its device. *)
Lemma remove_bound (st : state) (det : hw_module_detector) (c dv : positive)
    (dir : gmap string attr_ref) :
  drvdata st = Some det ->
  hw_class det = Ptr c ->
  hw_device det = Ptr dv ->
  classes st !! c = Some (Some dv) ->
  devices st !! dv = Some dir ->
  range_ok 32 0 st ->
  exists l' h',
    hw_module_detector_remove st =
      Done 0 (mk_state (hw_reg st) None l' h' (delete c (classes st))
                (delete dv (devices st)) (next_ptr st) (drvdata st) (io_log st)) /\
    (forall j, (j < 32)%nat -> default None (l' !! j) = None) /\
    length l' = length (module_present_attrs st) /\
    (forall p, held 32 0 st p -> h' !! p = None) /\
    (forall p, ~ held 32 0 st p -> h' !! p = kheap st !! p).
Proof.
  intros Hdrv Hc Hdv Hcl Hd Hok.
  destruct (unpublish_spec dv st dir Hd Hok)
    as (l' & h' & dir' & Hrun & Hs & Hlen & Hf1 & Hf2 & _).
  exists l', h'. split; [| now repeat split].
  assert (Hin : (remove_module_sysfs_files (hw_device det) ;;
                 device_destroy (hw_class det) ;;
                 class_destroy (hw_class det)) st =
                Done tt (mk_state (hw_reg st) (hw_detector st) l' h'
                           (delete c (classes st)) (delete dv (devices st))
                           (next_ptr st) (drvdata st) (io_log st))).
  { rewrite Hc, Hdv. rewrite (bind_done _ _ _ _ _ Hrun).
    erewrite bind_done; [| apply device_destroy_bound with (d := dv); exact Hcl].
    erewrite class_destroy_live with (x := None).
    - unfold set_classes, set_devices. cbn.
      now rewrite !delete_insert_eq.
    - cbn. apply lookup_insert_eq. }
  unfold hw_module_detector_remove.
  unfold bind at 1. unfold platform_get_drvdata, gets. rewrite Hdrv.
  rewrite <- Hdrv at 1.
  rewrite (bind_done _ _ _ _ _ Hin).
  reflexivity.
Qed.

(** ** Facts about the scenarios and other preparations *)

Lemma attached_run :
  hw_module_detector_probe (Scenario.env_with Scenario.no_fault) Scenario.boot
  = Done 0 Scenario.attached.
Proof. vm_compute. reflexivity. Qed.

Lemma boot_slots_empty : forall j, slot j Scenario.boot = None.
Proof.
  intros j. unfold slot, Scenario.boot, boot_state. cbn [module_present_attrs].
  destruct (decide (j < 32)%nat).
  - now rewrite lookup_replicate_2.
  - now rewrite lookup_ge_None_2 by (rewrite length_replicate; lia).
Qed.

Lemma boot_fresh : fresh Scenario.boot.
Proof. intros q _. repeat split; apply lookup_empty. Qed.

Lemma fail_at_prefix (k : nat) (f : bit_fault) :
  forall j, (j < k)%nat -> fe_bit (Scenario.fail_at k f) j = NoFault.
Proof.
  intros j Hj. cbn. destruct (Nat.eqb_spec j k); [lia | reflexivity].
Qed.

Lemma fail_at_hit (k : nat) (f : bit_fault) :
  f <> NoFault -> fe_bit (Scenario.fail_at k f) k <> NoFault.
Proof. intros Hf. cbn. now rewrite Nat.eqb_refl. Qed.

Lemma published_range_ok (np : positive) (h0 : gmap positive device_attribute)
    (st : state) (dir : gmap string attr_ref) :
  published np h0 (module_present_attrs st) (kheap st) dir ->
  range_ok 32 0 st.
Proof.
  intros [Hlen Hs Hh _ _ _ _] j p Hj Hp.
  unfold slot in Hp. rewrite Hs in Hp by lia. cbn in Hp. injection Hp as <-.
  split.
  - exists (bit_attr j), (bit_name j). split; [apply Hh; lia | reflexivity].
  - intros j' Hj' Hp'. unfold slot in Hp'. rewrite Hs in Hp' by lia.
    cbn in Hp'. injection Hp' as E. now apply ptr_at_inj in E.
Qed.

Lemma last_cons_default {A} (vs : list A) :
  forall v d : A, List.last (v :: vs) d = List.last vs v.
Proof.
  induction vs as [| x xs IH]; intros v d; [reflexivity |].
  change (List.last (v :: x :: xs) d) with (List.last (x :: xs) d).
  now rewrite !IH.
Qed.

Lemma run_register_changes (vs : list Z) :
  forall (a : bool) (st : state),
    exists st2,
      run (EvRegister <$> vs) a st = Done a st2 /\
      hw_reg st2 = List.last vs (hw_reg st) /\
      hw_detector st2 = hw_detector st /\
      drvdata st2 = drvdata st /\
      devices st2 = devices st /\
      kheap st2 = kheap st /\
      io_log st2 = io_log st.
Proof.
  induction vs as [| v vs IH]; intros a st.
  - exists st. now repeat split.
  - destruct (IH a (set_hw_reg v st)) as (st2 & Hrun & Hreg & Hrest).
    exists st2. split; [exact Hrun |]. split; [| exact Hrest].
    rewrite Hreg. cbn [hw_reg set_hw_reg]. now rewrite last_cons_default.
Qed.

Lemma testbit_shiftr_land (m b : Z) :
  0 <= b -> (Z.land (Z.shiftr m b) 1 =? 1) = Z.testbit m b.
Proof.
  intros Hb.
  replace (Z.testbit m b) with (Z.testbit (Z.shiftr m b) 0)
    by (rewrite Z.shiftr_spec by lia; f_equal; lia).
  pose proof (Z.land_ones (Z.shiftr m b) 1 ltac:(lia)) as E.
  change (Z.ones 1) with 1 in E. change (2 ^ 1) with 2 in E.
  rewrite E, <- Z.bit0_mod.
  now destruct (Z.testbit (Z.shiftr m b) 0).
Qed.



Lemma step_tracks_singleton (ev : event) (a a' : bool) (st st' : state) :
  (is_Some (hw_detector st) <-> a = true) ->
  step ev a st = Done a' st' ->
  (is_Some (hw_detector st') <-> a' = true).
Proof.
  intros Hinv Hstep. destruct ev as [env | | v]; cbn [step] in Hstep.
  - apply bind_inv in Hstep as (r & s1 & Hprobe & Hret).
    injection Hret as <- <-.
    destruct (probe_result env st r s1 Hprobe)
      as [(-> & Hdet & _) | (Hne & Hk)].
    + rewrite Hdet. cbn. split; [reflexivity | intros _; eexists; reflexivity].
    + destruct (Z.eqb_spec r 0) as [E | _]; [contradiction |].
      injection Hk as _ Hk _. now rewrite Hk.
  - apply bind_inv in Hstep as (r & s1 & Hrem & Hrest).
    apply remove_result in Hrem as (_ & Hnone & _).
    unfold bind, device_unbind_cleanup, platform_set_drvdata, modify, ret in Hrest.
    injection Hrest as <- <-. cbn. rewrite Hnone.
    split; [intros [? ?]; discriminate | discriminate].
  - unfold bind, modify, ret in Hstep. injection Hstep as <- <-. exact Hinv.
Qed.

Lemma run_tracks_singleton (evs : list event) :
  forall (a a' : bool) (st st' : state),
    (is_Some (hw_detector st) <-> a = true) ->
    run evs a st = Done a' st' ->
    (is_Some (hw_detector st') <-> a' = true).
Proof.
  induction evs as [| ev evs IH]; intros a a' st st' Hinv Hrun.
  - injection Hrun as <- <-. exact Hinv.
  - cbn [run] in Hrun. apply bind_inv in Hrun as (b & s1 & Hstep & Hrun).
    exact (IH b a' s1 st' (step_tracks_singleton ev a b st s1 Hinv Hstep) Hrun).
Qed.

Lemma range_okb_sound (st : state) : range_okb st = true -> range_ok 32 0 st.
Proof.
  unfold range_okb. rewrite forallb_forall. intros H j p Hj Hp.
  specialize (H j ltac:(apply in_seq; lia)). unfold slot_okb in H.
  rewrite Hp in H.
  destruct (kheap st !! p) as [a |] eqn:Ha; [| discriminate].
  destruct (attr_name a) as [nm |] eqn:Hnm; [| discriminate].
  split; [exists a, nm; split; [reflexivity | exact Hnm] |].
  intros j' Hj' Hp'. rewrite forallb_forall in H.
  specialize (H j' ltac:(apply in_seq; lia)).
  apply orb_true_iff in H as [H | H]; [now apply Nat.eqb_eq in H |].
  rewrite bool_decide_eq_true_2 in H by exact Hp'. discriminate.
Qed.

(** * The claims of the specification *)

(** ** C1 *)

(** The rollback when the slots above [k] hold no handle at entry, as on a
    first attach and after every detach.  Publishing fails in the round of
    bit [k] (the allocation of the attribute, the duplication of its name
    or the creation of its file fails) after the aggregate attribute and
    the attributes of bits [0 .. k-1] were published into an empty
    directory.  Then the call returns the error code only after removing
    all of them: the directory is empty again and every attribute allocated
    by the call is freed. *)
Theorem publish_failure_rolls_back (fe : files_env) (d : positive) (st : state)
    (k : nat) :
  devices st !! d = Some ∅ ->
  length (module_present_attrs st) = 32%nat ->
  (forall j, (k < j < 32)%nat -> slot j st = None) ->
  fe_aggregate fe = None ->
  (k < 32)%nat ->
  (forall j, (j < k)%nat -> fe_bit fe j = NoFault) ->
  fe_bit fe k <> NoFault ->
  exists st',
    create_module_sysfs_files fe (Ptr d) st =
      Done (fault_code (fe_bit fe k)) st' /\
    fault_code (fe_bit fe k) < 0 /\
    io_log st' = io_log st ++ IoCreateFile "module_bits" :: prefix_log k /\
    devices st' !! d = Some ∅ /\
    devices st' = devices st /\
    kheap st' ⊆ kheap st /\
    (forall j, (j < k)%nat -> kheap st' !! ptr_at (next_ptr st) j = None).
Proof.
  intros Hd Hlen Hstale Hfa Hk Hok Hbad.
  destruct (create_files_rollback fe d st ∅ k)
    as (l' & h' & np' & Hrun & Hsub & Hfreed & _); try assumption.
  { apply lookup_empty. }
  { intros j _. apply lookup_empty. }
  eexists. split; [exact Hrun |].
  split; [now apply fault_code_negative |].
  cbn [io_log devices kheap]. now repeat split.
Qed.

Lemma publish_failure_rolls_back_witness :
  exists st',
    create_module_sysfs_files (Scenario.fail_at 3 KstrdupFails) (Ptr 2)
      (probe_stage Scenario.boot) = Done (-12) st' /\
    -12 < 0 /\
    io_log st' = io_log (probe_stage Scenario.boot)
                 ++ IoCreateFile "module_bits" :: prefix_log 3 /\
    devices st' !! 2%positive = Some ∅ /\
    devices st' = devices (probe_stage Scenario.boot) /\
    kheap st' ⊆ kheap (probe_stage Scenario.boot) /\
    (forall j, (j < 3)%nat ->
       kheap st' !! ptr_at (next_ptr (probe_stage Scenario.boot)) j = None).
Proof.
  apply (publish_failure_rolls_back (Scenario.fail_at 3 KstrdupFails) 2
           (probe_stage Scenario.boot) 3).
  - reflexivity.
  - reflexivity.
  - intros j _. apply (boot_slots_empty j).
  - reflexivity.
  - lia.
  - apply fail_at_prefix.
  - apply fail_at_hit. discriminate.
Defined.

(** C1.  The rollback is not carried out on every failed publish.  An
    attach whose name duplication fails at bit 3 returns [-ENOMEM] and
    leaves in slot 2 the handle of an attribute it has freed.  The next
    attach reaches [create_module_sysfs_files] on its new device, whose
    directory is empty; the allocation fails at bit 1, and the loop under
    [err_cleanup] hands the freed attribute of slot 2 to
    [device_remove_file]: the call does not return the error with the
    attributes removed, it uses freed memory. *)
Theorem publish_retry_uses_freed_attribute :
  exists st1,
    hw_module_detector_probe
      (Scenario.env_with (Scenario.fail_at 3 KstrdupFails)) Scenario.boot
      = Done (-12) st1 /\
    slot 2 st1 = Some 5%positive /\
    kheap st1 !! 5%positive = None /\
    devices (probe_stage st1) !! Pos.succ (next_ptr st1) = Some ∅ /\
    create_module_sysfs_files (Scenario.fail_at 1 KzallocFails)
      (Ptr (Pos.succ (next_ptr st1))) (probe_stage st1) = Fault BadAttribute.
Proof.
  eexists. split; [vm_compute; reflexivity |].
  repeat split; vm_compute; reflexivity.
Qed.

(** ** C2 *)

(** The part of the statement the code keeps.  Starting with the singleton
    NULL, after any sequence of attach, detach and register events that
    returns, [hw_detector] is non-NULL exactly when an attach has returned
    0 with no detach after it.  An attach attempt made with no handle in
    the slots always returns; when it returns an error the singleton is
    still NULL and the driver data, the classes, the devices with their
    attributes and the allocated attributes are what they were before the
    attempt. *)
Theorem singleton_iff_attached (st : state) (env : probe_env) (evs : list event) :
  hw_detector st = None ->
  length (module_present_attrs st) = 32%nat ->
  (forall j, (j < 32)%nat -> slot j st = None) ->
  fresh st ->
  (exists r st',
      hw_module_detector_probe env st = Done r st' /\
      (r = 0 -> is_Some (hw_detector st')) /\
      (r <> 0 ->
       hw_detector st' = None /\ drvdata st' = drvdata st /\
       kheap st' = kheap st /\ classes st' = classes st /\
       devices st' = devices st)) /\
  (forall a st',
      run evs false st = Done a st' ->
      (is_Some (hw_detector st') <-> a = true)).
Proof.
  intros Hnone Hlen Hclear Hfresh. split.
  - destruct (early_ok_dec env) as [Hearly | Hearly].
    + destruct (files_ok_dec (env_files env)) as [Hfiles | Hfiles].
      * destruct (probe_ok env st (conj Hearly Hfiles) Hlen)
          as (l & h & dir & Hrun & _).
        eexists _, _. split; [exact Hrun |]. split.
        -- intros _. eexists. reflexivity.
        -- intros Hne. now contradiction Hne.
      * destruct (probe_late_failure env st Hearly Hfiles Hlen Hclear Hfresh)
          as (r & l' & np' & log' & Hrun & Hneg).
        eexists _, _. split; [exact Hrun |]. split; [lia |].
        intros _. cbn. now repeat split.
    + destruct (probe_early_failure env st Hearly Hfresh)
        as (r & np' & log' & Hrun & Hneg).
      eexists _, _. split; [exact Hrun |]. split; [lia |].
      intros _. cbn. now repeat split.
  - intros a st' Hrun.
    apply (run_tracks_singleton evs false a st st'); [| exact Hrun].
    rewrite Hnone. split; [intros [? ?]; discriminate | discriminate].
Qed.

Lemma singleton_iff_attached_witness :
  (exists r st',
      hw_module_detector_probe
        (Scenario.env_with (Scenario.fail_at 2 KzallocFails)) Scenario.boot
        = Done r st' /\
      (r = 0 -> is_Some (hw_detector st')) /\
      (r <> 0 ->
       hw_detector st' = None /\ drvdata st' = drvdata Scenario.boot /\
       kheap st' = kheap Scenario.boot /\ classes st' = classes Scenario.boot /\
       devices st' = devices Scenario.boot)) /\
  (forall a st',
      run [EvProbe (Scenario.env_with (Scenario.fail_at 2 KzallocFails));
           EvProbe (Scenario.env_with Scenario.no_fault);
           EvRegister 5; EvRemove] false Scenario.boot = Done a st' ->
      (is_Some (hw_detector st') <-> a = true)).
Proof.
  apply (singleton_iff_attached Scenario.boot).
  - reflexivity.
  - reflexivity.
  - intros j _. apply boot_slots_empty.
  - exact boot_fresh.
Defined.

(** That run does return, detached. *)
Example lifecycle_run :
  exists st',
    run [EvProbe (Scenario.env_with (Scenario.fail_at 2 KzallocFails));
         EvProbe (Scenario.env_with Scenario.no_fault);
         EvRegister 5; EvRemove] false Scenario.boot = Done false st' /\
    hw_detector st' = None.
Proof. eexists. split; vm_compute; reflexivity. Qed.

(** C2.  Not every attach failure path releases what it created and returns
    the error.  An attach whose file creation fails at bit 5 is compensated:
    it returns with the singleton NULL and the attributes, classes and
    devices as before, but with the handles of the freed attributes of bits
    0 .. 4 still in the slots.  The attach that follows fails at bit 2, and
    its cleanup goes over slots 3 and 4: instead of returning its error it
    removes and frees attributes that are already freed. *)
Theorem failed_attach_after_failed_attach_faults :
  exists st1,
    run [EvProbe (Scenario.env_with (Scenario.fail_at 5 (CreateFileFails ENOMEM)))]
      false Scenario.boot = Done false st1 /\
    hw_detector st1 = None /\
    kheap st1 = kheap Scenario.boot /\
    classes st1 = classes Scenario.boot /\
    devices st1 = devices Scenario.boot /\
    (forall j, (j < 5)%nat ->
       exists p, slot j st1 = Some p /\ kheap st1 !! p = None) /\
    hw_module_detector_probe
      (Scenario.env_with (Scenario.fail_at 2 KstrdupFails)) st1
      = Fault BadAttribute /\
    run [EvProbe (Scenario.env_with (Scenario.fail_at 5 (CreateFileFails ENOMEM)));
         EvProbe (Scenario.env_with (Scenario.fail_at 2 KstrdupFails))]
      false Scenario.boot = Fault BadAttribute.
Proof.
  eexists. split; [vm_compute; reflexivity |].
  split; [reflexivity |]. split; [reflexivity |]. split; [reflexivity |].
  split; [reflexivity |]. split; [| split; vm_compute; reflexivity].
  intros j Hj.
  assert (Hc : (j = 0 \/ j = 1 \/ j = 2 \/ j = 3 \/ j = 4)%nat) by lia.
  destruct Hc as [-> | [-> | [-> | [-> | ->]]]];
    eexists; split; vm_compute; reflexivity.
Qed.

(** ** C3 *)

(** What [err_cleanup] leaves in the slot array: the slots of the bits
    below [k] still hold the handles of attributes that are freed and no
    longer published. *)
Lemma rollback_keeps_freed_handles (fe : files_env) (d : positive) (st : state)
    (k : nat) :
  devices st !! d = Some ∅ ->
  length (module_present_attrs st) = 32%nat ->
  (forall j, (k < j < 32)%nat -> slot j st = None) ->
  fe_aggregate fe = None ->
  (k < 32)%nat ->
  (forall j, (j < k)%nat -> fe_bit fe j = NoFault) ->
  fe_bit fe k <> NoFault ->
  exists r st',
    create_module_sysfs_files fe (Ptr d) st = Done r st' /\
    forall j, (j < k)%nat ->
      slot j st' = Some (ptr_at (next_ptr st) j) /\
      kheap st' !! ptr_at (next_ptr st) j = None /\
      devices st' !! d = Some ∅.
Proof.
  intros Hd Hlen Hstale Hfa Hk Hok Hbad.
  destruct (create_files_rollback fe d st ∅ k)
    as (l' & h' & np' & Hrun & _ & Hfreed & Hslots & _); try assumption.
  { apply lookup_empty. }
  { intros j _. apply lookup_empty. }
  eexists _, _. split; [exact Hrun |].
  intros j Hj. unfold slot. cbn [module_present_attrs kheap devices].
  rewrite (Hslots j Hj). repeat split; [now apply Hfreed | exact Hd].
Qed.

(** C3.  The slot invariant fails on the rollback path.  Attribute creation
    fails at bit 1 on a freshly created device: the call returns [-ENOMEM]
    with nothing published and nothing allocated, yet slot 0 is not empty;
    it holds the handle of the attribute that was just freed. *)
Theorem rollback_leaves_stale_slot :
  exists st',
    create_module_sysfs_files (Scenario.fail_at 1 KzallocFails) (Ptr 2)
      (probe_stage Scenario.boot) = Done (-12) st' /\
    devices st' !! 2%positive = Some ∅ /\
    kheap st' = ∅ /\
    slot 0 st' = Some 3%positive /\
    kheap st' !! 3%positive = None.
Proof.
  eexists. split; [vm_compute; reflexivity |].
  repeat split; vm_compute; reflexivity.
Qed.

(** The stale handles are used by the next failing attempt: a probe that
    fails at bit 3 followed by one that fails at bit 1 runs [err_cleanup]
    over slot 2, whose attribute the first attempt freed. *)
Example retry_after_rollback_faults :
  (hw_module_detector_probe (Scenario.env_with (Scenario.fail_at 3 KstrdupFails)) ;;
   hw_module_detector_probe (Scenario.env_with (Scenario.fail_at 1 KzallocFails)))
    Scenario.boot = Fault BadAttribute.
Proof. vm_compute. reflexivity. Qed.

(** The positive half of the slot invariant: after a successful attach all
    32 slots are occupied, each by the live attribute published under the
    bit's name; after the detach that follows all 32 are empty. *)
Lemma slots_follow_publication (env : probe_env) (st st1 : state) :
  length (module_present_attrs st) = 32%nat ->
  hw_module_detector_probe env st = Done 0 st1 ->
  (forall j, (j < 32)%nat ->
     exists p dv dir,
       slot j st1 = Some p /\ kheap st1 !! p = Some (bit_attr j) /\
       hw_device <$> hw_detector st1 = Some (Ptr dv) /\
       devices st1 !! dv = Some dir /\ dir !! bit_name j = Some (heap_attr p)) /\
  exists st2,
    hw_module_detector_remove st1 = Done 0 st2 /\
    forall j, (j < 32)%nat -> slot j st2 = None.
Proof.
  intros Hlen Hrun.
  pose proof (probe_success_inv env st st1 Hlen Hrun) as Hok.
  destruct (probe_ok env st Hok Hlen) as (l & h & dir & Hrun' & Hpub).
  rewrite Hrun' in Hrun. injection Hrun as <-.
  set (s1 := mk_state _ _ _ _ _ _ _ _ _).
  split.
  - intros j Hj. destruct Hpub as [_ Hs Hh _ _ Hbits _].
    exists (ptr_at (Pos.succ (Pos.succ (next_ptr st))) j),
           (Pos.succ (next_ptr st)), dir.
    unfold slot. cbn [s1 module_present_attrs kheap hw_detector devices].
    rewrite (Hs j Hj), lookup_insert_eq.
    repeat split; [now apply Hh | now apply Hbits].
  - assert (Hr : range_ok 32 0 s1)
      by (apply (published_range_ok (Pos.succ (Pos.succ (next_ptr st)))
                   (kheap st) s1 dir); exact Hpub).
    destruct (remove_bound s1 (probe_detector env st) (next_ptr st)
                (Pos.succ (next_ptr st)) dir) as (l' & h' & Hrem & Hs & _);
      try reflexivity; try exact Hr.
    + apply lookup_insert_eq.
    + apply lookup_insert_eq.
    + eexists. split; [exact Hrem | exact Hs].
Qed.

(** ** C4 *)

(** C4.  After an attach that returned 0 on a register holding [mask],
    [hw_module_present bit] is true exactly when bit [bit] of [mask] is 1,
    for every 32-bit [mask] and every [bit] below 32:
    [present(bit) == ((mask >> bit) & 1 == 1)]. *)
Theorem present_after_attach (env : probe_env) (st st' : state) (mask bit : Z) :
  hw_reg st = mask ->
  0 <= mask < 2 ^ 32 ->
  0 <= bit < 32 ->
  hw_module_detector_probe env st = Done 0 st' ->
  hw_module_present bit st' = (Z.land (Z.shiftr mask bit) 1 =? 1).
Proof.
  intros Hreg Hmask Hbit Hrun.
  destruct (probe_result env st 0 st' Hrun) as [(_ & Hdet & _) | (Hne & _)];
    [| congruence].
  rewrite (present_in_range bit st' _ Hdet Hbit).
  cbn [probe_detector module_bits]. rewrite Hreg.
  now rewrite Z.mod_small by assumption.
Qed.

Lemma present_after_attach_witness :
  hw_module_present 3 Scenario.attached = true.
Proof.
  apply (present_after_attach (Scenario.env_with Scenario.no_fault)
           Scenario.boot Scenario.attached 42 3).
  - reflexivity.
  - lia.
  - lia.
  - exact attached_run.
Defined.

(** ** C5 *)

(** C5.  [hw_module_present bit] is false, as an ordinary return value,
    whenever [bit >= 32] and whenever no detector is attached. *)
Theorem present_false_when_invalid (bit : Z) (st : state) :
  32 <= bit \/ hw_detector st = None ->
  hw_module_present bit st = false.
Proof.
  intros [Hbit | Hnone].
  - now apply present_out_of_range.
  - now apply present_no_detector.
Qed.

Lemma present_false_when_invalid_witness :
  hw_module_present 32 Scenario.attached = false /\
  hw_module_present 1 Scenario.boot = false.
Proof.
  split.
  - apply present_false_when_invalid. left. lia.
  - apply present_false_when_invalid. right. reflexivity.
Defined.

(** ** C6 *)



(** The end-to-end example of the specification. *)
Example end_to_end_0x2a :
  hex8 42 = "0000002a" /\
  sysfs_read 2 "module_bits" Scenario.attached = Some (11, "0x0000002a" +:+ nl) /\
  sysfs_read 2 "module_1" Scenario.attached = Some (2, "1" +:+ nl) /\
  sysfs_read 2 "module_0" Scenario.attached = Some (2, "0" +:+ nl) /\
  hw_module_present 1 Scenario.attached = true /\
  hw_module_present 3 Scenario.attached = true /\
  hw_module_present 5 Scenario.attached = true /\
  hw_module_present 0 Scenario.attached = false /\
  hw_module_present 2 Scenario.attached = false /\
  hw_get_module_mask Scenario.attached = 42.
Proof. repeat split; vm_compute; reflexivity. Qed.

(** ** C7 *)

(** C7.  [module_bits] is a snapshot: a successful attach performs exactly
    one register read, before it publishes any attribute, and stores the
    value; whatever the register holds later, [hw_get_module_mask] keeps
    returning the value read at attach time and no further read occurs. *)
Theorem mask_is_attach_snapshot (env : probe_env) (st st1 : state) (vs : list Z) :
  length (module_present_attrs st) = 32%nat ->
  hw_module_detector_probe env st = Done 0 st1 ->
  hw_get_module_mask st1 = hw_reg st mod 2 ^ 32 /\
  io_log st1 = io_log st ++ IoReadl (hw_reg st mod 2 ^ 32)
                         :: IoCreateFile "module_bits" :: prefix_log 32 /\
  exists st2,
    run (EvRegister <$> vs) true st1 = Done true st2 /\
    hw_reg st2 = List.last vs (hw_reg st) /\
    hw_get_module_mask st2 = hw_reg st mod 2 ^ 32 /\
    io_log st2 = io_log st1.
Proof.
  intros Hlen Hrun.
  pose proof (probe_success_inv env st st1 Hlen Hrun) as Hok.
  destruct (probe_ok env st Hok Hlen) as (l & h & dir & Hrun' & _).
  rewrite Hrun' in Hrun. injection Hrun as <-.
  split; [reflexivity |]. split; [reflexivity |].
  match goal with
  | |- context [run _ true ?s] =>
      destruct (run_register_changes vs true s)
        as (st2 & Hr & Hreg & Hdet & _ & _ & _ & Hlog)
  end.
  exists st2. split; [exact Hr |]. split; [exact Hreg |]. split; [| exact Hlog].
  unfold hw_get_module_mask. rewrite Hdet. reflexivity.
Qed.

Lemma mask_is_attach_snapshot_witness :
  hw_get_module_mask Scenario.attached = 42 /\
  io_log Scenario.attached =
    [] ++ IoReadl 42 :: IoCreateFile "module_bits" :: prefix_log 32 /\
  exists st2,
    run (EvRegister <$> [7; 0]) true Scenario.attached = Done true st2 /\
    hw_reg st2 = 0 /\
    hw_get_module_mask st2 = 42 /\
    io_log st2 = io_log Scenario.attached.
Proof.
  apply (mask_is_attach_snapshot (Scenario.env_with Scenario.no_fault)
           Scenario.boot Scenario.attached [7; 0]).
  - reflexivity.
  - exact attached_run.
Defined.

(** ** C8 *)

(** C8.  Detach clears the singleton: whenever [remove] returns it returns
    0 with [hw_detector] NULL, so that afterwards [hw_module_present] is
    false for every bit index and [hw_get_module_mask] is 0.  After a
    successful attach [remove] does return. *)
Theorem detach_clears_singleton (env : probe_env) (st st1 : state) :
  length (module_present_attrs st) = 32%nat ->
  hw_module_detector_probe env st = Done 0 st1 ->
  (exists st2, hw_module_detector_remove st1 = Done 0 st2) /\
  (forall st0 r st2,
      hw_module_detector_remove st0 = Done r st2 ->
      r = 0 /\ hw_detector st2 = None /\
      (forall bit, hw_module_present bit st2 = false) /\
      hw_get_module_mask st2 = 0).
Proof.
  intros Hlen Hrun. split.
  - pose proof (probe_success_inv env st st1 Hlen Hrun) as Hok.
    destruct (probe_ok env st Hok Hlen) as (l & h & dir & Hrun' & Hpub).
    rewrite Hrun' in Hrun. injection Hrun as <-.
    set (s1 := mk_state _ _ _ _ _ _ _ _ _).
    assert (Hr : range_ok 32 0 s1)
      by (apply (published_range_ok (Pos.succ (Pos.succ (next_ptr st)))
                   (kheap st) s1 dir); exact Hpub).
    destruct (remove_bound s1 (probe_detector env st) (next_ptr st)
                (Pos.succ (next_ptr st)) dir) as (l' & h' & Hrem & _);
      try reflexivity; try exact Hr.
    + apply lookup_insert_eq.
    + apply lookup_insert_eq.
    + eexists. exact Hrem.
  - intros st0 r st2 Hrem.
    destruct (remove_result st0 r st2 Hrem) as (-> & Hnone & _).
    repeat split; try assumption.
    + intros bit. now apply present_no_detector.
    + unfold hw_get_module_mask. now rewrite Hnone.
Qed.

Lemma detach_clears_singleton_witness :
  (exists st2, hw_module_detector_remove Scenario.attached = Done 0 st2) /\
  (forall st0 r st2,
      hw_module_detector_remove st0 = Done r st2 ->
      r = 0 /\ hw_detector st2 = None /\
      (forall bit, hw_module_present bit st2 = false) /\
      hw_get_module_mask st2 = 0).
Proof.
  apply (detach_clears_singleton (Scenario.env_with Scenario.no_fault)
           Scenario.boot Scenario.attached).
  - reflexivity.
  - exact attached_run.
Defined.

(** ** C9 *)

(** C9.  Unpublish works from any partial occupation of the slots: it
    empties every slot, removes the files of the occupied slots and the
    aggregate file, frees the attributes the slots held, and touches no
    other file, attribute or component of the state; run a second time in a
    row it changes nothing.  A detach (the driver core calls [remove] and
    then resets the driver data) from such a state returns with every slot
    empty and the singleton NULL, and a second detach in a row returns and
    changes nothing at all. *)
Theorem unpublish_idempotent (st : state) (det : hw_module_detector)
    (c dv : positive) (dir : gmap string attr_ref) :
  drvdata st = Some det ->
  hw_class det = Ptr c ->
  hw_device det = Ptr dv ->
  classes st !! c = Some (Some dv) ->
  devices st !! dv = Some dir ->
  range_ok 32 0 st ->
  (exists st1 dir1,
      remove_module_sysfs_files (Ptr dv) st = Done tt st1 /\
      (forall j, (j < 32)%nat -> slot j st1 = None) /\
      devices st1 !! dv = Some dir1 /\
      dir1 !! "module_bits" = None /\
      (forall nm, held_name 32 0 st nm -> dir1 !! nm = None) /\
      (forall nm, nm <> "module_bits" -> ~ held_name 32 0 st nm ->
                  dir1 !! nm = dir !! nm) /\
      (forall p, held 32 0 st p -> kheap st1 !! p = None) /\
      (forall p, ~ held 32 0 st p -> kheap st1 !! p = kheap st !! p) /\
      globals st1 = globals st /\
      classes st1 = classes st /\
      (forall d', d' <> dv -> devices st1 !! d' = devices st !! d') /\
      remove_module_sysfs_files (Ptr dv) st1 = Done tt st1) /\
  (forall a, exists st2,
      step EvRemove a st = Done false st2 /\
      (forall j, (j < 32)%nat -> slot j st2 = None) /\
      hw_detector st2 = None /\
      step EvRemove false st2 = Done false st2 /\
      run [EvRemove; EvRemove] a st = Done false st2).
Proof.
  intros Hdrv Hc Hdv Hcl Hd Hok. split.
  - destruct (unpublish_spec dv st dir Hd Hok)
      as (l' & h' & dir1 & Hrun & Hs & _ & Hf1 & Hf2 & Hagg & Hn1 & Hn2).
    eexists _, dir1. split; [exact Hrun |].
    assert (Hd1 : <[dv := dir1]> (devices st) !! dv = Some dir1)
      by apply lookup_insert_eq.
    cbn [devices kheap classes].
    split; [exact Hs |]. split; [exact Hd1 |]. split; [exact Hagg |].
    split; [exact Hn1 |]. split; [exact Hn2 |]. split; [exact Hf1 |].
    split; [exact Hf2 |]. split; [reflexivity |]. split; [reflexivity |].
    split; [intros d' Hne; now apply lookup_insert_ne |].
    apply (unpublish_noop dv _ dir1); [exact Hd1 | exact Hagg | exact Hs].
  - intros a.
    destruct (remove_bound st det c dv dir Hdrv Hc Hdv Hcl Hd Hok)
      as (l' & h' & Hrun & Hs & _).
    set (s := mk_state _ _ _ _ _ _ _ _ _) in Hrun.
    assert (H1 : step EvRemove a st = Done false (set_drvdata None s)).
    { cbn [step]. now rewrite (bind_done _ _ _ _ _ Hrun). }
    assert (H2 : step EvRemove false (set_drvdata None s)
                 = Done false (set_drvdata None s)).
    { cbn [step].
      now rewrite (bind_done _ _ _ _ _ (remove_unbound (set_drvdata None s) eq_refl)). }
    exists (set_drvdata None s).
    split; [exact H1 |]. split; [exact Hs |]. split; [reflexivity |].
    split; [exact H2 |].
    cbn [run]. rewrite (bind_done _ _ _ _ _ H1), (bind_done _ _ _ _ _ H2).
    reflexivity.
Qed.

Lemma unpublish_idempotent_witness :
  (exists st1 dir1,
      remove_module_sysfs_files (Ptr 2) Scenario.partly = Done tt st1 /\
      (forall j, (j < 32)%nat -> slot j st1 = None) /\
      devices st1 !! 2%positive = Some dir1 /\
      dir1 !! "module_bits" = None /\
      (forall nm, held_name 32 0 Scenario.partly nm -> dir1 !! nm = None) /\
      (forall nm, nm <> "module_bits" ->
                  ~ held_name 32 0 Scenario.partly nm ->
                  dir1 !! nm = Scenario.directory !! nm) /\
      (forall p, held 32 0 Scenario.partly p -> kheap st1 !! p = None) /\
      (forall p, ~ held 32 0 Scenario.partly p ->
                 kheap st1 !! p = kheap Scenario.partly !! p) /\
      globals st1 = globals Scenario.partly /\
      classes st1 = classes Scenario.partly /\
      (forall d', d' <> 2%positive ->
                  devices st1 !! d' = devices Scenario.partly !! d') /\
      remove_module_sysfs_files (Ptr 2) st1 = Done tt st1) /\
  (forall a, exists st2,
      step EvRemove a Scenario.partly = Done false st2 /\
      (forall j, (j < 32)%nat -> slot j st2 = None) /\
      hw_detector st2 = None /\
      step EvRemove false st2 = Done false st2 /\
      run [EvRemove; EvRemove] a Scenario.partly = Done false st2).
Proof.
  apply (unpublish_idempotent Scenario.partly Scenario.detector
           1 2 Scenario.directory).
  - reflexivity.
  - reflexivity.
  - reflexivity.
  - vm_compute. reflexivity.
  - vm_compute. reflexivity.
  - apply range_okb_sound. vm_compute. reflexivity.
Defined.

(** The reset of the driver data is the driver core's, not the driver's:
    [remove] guards its teardown with the driver data and does not clear
    it, so the function applied twice with nothing in between would go
    through the teardown again, on a device that is already destroyed.
    The driver core never makes that call. *)
Remark remove_twice_without_reset :
  (hw_module_detector_remove ;; hw_module_detector_remove) Scenario.attached
  = Fault BadDevice.
Proof. vm_compute. reflexivity. Qed.

(** ** C10 *)

(** C10.  With the singleton NULL both read handlers return [-EINVAL] and
    write nothing; [module_present_show] also returns [-EINVAL] when the
    integer after the seventh character of the attribute's name does not
    parse or is 32 or more. *)
Theorem show_handlers_reject (st : state) (attr : device_attribute) :
  hw_detector st = None \/
  (exists name tail, attr_name attr = Some name /\
                     str_advance 7 name = Some tail /\ parse_rejected tail) ->
  module_present_show attr st = Some (-22, "") /\
  (hw_detector st = None -> module_bits_show st = Some (-22, "")).
Proof.
  intros H. split.
  - unfold module_present_show.
    destruct (hw_detector st) as [d |] eqn:Hd; [| reflexivity].
    destruct H as [H | (name & tail & Hn & Ht & Hrej)]; [discriminate |].
    rewrite Hn, Ht. unfold parse_rejected in Hrej.
    destruct (kstrtouint tail) as [e | bit]; [reflexivity |].
    destruct (Z.leb_spec 32 bit); [reflexivity | lia].
  - intros Hnone. unfold module_bits_show. now rewrite Hnone.
Qed.

Lemma show_handlers_reject_witness :
  (module_present_show (bit_attr 5) Scenario.boot = Some (-22, "") /\
   (hw_detector Scenario.boot = None ->
    module_bits_show Scenario.boot = Some (-22, ""))) /\
  module_present_show (mk_attr (Some "module_32") 292 None) Scenario.attached
    = Some (-22, "") /\
  module_present_show (mk_attr (Some "module_x") 292 None) Scenario.attached
    = Some (-22, "").
Proof.
  split; [| split].
  - apply show_handlers_reject. left. reflexivity.
  - apply show_handlers_reject. right. exists "module_32", "32".
    split; [reflexivity |]. split; [reflexivity |]. vm_compute. discriminate.
  - apply show_handlers_reject. right. exists "module_x", "x".
    split; [reflexivity |]. split; [reflexivity |]. vm_compute. exact I.
Defined.

(** * Further properties of the code *)

(** ** Which error an attach returns *)

Lemma first_bit_fault_none (fe : files_env) (n : nat) :
  forall i,
    (forall j, (i <= j < i + n)%nat -> fe_bit fe j = NoFault) ->
    first_bit_fault fe n i = NoFault.
Proof.
  induction n as [| n IH]; intros i Hall; [reflexivity |].
  cbn [first_bit_fault]. rewrite (Hall i) by lia.
  apply IH. intros j Hj. apply Hall. lia.
Qed.

Lemma first_bit_fault_at (fe : files_env) (n : nat) :
  forall i k,
    (forall j, (i <= j < k)%nat -> fe_bit fe j = NoFault) ->
    (i <= k < i + n)%nat ->
    fe_bit fe k <> NoFault ->
    first_bit_fault fe n i = fe_bit fe k.
Proof.
  induction n as [| n IH]; intros i k Hpre Hk Hbad; [lia |].
  cbn [first_bit_fault].
  destruct (decide (i = k)) as [-> | Hne].
  - destruct (fe_bit fe k); [congruence | reflexivity ..].
  - rewrite (Hpre i) by lia.
    apply IH; [| lia | exact Hbad].
    intros j Hj. apply Hpre. lia.
Qed.

Lemma unwind_returns (c dv : positive) (r : Z) (s : state) :
  classes s !! c = Some (Some dv) ->
  exists s',
    (device_destroy (Ptr c) ;; class_destroy (Ptr c) ;; ret r) s = Done r s'.
Proof.
  intros Hc.
  rewrite (bind_done _ _ _ _ _ (device_destroy_bound c dv s Hc)).
  erewrite bind_done;
    [| apply class_destroy_live with (x := None); cbn; apply lookup_insert_eq].
  eexists. reflexivity.
Qed.

Lemma files_code_ok (fe : files_env) : files_ok fe -> files_code fe = 0.
Proof.
  intros (Hfa & Hall). unfold files_code. rewrite Hfa.
  rewrite first_bit_fault_none; [reflexivity |].
  intros j Hj. apply Hall. lia.
Qed.

Lemma files_code_negative (fe : files_env) : ~ files_ok fe -> files_code fe < 0.
Proof.
  intros Hnok. unfold files_code.
  destruct (fe_aggregate fe) as [e |] eqn:Hfa; [apply neg_negative |].
  destruct (first_fault fe 32) as [Hall | (k & Hk & Hbad & Hpre)].
  - exfalso. apply Hnok. now split.
  - rewrite (first_bit_fault_at fe 32 0 k); [now apply fault_code_negative | | lia | exact Hbad].
    intros j Hj. apply Hpre. lia.
Qed.

(** X1.  An attach started with no handle in the slots returns the code of
    the first call that fails, in program order: [-ENOMEM] when the detector
    cannot be allocated, [-EINVAL] when the register resource is missing,
    the mapping's, the class's or the device's error, the error of the
    aggregate file, [-ENOMEM] for a per-bit allocation or name duplication,
    the file creation's error for a per-bit file; it returns 0 exactly when
    no call fails. *)
Theorem probe_returns_first_error (env : probe_env) (st : state) :
  length (module_present_attrs st) = 32%nat ->
  (forall j, (j < 32)%nat -> slot j st = None) ->
  (exists st', hw_module_detector_probe env st = Done (probe_code env) st') /\
  (probe_code env = 0 <-> env_ok env) /\
  probe_code env <= 0.
Proof.
  intros Hlen Hclear.
  destruct (early_ok_dec env) as [Hearly | Hearly].
  - (* the class and the device are created *)
    assert (Hcode : probe_code env = files_code (env_files env)).
    { destruct Hearly as (Hk & Hr & (a & Hm) & Hc & Hdv).
      unfold probe_code. now rewrite Hk, Hr, Hm, Hc, Hdv. }
    rewrite Hcode.
    destruct (files_ok_dec (env_files env)) as [Hfiles | Hfiles].
    + rewrite (files_code_ok _ Hfiles). split; [| split; [| lia]].
      * destruct (probe_ok env st (conj Hearly Hfiles) Hlen)
          as (l & h & dir & Hrun & _).
        eexists. exact Hrun.
      * split; [intros _; now split | reflexivity].
    + pose proof (files_code_negative _ Hfiles) as Hneg.
      split; [| split; [| lia]].
      2:{ split; [lia | intros (_ & Hf); contradiction]. }
      rewrite (probe_unfold env st Hearly).
      assert (Hnz : (files_code (env_files env) =? 0) = false)
        by (apply Z.eqb_neq; lia).
      destruct (fe_aggregate (env_files env)) as [e |] eqn:Hfa.
      * rewrite (bind_done _ _ _ _ _
                   (create_files_aggregate_fails _ _ _ ∅ e
                      (probe_stage_device st) Hfa)).
        unfold files_code in Hnz |- *. rewrite Hfa in Hnz |- *. rewrite Hnz.
        apply (unwind_returns _ (Pos.succ (next_ptr st))).
        unfold probe_stage. cbn [classes]. apply lookup_insert_eq.
      * destruct (first_fault (env_files env) 32)
          as [Hall | (k & Hk & Hbad & Hpre)].
        { exfalso. apply Hfiles. now split. }
        destruct (create_files_rollback (env_files env) (Pos.succ (next_ptr st))
                    (probe_stage st) ∅ k)
          as (l' & h' & np' & Hrun & _); try assumption.
        { apply probe_stage_device. }
        { apply lookup_empty. }
        { intros j _. apply lookup_empty. }
        { intros j Hj. apply Hclear. lia. }
        rewrite (bind_done _ _ _ _ _ Hrun).
        unfold files_code in Hnz |- *. rewrite Hfa in Hnz |- *.
        rewrite (first_bit_fault_at (env_files env) 32 0 k) in Hnz |- *;
          try (exact Hbad); try lia; try (intros j Hj; apply Hpre; lia).
        rewrite Hnz.
        apply (unwind_returns _ (Pos.succ (next_ptr st))).
        cbn [classes]. unfold probe_stage. cbn [classes]. apply lookup_insert_eq.
  - (* a failure before or while the class and the device are created *)
    assert (Hneg : probe_code env < 0 /\
                   exists st', hw_module_detector_probe env st
                               = Done (probe_code env) st').
    { unfold probe_code, hw_module_detector_probe.
      destruct (env_devm_kzalloc env) eqn:Hk; cbn [negb];
        [| split; [reflexivity | eexists; reflexivity]].
      destruct (env_resource env) eqn:Hr; cbn [negb];
        [| split; [reflexivity | eexists; reflexivity]].
      destruct (env_ioremap env) as [a | e] eqn:Hm;
        cbn [IS_ERR PTR_ERR reg_base with_reg_base zero_detector];
        [| split; [apply neg_negative | eexists; reflexivity]].
      rewrite (bind_done _ _ _ _ _
                 (read_reg_mapped a (mk_detector (Ptr a) 0 NULL NULL) st eq_refl)).
      destruct (env_class_create env) as [e |] eqn:Hc;
        [split; [apply neg_negative | eexists; reflexivity] |].
      rewrite (bind_done _ _ _ _ _ (class_create_new _)).
      cbn [IS_ERR PTR_ERR hw_class with_hw_class with_module_bits reg_base
           module_bits hw_device].
      destruct (env_device_create env) as [e |] eqn:Hdv.
      2:{ exfalso. apply Hearly. repeat split; try assumption. now exists a. }
      split; [apply neg_negative |].
      erewrite bind_done; [| apply device_create_err with (x := None); cbn;
                             apply lookup_insert_eq].
      cbn [IS_ERR PTR_ERR hw_class hw_device with_hw_device reg_base module_bits].
      erewrite bind_done; [| apply class_destroy_live with (x := None); cbn;
                             apply lookup_insert_eq].
      eexists. reflexivity. }
    destruct Hneg as (Hneg & Hrun).
    split; [exact Hrun |]. split; [| lia].
    split; [lia | intros (He & _); contradiction].
Qed.

Lemma probe_returns_first_error_witness :
  (exists st',
      hw_module_detector_probe
        (mk_probe_env true true (Mapped 1) None None
           (Scenario.fail_at 4 (CreateFileFails ENOSPC))) Scenario.boot
      = Done (-28) st') /\
  (-28 = 0 <->
   env_ok (mk_probe_env true true (Mapped 1) None None
             (Scenario.fail_at 4 (CreateFileFails ENOSPC)))) /\
  -28 <= 0.
Proof.
  apply (probe_returns_first_error
           (mk_probe_env true true (Mapped 1) None None
              (Scenario.fail_at 4 (CreateFileFails ENOSPC))) Scenario.boot).
  - reflexivity.
  - intros j _. apply boot_slots_empty.
Defined.

(** ** The slot array keeps its 32 entries *)

Lemma keeps_length_ret {A} (a : A) : keeps_length (ret a).
Proof. intros st b st' H. now injection H as _ <-. Qed.

Lemma keeps_length_bind {A B} (m : M A) (k : A -> M B) :
  keeps_length m -> (forall a, keeps_length (k a)) -> keeps_length (bind m k).
Proof.
  intros Hm Hk st b st' H. apply bind_inv in H as (a & st1 & H1 & H2).
  rewrite (Hk a _ _ _ H2). exact (Hm _ _ _ H1).
Qed.

Ltac keeps_length_prim :=
  let H := fresh in
  intros ? ? ? H;
  unfold kzalloc, kstrdup, attr_load, attr_store, kfree, dev_dir, class_create,
    device_create, device_destroy, class_destroy, readl, get_slot, set_slot,
    gets, modify, ub, ret in H;
  repeat case_match; simplify_eq; cbn; rewrite ?length_insert; reflexivity.

Lemma keeps_length_kzalloc ok : keeps_length (kzalloc ok).
Proof. keeps_length_prim. Qed.
Lemma keeps_length_kstrdup ok s : keeps_length (kstrdup ok s).
Proof. keeps_length_prim. Qed.
Lemma keeps_length_attr_load p : keeps_length (attr_load p).
Proof. keeps_length_prim. Qed.
Lemma keeps_length_attr_store p f : keeps_length (attr_store p f).
Proof. keeps_length_prim. Qed.
Lemma keeps_length_kfree p : keeps_length (kfree p).
Proof. keeps_length_prim. Qed.
Lemma keeps_length_dev_dir dev : keeps_length (dev_dir dev).
Proof. keeps_length_prim. Qed.
Lemma keeps_length_class_create v : keeps_length (class_create v).
Proof. keeps_length_prim. Qed.
Lemma keeps_length_device_create v c : keeps_length (device_create v c).
Proof. keeps_length_prim. Qed.
Lemma keeps_length_device_destroy c : keeps_length (device_destroy c).
Proof. keeps_length_prim. Qed.
Lemma keeps_length_class_destroy c : keeps_length (class_destroy c).
Proof. keeps_length_prim. Qed.
Lemma keeps_length_readl b : keeps_length (readl b).
Proof. keeps_length_prim. Qed.
Lemma keeps_length_get_slot i : keeps_length (get_slot i).
Proof. keeps_length_prim. Qed.
Lemma keeps_length_set_slot i v : keeps_length (set_slot i v).
Proof. keeps_length_prim. Qed.
Lemma keeps_length_ub {A} w : keeps_length (@ub A w).
Proof. keeps_length_prim. Qed.
Lemma keeps_length_modify_other (f : state -> state) :
  (forall st, module_present_attrs (f st) = module_present_attrs st) ->
  keeps_length (modify f).
Proof. intros Hf st a st' H. unfold modify in H. simplify_eq. now rewrite Hf. Qed.

Lemma keeps_length_kfree_name p : keeps_length (kfree_name p).
Proof.
  apply keeps_length_bind; [apply keeps_length_attr_load | intros; apply keeps_length_ret].
Qed.

Lemma keeps_length_deref_attr r : keeps_length (deref_attr r).
Proof. destruct r; [apply keeps_length_ret | apply keeps_length_attr_load]. Qed.

Lemma keeps_length_device_create_file v dev r :
  keeps_length (device_create_file v dev r).
Proof.
  apply keeps_length_bind; [apply keeps_length_dev_dir |].
  intros [[d dir] |]; [| apply keeps_length_ret].
  apply keeps_length_bind; [apply keeps_length_deref_attr |]. intros a.
  destruct (attr_name a) as [nm |]; [| apply keeps_length_ub].
  destruct v; [apply keeps_length_ret |].
  destruct (dir !! nm); [apply keeps_length_ret |].
  apply keeps_length_bind; [| intros; apply keeps_length_ret].
  now apply keeps_length_modify_other.
Qed.

Lemma keeps_length_device_remove_file dev r :
  keeps_length (device_remove_file dev r).
Proof.
  apply keeps_length_bind; [apply keeps_length_dev_dir |].
  intros [[d dir] |]; [| apply keeps_length_ret].
  apply keeps_length_bind; [apply keeps_length_deref_attr |]. intros a.
  destruct (attr_name a) as [nm |]; [| apply keeps_length_ub].
  now apply keeps_length_modify_other.
Qed.

Lemma keeps_length_create_loop fe dev n :
  forall i, keeps_length (create_loop fe dev n i).
Proof.
  induction n as [| n IH]; intros i; [apply keeps_length_ret |].
  cbn [create_loop].
  apply keeps_length_bind; [apply keeps_length_kzalloc |]. intros p.
  apply keeps_length_bind; [apply keeps_length_set_slot |]. intros _.
  destruct p as [a |]; [| apply keeps_length_ret].
  apply keeps_length_bind; [apply keeps_length_kstrdup |]. intros nm.
  apply keeps_length_bind; [apply keeps_length_attr_store |]. intros _.
  destruct nm as [nm |].
  - apply keeps_length_bind; [apply keeps_length_attr_store |]. intros _.
    apply keeps_length_bind; [apply keeps_length_attr_store |]. intros _.
    apply keeps_length_bind; [apply keeps_length_device_create_file |]. intros r.
    destruct (r =? 0); [apply IH |].
    apply keeps_length_bind; [apply keeps_length_kfree_name |]. intros _.
    apply keeps_length_bind; [apply keeps_length_kfree |]. intros _.
    apply keeps_length_bind; [apply keeps_length_set_slot |]. intros _.
    apply keeps_length_ret.
  - apply keeps_length_bind; [apply keeps_length_kfree |]. intros _.
    apply keeps_length_bind; [apply keeps_length_set_slot |]. intros _.
    apply keeps_length_ret.
Qed.

Lemma keeps_length_teardown_loop clear dev n :
  forall i, keeps_length (teardown_loop clear dev n i).
Proof.
  induction n as [| n IH]; intros i; [apply keeps_length_ret |].
  cbn [teardown_loop].
  apply keeps_length_bind; [apply keeps_length_get_slot |]. intros s.
  apply keeps_length_bind; [| intros; apply IH].
  destruct s as [a |]; [| apply keeps_length_ret].
  apply keeps_length_bind; [apply keeps_length_device_remove_file |]. intros _.
  apply keeps_length_bind; [apply keeps_length_kfree_name |]. intros _.
  apply keeps_length_bind; [apply keeps_length_kfree |]. intros _.
  destruct clear; [apply keeps_length_set_slot | apply keeps_length_ret].
Qed.

Lemma keeps_length_create_module_sysfs_files fe dev :
  keeps_length (create_module_sysfs_files fe dev).
Proof.
  apply keeps_length_bind; [apply keeps_length_device_create_file |]. intros r.
  destruct (r =? 0); [| apply keeps_length_ret].
  apply keeps_length_bind; [apply keeps_length_create_loop |].
  intros [e |]; [| apply keeps_length_ret].
  apply keeps_length_bind.
  { intros st a st' H. rewrite cleanup_loop_teardown in H.
    exact (keeps_length_teardown_loop false dev 32 0 _ _ _ H). }
  intros _.
  apply keeps_length_bind; [apply keeps_length_device_remove_file |]. intros _.
  apply keeps_length_ret.
Qed.

Lemma keeps_length_remove_module_sysfs_files dev :
  keeps_length (remove_module_sysfs_files dev).
Proof.
  apply keeps_length_bind; [| intros; apply keeps_length_device_remove_file].
  intros st a st' H. rewrite remove_loop_teardown in H.
  exact (keeps_length_teardown_loop true dev 32 0 _ _ _ H).
Qed.

Lemma keeps_length_probe env : keeps_length (hw_module_detector_probe env).
Proof.
  unfold hw_module_detector_probe.
  destruct (negb (env_devm_kzalloc env)); [apply keeps_length_ret |].
  destruct (negb (env_resource env)); [apply keeps_length_ret |].
  destruct (IS_ERR _); [apply keeps_length_ret |].
  apply keeps_length_bind.
  { unfold read_hw_module_reg.
    destruct (reg_base _); [apply keeps_length_ret | |];
      (apply keeps_length_bind; [apply keeps_length_readl | intros; apply keeps_length_ret]). }
  intros det.
  apply keeps_length_bind; [apply keeps_length_class_create |]. intros cls.
  destruct (IS_ERR _); [apply keeps_length_ret |].
  apply keeps_length_bind; [apply keeps_length_device_create |]. intros dv.
  destruct (IS_ERR _).
  { apply keeps_length_bind; [apply keeps_length_class_destroy |].
    intros; apply keeps_length_ret. }
  apply keeps_length_bind; [apply keeps_length_create_module_sysfs_files |].
  intros r. destruct (r =? 0).
  - apply keeps_length_bind; [now apply keeps_length_modify_other |]. intros _.
    apply keeps_length_bind; [now apply keeps_length_modify_other |]. intros _.
    apply keeps_length_ret.
  - apply keeps_length_bind; [apply keeps_length_device_destroy |]. intros _.
    apply keeps_length_bind; [apply keeps_length_class_destroy |]. intros _.
    apply keeps_length_ret.
Qed.

Lemma keeps_length_remove : keeps_length hw_module_detector_remove.
Proof.
  unfold hw_module_detector_remove.
  apply keeps_length_bind; [intros st a st' H; unfold platform_get_drvdata, gets in H;
                            now simplify_eq |].
  intros [d |].
  - apply keeps_length_bind.
    + apply keeps_length_bind; [apply keeps_length_remove_module_sysfs_files |].
      intros _.
      apply keeps_length_bind; [apply keeps_length_device_destroy |]. intros _.
      apply keeps_length_class_destroy.
    + intros _.
      apply keeps_length_bind; [now apply keeps_length_modify_other |]. intros _.
      apply keeps_length_ret.
  - apply keeps_length_bind; [apply keeps_length_ret |]. intros _.
    apply keeps_length_bind; [now apply keeps_length_modify_other |]. intros _.
    apply keeps_length_ret.
Qed.

Lemma keeps_length_run (evs : list event) :
  forall a, keeps_length (run evs a).
Proof.
  induction evs as [| ev evs IH]; intros a; [apply keeps_length_ret |].
  cbn [run]. apply keeps_length_bind; [| intros b; apply IH].
  destruct ev as [env | | v]; cbn [step].
  - apply keeps_length_bind; [apply keeps_length_probe |].
    intros; apply keeps_length_ret.
  - apply keeps_length_bind; [apply keeps_length_remove |]. intros _.
    apply keeps_length_bind; [now apply keeps_length_modify_other |]. intros _.
    apply keeps_length_ret.
  - apply keeps_length_bind; [now apply keeps_length_modify_other |]. intros _.
    apply keeps_length_ret.
Qed.

(** ** When an attach succeeds *)

(** X2.  After any history of attach, detach and register events,
    including attaches that failed and left handles in the slots, an attach
    returns 0 if and only if none of the calls made on its behalf fails. *)
Theorem attach_succeeds_iff_no_call_fails (evs : list event) (a a' : bool)
    (st st1 : state) (env : probe_env) :
  length (module_present_attrs st) = 32%nat ->
  run evs a st = Done a' st1 ->
  (exists st2, hw_module_detector_probe env st1 = Done 0 st2) <-> env_ok env.
Proof.
  intros Hlen Hrun.
  assert (Hlen1 : length (module_present_attrs st1) = 32%nat)
    by (rewrite (keeps_length_run evs a st a' st1 Hrun); exact Hlen).
  split.
  - intros (st2 & Hprobe). exact (probe_success_inv env st1 st2 Hlen1 Hprobe).
  - intros Hok. destruct (probe_ok env st1 Hok Hlen1) as (l & h & dir & Hprobe & _).
    eexists. exact Hprobe.
Qed.

Lemma attach_succeeds_iff_no_call_fails_witness :
  exists st1,
    run [EvProbe (Scenario.env_with (Scenario.fail_at 3 KstrdupFails))]
        false Scenario.boot = Done false st1 /\
    slot 0 st1 = Some 3%positive /\
    ((exists st2,
         hw_module_detector_probe (Scenario.env_with Scenario.no_fault) st1
         = Done 0 st2) <->
     env_ok (Scenario.env_with Scenario.no_fault)).
Proof.
  eexists. split; [vm_compute; reflexivity |]. split; [vm_compute; reflexivity |].
  apply (attach_succeeds_iff_no_call_fails
           [EvProbe (Scenario.env_with (Scenario.fail_at 3 KstrdupFails))]
           false false Scenario.boot).
  - reflexivity.
  - vm_compute. reflexivity.
Defined.

(** ** The two queries agree *)

Lemma bits_to_Z_ext (n : nat) (f g : Z -> bool) :
  (forall i, 0 <= i < Z.of_nat n -> f i = g i) ->
  bits_to_Z n f = bits_to_Z n g.
Proof.
  induction n as [| n IH]; intros Hfg; [reflexivity |].
  cbn [bits_to_Z]. rewrite IH by (intros i Hi; apply Hfg; lia).
  now rewrite (Hfg (Z.of_nat n)) by lia.
Qed.

Lemma bits_to_Z_testbit (m : Z) (n : nat) :
  bits_to_Z n (Z.testbit m) = m mod 2 ^ Z.of_nat n.
Proof.
  induction n as [| n IH].
  - cbn [bits_to_Z]. change (2 ^ Z.of_nat 0) with 1. now rewrite Z.mod_1_r.
  - cbn [bits_to_Z]. rewrite IH, Nat2Z.inj_succ, Z.pow_succ_r by lia.
    rewrite (Z.mul_comm 2), Z.rem_mul_r by lia.
    rewrite <- Z.testbit_spec' by lia.
    destruct (Z.testbit m (Z.of_nat n)); cbn [Z.b2z]; lia.
Qed.

(** X3.  [hw_module_present] is the bit view of [hw_get_module_mask]: in
    every state, attached or not, [hw_module_present bit] is bit [bit] of
    the value [hw_get_module_mask] returns, for every [bit] below 32. *)
Theorem present_is_bit_of_mask (st : state) (bit : Z) :
  0 <= bit < 32 ->
  hw_module_present bit st = Z.testbit (hw_get_module_mask st) bit.
Proof.
  intros Hbit. unfold hw_get_module_mask.
  destruct (hw_detector st) as [d |] eqn:Hd.
  - rewrite (present_in_range bit st d Hd Hbit). apply testbit_shiftr_land. lia.
  - rewrite (present_no_detector bit st Hd). now rewrite Z.testbit_0_l.
Qed.

Lemma present_is_bit_of_mask_witness :
  hw_module_present 5 Scenario.attached
  = Z.testbit (hw_get_module_mask Scenario.attached) 5.
Proof. apply present_is_bit_of_mask. lia. Defined.

Lemma step_mask_range (ev : event) (a a' : bool) (st st' : state) :
  0 <= hw_get_module_mask st < 2 ^ 32 ->
  step ev a st = Done a' st' ->
  0 <= hw_get_module_mask st' < 2 ^ 32.
Proof.
  intros Hinv Hstep. destruct ev as [env | | v]; cbn [step] in Hstep.
  - apply bind_inv in Hstep as (r & s1 & Hprobe & Hret).
    injection Hret as _ <-.
    destruct (probe_result env st r s1 Hprobe)
      as [(_ & Hdet & _) | (_ & Hk)].
    + unfold hw_get_module_mask. rewrite Hdet. cbn [probe_detector module_bits].
      apply Z.mod_pos_bound. reflexivity.
    + injection Hk as _ Hk _. unfold hw_get_module_mask in *. now rewrite Hk.
  - apply bind_inv in Hstep as (r & s1 & Hrem & Hrest).
    apply remove_result in Hrem as (_ & Hnone & _).
    unfold bind, device_unbind_cleanup, platform_set_drvdata, modify, ret in Hrest.
    injection Hrest as _ <-. unfold hw_get_module_mask. cbn. rewrite Hnone. lia.
  - unfold bind, modify, ret in Hstep. injection Hstep as _ <-. exact Hinv.
Qed.

(** X4.  The mask is always a 32-bit value and the 32 answers of
    [hw_module_present] determine it: after any history of events that
    starts from a state whose mask fits 32 bits, [hw_get_module_mask] lies
    in [0, 2^32) and equals the sum of [2^i] over the bits [i < 32] that
    [hw_module_present] reports. *)
Theorem mask_is_sum_of_present_bits (evs : list event) :
  forall (a a' : bool) (st st' : state),
    0 <= hw_get_module_mask st < 2 ^ 32 ->
    run evs a st = Done a' st' ->
    0 <= hw_get_module_mask st' < 2 ^ 32 /\
    hw_get_module_mask st' = bits_to_Z 32 (fun i => hw_module_present i st').
Proof.
  induction evs as [| ev evs IH]; intros a a' st st' Hinv Hrun.
  - injection Hrun as _ <-. split; [exact Hinv |].
    rewrite (bits_to_Z_ext 32 _ (Z.testbit (hw_get_module_mask st))).
    + rewrite bits_to_Z_testbit. symmetry. now apply Z.mod_small.
    + intros i Hi. unfold hw_get_module_mask.
      destruct (hw_detector st) as [d |] eqn:Hd.
      * rewrite (present_in_range i st d Hd) by lia.
        apply testbit_shiftr_land. lia.
      * rewrite (present_no_detector i st Hd). now rewrite Z.testbit_0_l.
  - cbn [run] in Hrun. apply bind_inv in Hrun as (b & s1 & Hstep & Hrun).
    exact (IH b a' s1 st' (step_mask_range ev a b st s1 Hinv Hstep) Hrun).
Qed.

Lemma mask_is_sum_of_present_bits_witness :
  exists st',
    run [EvProbe (Scenario.env_with Scenario.no_fault); EvRegister (-1)]
        false Scenario.boot = Done true st' /\
    0 <= hw_get_module_mask st' < 2 ^ 32 /\
    hw_get_module_mask st' = bits_to_Z 32 (fun i => hw_module_present i st').
Proof.
  eexists. split; [vm_compute; reflexivity |].
  apply (mask_is_sum_of_present_bits
           [EvProbe (Scenario.env_with Scenario.no_fault); EvRegister (-1)]
           false true Scenario.boot).
  - vm_compute. split; [discriminate | reflexivity].
  - vm_compute. reflexivity.
Defined.

(** ** What a successful attach publishes *)

Lemma published_names_spec (nm : string) :
  nm ∈ published_names <->
  nm = "module_bits" \/ exists j, (j < 32)%nat /\ nm = bit_name j.
Proof.
  unfold published_names. rewrite elem_of_cons, list_elem_of_fmap.
  split; intros [H | (j & H1 & H2)]; try (now left); right.
  - apply elem_of_seq in H2. exists j. split; [lia |].
    destruct (bit_name_parse j ltac:(lia)) as (E & _). now rewrite E.
  - exists j. split; [| apply elem_of_seq; lia].
    destruct (bit_name_parse j H1) as (E & _). now rewrite <- E.
Qed.

Lemma published_names_nodup : NoDup published_names.
Proof. apply (bool_decide_unpack _). vm_compute. exact I. Qed.

(** X5.  A successful attach publishes exactly 33 files under the new
    device: [module_bits] and [module_0] .. [module_31], all distinct and
    nothing else.  The attribute behind each file carries the file's own
    name, mode 0444 and a read handler. *)
Theorem attach_publishes_exactly_33 (env : probe_env) (st st' : state) :
  length (module_present_attrs st) = 32%nat ->
  hw_module_detector_probe env st = Done 0 st' ->
  exists dv dir,
    hw_device <$> hw_detector st' = Some (Ptr dv) /\
    devices st' !! dv = Some dir /\
    NoDup published_names /\
    (forall nm, is_Some (dir !! nm) <-> nm ∈ published_names) /\
    size dir = 33%nat /\
    (forall nm r,
        dir !! nm = Some r ->
        exists a, attr_behind st' r = Some a /\ attr_name a = Some nm /\
                  attr_mode a = 292 /\ is_Some (attr_show a)).
Proof.
  intros Hlen Hrun.
  pose proof (probe_success_inv env st st' Hlen Hrun) as Hok.
  destruct (probe_ok env st Hok Hlen) as (l & h & dir & Hrun' & Hpub).
  rewrite Hrun' in Hrun. injection Hrun as <-.
  destruct Hpub as [_ _ Hh _ Hagg Hbits Honly].
  exists (Pos.succ (next_ptr st)), dir.
  assert (Hnames : forall nm, is_Some (dir !! nm) <-> nm ∈ published_names).
  { intros nm. rewrite published_names_spec. split.
    - intros Hsome.
      destruct (decide (nm = "module_bits")) as [-> | Hne]; [now left |].
      destruct (below_dec (fun j => nm = bit_name j) 32) as [(j & Hj & E) | Hnone].
      { intros j. destruct (decide (nm = bit_name j)); [now left | now right]. }
      + right. now exists j.
      + rewrite (Honly nm Hne Hnone) in Hsome. now destruct Hsome.
    - intros [-> | (j & Hj & ->)]; [now rewrite Hagg |].
      now rewrite (Hbits j Hj). }
  split; [reflexivity |]. split; [cbn [devices]; apply lookup_insert_eq |].
  split; [exact published_names_nodup |]. split; [exact Hnames |]. split.
  - rewrite <- size_dom.
    replace (dom dir) with (list_to_set published_names : gset string).
    + now rewrite (size_list_to_set _ published_names_nodup).
    + apply set_eq. intros nm.
      now rewrite elem_of_list_to_set, elem_of_dom, Hnames.
  - intros nm r Hr.
    assert (Hin : nm ∈ published_names) by (apply Hnames; now rewrite Hr).
    apply published_names_spec in Hin as [-> | (j & Hj & ->)].
    + rewrite Hagg in Hr. injection Hr as <-.
      exists dev_attr_module_bits. repeat split. now eexists.
    + rewrite (Hbits j Hj) in Hr. injection Hr as <-.
      exists (bit_attr j). cbn [attr_behind kheap].
      split; [now apply Hh |]. repeat split. now eexists.
Qed.

Lemma attach_publishes_exactly_33_witness :
  exists dv dir,
    hw_device <$> hw_detector Scenario.attached = Some (Ptr dv) /\
    devices Scenario.attached !! dv = Some dir /\
    NoDup published_names /\
    (forall nm, is_Some (dir !! nm) <-> nm ∈ published_names) /\
    size dir = 33%nat /\
    (forall nm r,
        dir !! nm = Some r ->
        exists a, attr_behind Scenario.attached r = Some a /\
                  attr_name a = Some nm /\
                  attr_mode a = 292 /\ is_Some (attr_show a)).
Proof.
  apply (attach_publishes_exactly_33 (Scenario.env_with Scenario.no_fault)
           Scenario.boot Scenario.attached).
  - reflexivity.
  - exact attached_run.
Defined.

(** ** Attach followed by detach *)

Lemma slots_all_none (l : list (option positive)) :
  length l = 32%nat ->
  (forall j, (j < 32)%nat -> default None (l !! j) = None) ->
  l = replicate 32 None.
Proof.
  intros Hlen Hnone. apply list_eq. intros j.
  destruct (decide (j < 32)%nat) as [Hj | Hj].
  - rewrite lookup_replicate_2 by exact Hj.
    specialize (Hnone j Hj).
    destruct (l !! j) as [x |] eqn:E.
    + cbn in Hnone. now subst x.
    + apply lookup_ge_None in E. lia.
  - rewrite lookup_ge_None_2 by lia.
    symmetry. apply lookup_ge_None_2. rewrite length_replicate. lia.
Qed.

(** X6.  An attach in which no call fails, followed by a detach, gives back
    everything it took: the slots are all NULL, the singleton is NULL, and
    the allocated attributes, the classes and the devices are exactly those
    of the state before the attach.  The state reached is again one from
    which the cycle can be repeated. *)
Theorem attach_detach_round_trip (env : probe_env) (st : state) :
  env_ok env ->
  fresh st ->
  length (module_present_attrs st) = 32%nat ->
  exists st2,
    (hw_module_detector_probe env ;; hw_module_detector_remove) st = Done 0 st2 /\
    module_present_attrs st2 = replicate 32 None /\
    hw_detector st2 = None /\
    hw_reg st2 = hw_reg st /\
    kheap st2 = kheap st /\
    classes st2 = classes st /\
    devices st2 = devices st /\
    fresh st2.
Proof.
  intros Hok Hfresh Hlen.
  destruct (probe_ok env st Hok Hlen) as (l & h & dir & Hrun & Hpub).
  rewrite (bind_done _ _ _ _ _ Hrun).
  set (np := Pos.succ (Pos.succ (next_ptr st))) in *.
  set (s1 := mk_state _ _ _ _ _ _ _ _ _).
  assert (Hr : range_ok 32 0 s1)
    by (apply (published_range_ok np (kheap st) s1 dir); exact Hpub).
  destruct (remove_bound s1 (probe_detector env st) (next_ptr st)
              (Pos.succ (next_ptr st)) dir)
    as (l' & h' & Hrem & Hs & Hlen' & Hf1 & Hf2);
    try reflexivity; try exact Hr.
  { apply lookup_insert_eq. }
  { apply lookup_insert_eq. }
  destruct Hpub as [Hl Hslots Hh Hhr _ _ _].
  destruct (Hfresh (next_ptr st) ltac:(lia)) as (_ & Hc & _).
  destruct (Hfresh (Pos.succ (next_ptr st)) ltac:(lia)) as (_ & _ & Hd).
  assert (Hslot1 : forall j, (j < 32)%nat -> slot j s1 = Some (ptr_at np j)).
  { intros j Hj. unfold slot, s1. cbn [module_present_attrs]. now rewrite Hslots. }
  assert (Hheap : h' = kheap st).
  { apply map_eq. intros p.
    destruct (below_dec (fun j => p = ptr_at np j) 32) as [(j & Hj & ->) | Hnone].
    { intros j. destruct (decide (p = ptr_at np j)); [now left | now right]. }
    - rewrite Hf1 by (exists j; split; [lia | now apply Hslot1]).
      symmetry. apply (Hfresh (ptr_at np j)).
      pose proof (ptr_at_ge np j). unfold np in *. lia.
    - rewrite Hf2.
      + unfold s1. cbn [kheap]. now apply Hhr.
      + intros (j & Hj & Hp). rewrite Hslot1 in Hp by lia.
        injection Hp as Hp. now apply (Hnone j ltac:(lia)). }
  eexists. split; [exact Hrem |].
  cbn [module_present_attrs hw_detector hw_reg kheap classes devices s1].
  split; [apply slots_all_none; [now rewrite Hlen' | exact Hs] |].
  split; [reflexivity |]. split; [reflexivity |]. split; [exact Hheap |].
  split; [now apply delete_insert_id |]. split; [now apply delete_insert_id |].
  intros q Hq. cbn [next_ptr kheap classes devices s1] in *.
  pose proof (ptr_at_ge np 32). unfold np in *.
  rewrite Hheap, !delete_insert_id by assumption.
  apply Hfresh. lia.
Qed.

Lemma attach_detach_round_trip_witness :
  exists st2,
    (hw_module_detector_probe (Scenario.env_with Scenario.no_fault) ;;
     hw_module_detector_remove) Scenario.boot = Done 0 st2 /\
    module_present_attrs st2 = replicate 32 None /\
    hw_detector st2 = None /\
    hw_reg st2 = hw_reg Scenario.boot /\
    kheap st2 = kheap Scenario.boot /\
    classes st2 = classes Scenario.boot /\
    devices st2 = devices Scenario.boot /\
    fresh st2.
Proof.
  apply (attach_detach_round_trip (Scenario.env_with Scenario.no_fault)
           Scenario.boot).
  - split; [| split; [reflexivity | intros j _; reflexivity]].
    repeat split. now exists 1%positive.
  - exact boot_fresh.
  - reflexivity.
Defined.

(** ** The name buffer *)

Lemma length_string_app (s1 s2 : string) :
  String.length (s1 +:+ s2) = (String.length s1 + String.length s2)%nat.
Proof.
  induction s1 as [| c s1 IH]; [reflexivity |].
  change (S (String.length (s1 +:+ s2))
          = S (String.length s1 + String.length s2)).
  now rewrite IH.
Qed.

Lemma substring_whole (s : string) :
  forall n, (String.length s <= n)%nat -> String.substring 0 n s = s.
Proof.
  induction s as [| c s IH]; intros n Hn.
  - now destruct n.
  - destruct n as [| n]; cbn in Hn; [lia |].
    cbn. rewrite IH by lia. reflexivity.
Qed.

Lemma length_pretty_N_go (k : nat) :
  forall (x : N) (s : string),
    (x < 10 ^ N.of_nat k)%N ->
    (String.length (pretty_N_go x s) <= k + String.length s)%nat.
Proof.
  induction k as [| k IH]; intros x s Hx.
  - assert (x = 0%N) by (cbn in Hx; lia). subst x.
    rewrite pretty_N_go_0. lia.
  - destruct (decide (x = 0%N)) as [-> | Hnz]; [rewrite pretty_N_go_0; lia |].
    rewrite pretty_N_go_step by lia.
    etrans; [apply IH |].
    + apply N.Div0.div_lt_upper_bound.
      rewrite Nat2N.inj_succ, N.pow_succ_r' in Hx. exact Hx.
    + cbn [String.length]. lia.
Qed.

Lemma length_pretty_int (i : Z) :
  - 2 ^ 31 <= i < 2 ^ 31 -> (String.length (pretty i) <= 11)%nat.
Proof.
  intros Hi.
  assert (Hpos : forall p : positive,
             (N.pos p < 10 ^ N.of_nat 10)%N ->
             (String.length (pretty (N.pos p)) <= 10)%nat).
  { intros p Hp. unfold pretty, pretty_N.
    destruct (decide (N.pos p = 0%N)) as [E | _]; [discriminate E |].
    pose proof (length_pretty_N_go 10 (N.pos p) "" Hp) as H.
    cbn [String.length] in H. lia. }
  destruct i as [| p | p]; unfold pretty, pretty_Z.
  - cbn. lia.
  - change (pretty p) with (pretty (N.pos p)).
    etrans; [apply Hpos |]; [| lia].
    change (10 ^ N.of_nat 10)%N with 10000000000%N. lia.
  - rewrite length_string_app. change (pretty p) with (pretty (N.pos p)).
    cbn [String.length]. apply le_n_S. apply Hpos.
    change (10 ^ N.of_nat 10)%N with 10000000000%N. lia.
Qed.

(** X7.  The 20-byte buffer [name] is large enough for every [int]: for any
    32-bit index, [snprintf(name, sizeof(name), "module_%d", i)] stores the
    whole text [module_<i>] without truncation. *)
Theorem name_buffer_never_truncates (i : Z) :
  - 2 ^ 31 <= i < 2 ^ 31 ->
  snprintf_module 20 i = "module_" +:+ pretty i /\
  (String.length (snprintf_module 20 i) < 20)%nat.
Proof.
  intros Hi. pose proof (length_pretty_int i Hi) as Hlen.
  assert (Hall : (String.length ("module_" +:+ pretty i) <= 18)%nat).
  { rewrite length_string_app. cbn [String.length]. lia. }
  unfold snprintf_module.
  rewrite substring_whole by (cbn [Nat.sub]; lia).
  split; [reflexivity | lia].
Qed.

Lemma name_buffer_never_truncates_witness :
  snprintf_module 20 (-2147483648) = "module_" +:+ pretty (-2147483648) /\
  (String.length (snprintf_module 20 (-2147483648)) < 20)%nat.
Proof. apply name_buffer_never_truncates. lia. Defined.

(** ** The two teardown loops side by side *)

Lemma held_dec (n i : nat) (st : state) (p : positive) :
  held n i st p \/ ~ held n i st p.
Proof.
  destruct (below_dec (fun j => (i <= j)%nat /\ slot j st = Some p) (i + n))
    as [(j & Hj & Hi & Hp) | Hnone].
  { intros j. destruct (decide ((i <= j)%nat /\ slot j st = Some p));
      [now left | now right]. }
  - left. exists j. split; [lia | exact Hp].
  - right. intros (j & Hj & Hp). apply (Hnone j); [lia | split; [lia | exact Hp]].
Qed.

Lemma held_name_dec (n i : nat) (st : state) (nm : string) :
  held_name n i st nm \/ ~ held_name n i st nm.
Proof.
  destruct (below_dec
              (fun j => (i <= j)%nat /\
                        exists p a, slot j st = Some p /\
                                    kheap st !! p = Some a /\
                                    attr_name a = Some nm) (i + n))
    as [(j & Hj & Hi & p & a & H) | Hnone].
  { intros j. destruct (decide (i <= j)%nat) as [Hi | Hi]; [| right; tauto].
    destruct (slot j st) as [p |] eqn:Hp;
      [| right; intros (_ & ? & ? & ? & _); discriminate].
    destruct (kheap st !! p) as [a |] eqn:Ha;
      [| right; intros (_ & ? & ? & ? & ? & _); congruence].
    destruct (decide (attr_name a = Some nm)) as [Hn | Hn].
    - left. split; [exact Hi |]. now exists p, a.
    - right. intros (_ & p' & a' & E1 & E2 & E3). congruence. }
  - left. exists j, p, a. destruct H as (H1 & H2 & H3). repeat split; (lia || assumption).
  - right. intros (j & p & a & Hj & H1 & H2 & H3).
    apply (Hnone j); [lia |]. split; [lia |]. now exists p, a.
Qed.

(** X8.  On the same well-ordered slots, the loop under [err_cleanup] and
    the loop of [remove_module_sysfs_files] both run to the end and leave
    the same state but for the slot array: they free the same attributes
    and remove the same files, the first leaves every slot as it found it,
    the second leaves every slot NULL. *)
Theorem teardown_loops_differ_only_in_slots (d : positive) (st : state)
    (dir : gmap string attr_ref) :
  devices st !! d = Some dir ->
  range_ok 32 0 st ->
  exists s_c s_r,
    cleanup_loop (Ptr d) 32 0 st = Done tt s_c /\
    remove_loop (Ptr d) 32 0 st = Done tt s_r /\
    module_present_attrs s_c = module_present_attrs st /\
    (forall j, (j < 32)%nat -> slot j s_r = None) /\
    s_r = set_attrs (module_present_attrs s_r) s_c.
Proof.
  intros Hd Hok.
  destruct (teardown_spec false d 32 0 st dir Hd Hok)
    as (l1 & h1 & dir1 & Hrun1 & Hsl1 & Hf1 & Hg1 & _ & Hn1 & Hm1).
  destruct (teardown_spec true d 32 0 st dir Hd Hok)
    as (l2 & h2 & dir2 & Hrun2 & (Hc2 & _) & Hf2 & Hg2 & _ & Hn2 & Hm2).
  cbn [slots_after] in Hsl1. subst l1.
  assert (Hh : h2 = h1).
  { apply map_eq. intros p. destruct (held_dec 32 0 st p) as [H | H].
    - now rewrite Hf1, Hf2.
    - now rewrite Hg1, Hg2. }
  assert (Hdir : dir2 = dir1).
  { apply map_eq. intros nm. destruct (held_name_dec 32 0 st nm) as [H | H].
    - now rewrite Hn1, Hn2.
    - now rewrite Hm1, Hm2. }
  subst h2 dir2.
  eexists _, _.
  split; [rewrite cleanup_loop_teardown; exact Hrun1 |].
  split; [rewrite remove_loop_teardown; exact Hrun2 |].
  split; [reflexivity |]. split; [| reflexivity].
  intros j Hj. apply Hc2. lia.
Qed.

Lemma teardown_loops_differ_only_in_slots_witness :
  exists s_c s_r,
    cleanup_loop (Ptr 2) 32 0 Scenario.partly = Done tt s_c /\
    remove_loop (Ptr 2) 32 0 Scenario.partly = Done tt s_r /\
    module_present_attrs s_c = module_present_attrs Scenario.partly /\
    (forall j, (j < 32)%nat -> slot j s_r = None) /\
    s_r = set_attrs (module_present_attrs s_r) s_c.
Proof.
  apply (teardown_loops_differ_only_in_slots 2 Scenario.partly Scenario.directory).
  - vm_compute. reflexivity.
  - apply range_okb_sound. vm_compute. reflexivity.
Defined.

(** ** The read handlers and the queries *)



(** ** A failure of the aggregate attribute *)

(** X10.  When the file of the aggregate attribute cannot be created,
    because the call fails or because the directory already has a file
    named [module_bits], [create_module_sysfs_files] returns that error and
    leaves the whole state as it was: no per-bit attribute is attempted,
    no slot is written and nothing has to be undone. *)
Theorem aggregate_failure_changes_nothing (fe : files_env) (d : positive)
    (st : state) (dir : gmap string attr_ref) :
  devices st !! d = Some dir ->
  is_Some (fe_aggregate fe) \/ is_Some (dir !! "module_bits") ->
  exists e,
    create_module_sysfs_files fe (Ptr d) st = Done (neg e) st /\
    (fe_aggregate fe = Some e \/ (fe_aggregate fe = None /\ e = EEXIST)).
Proof.
  intros Hd Hfail.
  destruct (fe_aggregate fe) as [e |] eqn:Hfa.
  - exists e. split; [| now left].
    now apply (create_files_aggregate_fails fe d st dir e).
  - destruct Hfail as [[? ?] | [r Hr]]; [discriminate |].
    exists EEXIST. split; [| now right].
    unfold create_module_sysfs_files. rewrite Hfa.
    unfold device_create_file, bind, dev_dir, deref_attr, ret. rewrite Hd.
    cbn [dev_attr_module_bits attr_name]. rewrite Hr. reflexivity.
Qed.

Lemma aggregate_failure_changes_nothing_witness :
  exists e,
    create_module_sysfs_files Scenario.no_fault (Ptr 2) Scenario.attached
    = Done (neg e) Scenario.attached /\
    (fe_aggregate Scenario.no_fault = Some e \/
     (fe_aggregate Scenario.no_fault = None /\ e = EEXIST)).
Proof.
  apply (aggregate_failure_changes_nothing Scenario.no_fault 2
           Scenario.attached Scenario.directory).
  - vm_compute. reflexivity.
  - right. vm_compute. eexists. reflexivity.
Defined.

(** ** The character-device stub *)

(** X11.  [my_init] returns 0 exactly when the kernel assigned a free major,
    which it then holds in [major_num] and has registered under
    ["my_device"]; otherwise it returns the negative error, which is also
    what [major_num] holds, and registers nothing.  After a successful
    [my_init], [my_exit] releases exactly that major: the table of
    registered majors is the one [my_init] found. *)
Theorem chrdev_init_exit (v : MyDevice.chrdev_verdict) (st st1 : MyDevice.cstate)
    (r : Z) :
  MyDevice.my_init v st = (r, st1) ->
  (r = 0 <-> exists m, v = MyDevice.Assigned m /\
                       MyDevice.chrdevs st !! Z.pos m = None) /\
  (r <> 0 ->
   r < 0 /\ MyDevice.major_num st1 = r /\
   MyDevice.chrdevs st1 = MyDevice.chrdevs st) /\
  (r = 0 ->
   0 < MyDevice.major_num st1 /\
   MyDevice.chrdevs st1 !! MyDevice.major_num st1 = Some MyDevice.DEVICE_NAME /\
   MyDevice.chrdevs (MyDevice.my_exit st1) = MyDevice.chrdevs st).
Proof.
  unfold MyDevice.my_init, MyDevice.register_chrdev. intros H.
  destruct v as [m | e].
  - destruct (MyDevice.chrdevs st !! Z.pos m) as [nm |] eqn:Hm.
    + cbn in H. injection H as <- <-. cbn.
      split; [| split; [intros _; now repeat split | discriminate]].
      split; [discriminate |]. intros (m' & E & Hfree). congruence.
    + cbn in H. injection H as <- <-. cbn.
      split; [| split; [intros Hne; now contradiction Hne |]].
      * split; [intros _; now exists m | reflexivity].
      * intros _. split; [reflexivity |]. split; [apply lookup_insert_eq |].
        now apply delete_insert_id.
  - pose proof (neg_negative e) as Hneg.
    destruct (Z.ltb_spec (neg e) 0) as [_ | Hge]; [| lia].
    injection H as <- <-. cbn.
    split; [| split; [intros _; now repeat split | intros E; lia]].
    split; [intros E; lia | intros (m & E & _); discriminate].
Qed.

Lemma chrdev_init_exit_witness :
  (0 = 0 <-> exists m, MyDevice.Assigned 240 = MyDevice.Assigned m /\
                       (∅ : gmap Z string) !! Z.pos m = None) /\
  (0 <> 0 ->
   0 < 0 /\
   MyDevice.major_num
     (snd (MyDevice.my_init (MyDevice.Assigned 240) (MyDevice.mk_cstate 0 ∅ []))) = 0 /\
   MyDevice.chrdevs
     (snd (MyDevice.my_init (MyDevice.Assigned 240) (MyDevice.mk_cstate 0 ∅ []))) = ∅) /\
  (0 = 0 ->
   0 < MyDevice.major_num
         (snd (MyDevice.my_init (MyDevice.Assigned 240) (MyDevice.mk_cstate 0 ∅ []))) /\
   MyDevice.chrdevs
     (snd (MyDevice.my_init (MyDevice.Assigned 240) (MyDevice.mk_cstate 0 ∅ [])))
   !! MyDevice.major_num
        (snd (MyDevice.my_init (MyDevice.Assigned 240) (MyDevice.mk_cstate 0 ∅ [])))
   = Some MyDevice.DEVICE_NAME /\
   MyDevice.chrdevs
     (MyDevice.my_exit
        (snd (MyDevice.my_init (MyDevice.Assigned 240) (MyDevice.mk_cstate 0 ∅ []))))
   = ∅).
Proof.
  apply (chrdev_init_exit (MyDevice.Assigned 240) (MyDevice.mk_cstate 0 ∅ [])).
  reflexivity.
Defined.

(** ** A failed attach after a failed attach *)

(** An attach that fails in the round of bit [k], started with no handle in
    the slots above [k]. *)
Lemma probe_fails_at (env : probe_env) (st : state) (k : nat) :
  early_ok env ->
  fe_aggregate (env_files env) = None ->
  (k < 32)%nat ->
  (forall j, (j < k)%nat -> fe_bit (env_files env) j = NoFault) ->
  fe_bit (env_files env) k <> NoFault ->
  length (module_present_attrs st) = 32%nat ->
  (forall j, (k < j < 32)%nat -> slot j st = None) ->
  fresh st ->
  exists l' np' log',
    hw_module_detector_probe env st =
      Done (fault_code (fe_bit (env_files env) k))
        (mk_state (hw_reg st) (hw_detector st) l' (kheap st) (classes st)
           (devices st) np' (drvdata st) log') /\
    length l' = 32%nat /\
    l' !! k = Some None /\
    (forall j, (k < j)%nat -> l' !! j = module_present_attrs st !! j) /\
    (next_ptr st <= np')%positive.
Proof.
  intros Hearly Hfa Hk Hpre Hbad Hlen Hstale Hfresh.
  rewrite (probe_unfold env st Hearly).
  destruct (create_files_rollback (env_files env) (Pos.succ (next_ptr st))
              (probe_stage st) ∅ k)
    as (l' & h' & np' & Hrun & Hsub & _ & _ & Hat & Habove & Hl & Hnp & Hlow);
    try assumption.
  { apply probe_stage_device. }
  { apply lookup_empty. }
  { intros j _. apply lookup_empty. }
  rewrite (bind_done _ _ _ _ _ Hrun).
  pose proof (fault_code_negative _ Hbad) as Hneg.
  destruct (Z.eqb_spec (fault_code (fe_bit (env_files env) k)) 0) as [E | _];
    [lia |].
  assert (Hh : h' = kheap st).
  { apply fresh_heap_eq; [exact Hfresh | exact Hsub |].
    intros q Hq. apply Hlow. unfold probe_stage. cbn [next_ptr]. lia. }
  subst h'.
  eexists l', np', _. split; [| split; [exact Hl | split; [exact Hat | split]]].
  - now rewrite <- (probe_unwind st _ _ _ _ Hfresh).
  - exact Habove.
  - unfold probe_stage in Hnp. cbn [next_ptr] in Hnp. lia.
Qed.

(** X12.  When an attach fails in the round of bit [k1] and the next attach
    fails in the round of a bit [k2 >= k1], the second failure is rolled
    back like the first: both return their error codes and afterwards the
    singleton, the allocated attributes, the classes and the devices are
    those of the state before the first attempt.  (The handles the first
    attempt left in the slots below [k1] are overwritten by the second
    before its cleanup reads them.) *)
Theorem second_failure_not_below_first_is_rolled_back
    (env1 env2 : probe_env) (st : state) (k1 k2 : nat) :
  length (module_present_attrs st) = 32%nat ->
  (forall j, (j < 32)%nat -> slot j st = None) ->
  fresh st ->
  early_ok env1 -> fe_aggregate (env_files env1) = None ->
  (forall j, (j < k1)%nat -> fe_bit (env_files env1) j = NoFault) ->
  fe_bit (env_files env1) k1 <> NoFault ->
  early_ok env2 -> fe_aggregate (env_files env2) = None ->
  (forall j, (j < k2)%nat -> fe_bit (env_files env2) j = NoFault) ->
  fe_bit (env_files env2) k2 <> NoFault ->
  (k1 <= k2 < 32)%nat ->
  exists st1 st2,
    hw_module_detector_probe env1 st =
      Done (fault_code (fe_bit (env_files env1) k1)) st1 /\
    hw_module_detector_probe env2 st1 =
      Done (fault_code (fe_bit (env_files env2) k2)) st2 /\
    hw_detector st2 = hw_detector st /\
    kheap st2 = kheap st /\
    classes st2 = classes st /\
    devices st2 = devices st.
Proof.
  intros Hlen Hclear Hfresh He1 Ha1 Hp1 Hb1 He2 Ha2 Hp2 Hb2 Hk.
  destruct (probe_fails_at env1 st k1 He1 Ha1 ltac:(lia) Hp1 Hb1 Hlen)
    as (l1 & np1 & log1 & Hrun1 & Hl1 & Hat1 & Habove1 & Hnp1);
    [intros j Hj; apply Hclear; lia | exact Hfresh |].
  set (s1 := mk_state _ _ _ _ _ _ _ _ _) in Hrun1.
  assert (Hfresh1 : fresh s1).
  { intros q Hq. unfold s1 in *. cbn [next_ptr kheap classes devices] in *.
    apply Hfresh. lia. }
  assert (Hstale1 : forall j, (k2 < j < 32)%nat -> slot j s1 = None).
  { intros j Hj. unfold slot, s1. cbn [module_present_attrs].
    rewrite Habove1 by lia. apply (Hclear j). lia. }
  destruct (probe_fails_at env2 s1 k2 He2 Ha2 ltac:(lia) Hp2 Hb2 Hl1 Hstale1 Hfresh1)
    as (l2 & np2 & log2 & Hrun2 & _).
  eexists _, _. split; [exact Hrun1 |]. split; [exact Hrun2 |].
  now repeat split.
Qed.

Lemma second_failure_not_below_first_is_rolled_back_witness :
  exists st1 st2,
    hw_module_detector_probe (Scenario.env_with (Scenario.fail_at 1 KzallocFails))
      Scenario.boot = Done (-12) st1 /\
    hw_module_detector_probe
      (Scenario.env_with (Scenario.fail_at 3 (CreateFileFails EEXIST))) st1
      = Done (-17) st2 /\
    hw_detector st2 = hw_detector Scenario.boot /\
    kheap st2 = kheap Scenario.boot /\
    classes st2 = classes Scenario.boot /\
    devices st2 = devices Scenario.boot.
Proof.
  apply (second_failure_not_below_first_is_rolled_back
           (Scenario.env_with (Scenario.fail_at 1 KzallocFails))
           (Scenario.env_with (Scenario.fail_at 3 (CreateFileFails EEXIST)))
           Scenario.boot 1 3).
  - reflexivity.
  - intros j _. apply boot_slots_empty.
  - exact boot_fresh.
  - repeat split. now exists 1%positive.
  - reflexivity.
  - apply fail_at_prefix.
  - apply fail_at_hit. discriminate.
  - repeat split. now exists 1%positive.
  - reflexivity.
  - apply fail_at_prefix.
  - apply fail_at_hit. discriminate.
  - lia.
Defined.
